(** * Position lifecycle of the trading bot: a shallow embedding

    The development follows the Python sources:
    - [src/core/asset.py]       (Asset, [ensure_valid_quantity]),
    - [src/core/position.py]    (TakeProfit, Position, [add_take_profit],
                                 [close], [to_dict], [from_dict]),
    - [src/repositories/file_position_repository.py]
                                (record loading and the file writers),
    - [src/services/position_service.py] ([close_position]),
    - [src/services/signal_processor.py] (cleaning and the bot field).

    Python's [decimal.Decimal] values are finite decimals
    [coefficient * 10 ^ exponent]; their arithmetic is modelled exactly,
    which is what Python computes as long as a coefficient stays within the
    28 digits of the default context.  NaN, the infinities and the sign of a
    zero are not represented. *)

From Stdlib Require Import ZArith QArith Qpower Lia Lqa String Ascii List Bool.
From Stdlib Require Import DecimalString DecimalZ.
From stdpp Require Import gmap strings list.

Local Open Scope Z_scope.

(** ** Strings *)

(** ASCII upper-casing, [str.upper] on the strings met here. *)
Definition upper_ascii (c : ascii) : ascii :=
  let n := nat_of_ascii c in
  if ((97 <=? n)%nat && (n <=? 122)%nat)%bool then ascii_of_nat (n - 32) else c.

Fixpoint upper (s : string) : string :=
  match s with
  | EmptyString => EmptyString
  | String c s' => String (upper_ascii c) (upper s')
  end.

(** The text before and the text after the first occurrence of [sep]. *)
Fixpoint split_once (sep : ascii) (s : string) : option (string * string) :=
  match s with
  | EmptyString => None
  | String c s' =>
      if Ascii.eqb c sep then Some (EmptyString, s')
      else match split_once sep s' with
           | Some (a, b) => Some (String c a, b)
           | None => None
           end
  end.

(** The decimal digits of an integer, [str(n)], and their reading. *)
Definition print_Z (z : Z) : string := NilEmpty.string_of_int (Z.to_int z).
Definition read_Z (s : string) : option Z :=
  match NilEmpty.int_of_string s with
  | Some d => Some (Z.of_int d)
  | None => None
  end.

(** ** Python's Decimal *)

Module Dec.

Record Decimal : Type := mkDecimal { coefficient : Z; exponent : Z }.

(** [Decimal('0')], also the image of the integer literal [0]. *)
Definition zero : Decimal := mkDecimal 0 0.

Definition of_int (n : Z) : Decimal := mkDecimal n 0.

(** The coefficient of [d] once rewritten with the exponent [m]
    (meaningful for [m <= exponent d]). *)
Definition scale (m : Z) (d : Decimal) : Z :=
  coefficient d * 10 ^ (exponent d - m).

(** Numerical comparison: both operands are aligned on the smaller
    exponent, then the coefficients are compared. *)
Definition compare (a b : Decimal) : comparison :=
  let m := Z.min (exponent a) (exponent b) in
  Z.compare (scale m a) (scale m b).

Definition eqb (a b : Decimal) : bool :=
  match compare a b with Eq => true | _ => false end.
Definition ltb (a b : Decimal) : bool :=
  match compare a b with Lt => true | _ => false end.
Definition gtb (a b : Decimal) : bool :=
  match compare a b with Gt => true | _ => false end.
Definition leb (a b : Decimal) : bool :=
  match compare a b with Gt => false | _ => true end.

(** [a + b] and [a - b]: the result carries the smaller exponent. *)
Definition add (a b : Decimal) : Decimal :=
  let m := Z.min (exponent a) (exponent b) in
  mkDecimal (scale m a + scale m b) m.
Definition sub (a b : Decimal) : Decimal :=
  let m := Z.min (exponent a) (exponent b) in
  mkDecimal (scale m a - scale m b) m.

(** [a * b]: coefficients multiply, exponents add. *)
Definition mul (a b : Decimal) : Decimal :=
  mkDecimal (coefficient a * coefficient b) (exponent a + exponent b).

(** [a // b]: the integer part of the quotient, truncated toward zero,
    with exponent 0.  Python raises for a zero divisor. *)
Definition floordiv (a b : Decimal) : option Decimal :=
  if coefficient b =? 0 then None
  else
    let m := Z.min (exponent a) (exponent b) in
    Some (mkDecimal (Z.quot (scale m a) (scale m b)) 0).

(** [d.quantize(e, rounding=ROUND_DOWN)]: [d] rewritten with the exponent
    of [e], the digits that do not fit being dropped. *)
Definition quantize_down (d e : Decimal) : Decimal :=
  if exponent e <=? exponent d
  then mkDecimal (coefficient d * 10 ^ (exponent d - exponent e)) (exponent e)
  else mkDecimal (Z.quot (coefficient d) (10 ^ (exponent e - exponent d)))
                 (exponent e).

(** The builtins [max(a, b)] and [min(a, b)]: the first argument is kept
    unless the second one is strictly better. *)
Definition py_max (a b : Decimal) : Decimal := if gtb b a then b else a.
Definition py_min (a b : Decimal) : Decimal := if ltb b a then b else a.

(** [sum(ds)], which starts from the integer 0. *)
Definition sum (ds : list Decimal) : Decimal := fold_left add ds zero.

(** The rational number a decimal denotes. *)
Definition value (d : Decimal) : Q :=
  (inject_Z (coefficient d) * Qpower (inject_Z 10) (exponent d))%Q.

End Dec.

Export Dec(Decimal, mkDecimal, coefficient, exponent).

(** ** Exceptions and results *)

(** The exception classes the embedded code can raise. *)
Inductive exn_class : Type :=
| ValueError | KeyError | TypeError | AttributeError | NameError
| InvalidOperation | ExchangeError.

Record exn : Type := Raise { exn_kind : exn_class; exn_message : string }.

(** A computation either returns a value or raises. *)
Inductive result (A : Type) : Type :=
| Ok (a : A)
| Err (e : exn).
Arguments Ok {A} a.
Arguments Err {A} e.

(** Sequencing, with stdpp's notation [x ← r; k]: an exception raised by
    [r] skips [k]. *)
#[export] Instance result_bind : MBind result :=
  fun A B (k : A -> result B) (r : result A) =>
    match r with
    | Ok a => k a
    | Err e => Err e
    end.

#[export] Instance result_ret : MRet result := fun A (a : A) => Ok a.

Definition raise {A : Type} (c : exn_class) (msg : string) : result A :=
  Err (Raise c msg).

Fixpoint mapM {A B : Type} (f : A -> result B) (l : list A) : result (list B) :=
  match l with
  | [] => Ok []
  | a :: l' => b ← f a; bs ← mapM f l'; Ok (b :: bs)
  end.

(** ** Python values that travel through dictionaries and JSON *)

#[local] Set Warnings "-register-all".
Inductive PyValue : Type :=
| PyNone
| PyStr (s : string)
| PyInt (n : Z)
| PyList (l : list PyValue)
| PyDict (d : list (string * PyValue)).
#[local] Set Warnings "register-all".

(** Truth value of an object, as tested by [if x:] and [not x]. *)
Definition truthy (v : PyValue) : bool :=
  match v with
  | PyNone => false
  | PyStr s => negb (String.eqb s "")
  | PyInt n => negb (n =? 0)
  | PyList l => match l with [] => false | _ => true end
  | PyDict d => match d with [] => false | _ => true end
  end.

(** Dictionaries keep their insertion order; a key occurs once. *)
Fixpoint dict_lookup (k : string) (d : list (string * PyValue)) : option PyValue :=
  match d with
  | [] => None
  | (k', v) :: d' => if String.eqb k k' then Some v else dict_lookup k d'
  end.

(** [d[k]] *)
Definition dict_item (k : string) (d : list (string * PyValue)) : result PyValue :=
  match dict_lookup k d with
  | Some v => Ok v
  | None => raise KeyError k
  end.

(** [d.get(k, default)] *)
Definition dict_get (k : string) (default : PyValue) (d : list (string * PyValue)) : PyValue :=
  match dict_lookup k d with
  | Some v => v
  | None => default
  end.

(** [k in d] *)
Definition dict_mem (k : string) (d : list (string * PyValue)) : bool :=
  match dict_lookup k d with Some _ => true | None => false end.

(** [d[k] = v] on a dictionary: replaces in place or appends. *)
Fixpoint dict_set (k : string) (v : PyValue) (d : list (string * PyValue))
  : list (string * PyValue) :=
  match d with
  | [] => [(k, v)]
  | (k', v') :: d' =>
      if String.eqb k k' then (k, v) :: d' else (k', v') :: dict_set k v d'
  end.

(** ** The part of the Python runtime that the code calls

    [datetime.isoformat] / [datetime.fromisoformat] and [str(Decimal)] /
    [Decimal(str)] belong to the standard library, not to the repository:
    they are operations of the interface below.  [PyRuntimeLaws] states the
    documented contract that reading back a printed value gives the value. *)

Class PyRuntime : Type := {
  datetime : Type;
  isoformat : datetime -> string;
  fromisoformat : string -> option datetime;
  decimal_str : Decimal -> string;
  decimal_parse : string -> option Decimal
}.

Record PyRuntimeLaws (R : PyRuntime) : Prop := {
  fromisoformat_isoformat : forall t : datetime, fromisoformat (isoformat t) = Some t;
  decimal_parse_str : forall d : Decimal, decimal_parse (decimal_str d) = Some d
}.

(** ** src/core/asset.py *)

Record Asset : Type := mkAsset {
  symbol : string;
  asset_type : string;
  exchange_id : string;
  min_quantity : option Decimal;
  max_quantity : option Decimal;
  step_size : option Decimal;
  price_precision : option Z;
  quote_precision : option Z
}.

(** [Asset.ensure_valid_quantity].  [None] would be the division error of
    [//], which the guard [step_size > 0] rules out. *)
Definition ensure_valid_quantity (self : Asset) (quantity : Decimal) : option Decimal :=
  (* Enforce min and max constraints *)
  let quantity :=
    match min_quantity self with
    | Some mn => Dec.py_max mn quantity
    | None => quantity
    end in
  let quantity :=
    match max_quantity self with
    | Some mx => Dec.py_min mx quantity
    | None => quantity
    end in
  (* Apply step size if available *)
  match step_size self with
  | Some step =>
      if Dec.gtb step Dec.zero then
        match Dec.floordiv quantity step with
        | None => None
        | Some n =>
            let quantity := Dec.quantize_down (Dec.mul n step) step in
            (* Check again if we're below minimum after applying step size *)
            match min_quantity self with
            | Some mn => if Dec.ltb quantity mn then Some (mkDecimal 0 0) else Some quantity
            | None => Some quantity
            end
        end
      else Some quantity
  | None => Some quantity
  end.

(** ** src/core/position.py *)

Inductive PositionDirection : Type := LONG | SHORT.
Inductive PositionStatus : Type := OPEN | CLOSED.

(** [.value] of the two enumerations. *)
Definition direction_value (d : PositionDirection) : string :=
  match d with LONG => "LONG" | SHORT => "SHORT" end.
Definition status_value (s : PositionStatus) : string :=
  match s with OPEN => "OPEN" | CLOSED => "CLOSED" end.

(** [PositionDirection(s)] and [PositionStatus(s)]: lookup by value. *)
Definition PositionDirection_of (s : string) : result PositionDirection :=
  if String.eqb s "LONG" then Ok LONG
  else if String.eqb s "SHORT" then Ok SHORT
  else raise ValueError "not a valid PositionDirection".
Definition PositionStatus_of (s : string) : result PositionStatus :=
  if String.eqb s "OPEN" then Ok OPEN
  else if String.eqb s "CLOSED" then Ok CLOSED
  else raise ValueError "not a valid PositionStatus".

(** A constructor argument that is either the enumeration member or its
    string, as [__post_init__] accepts. *)
Inductive enum_arg (E : Type) : Type :=
| Member (e : E)
| Named (s : string).
Arguments Member {E} e.
Arguments Named {E} s.

Section Position.

Context {RT : PyRuntime}.

(** Reading typed values out of a dictionary entry.  [Decimal(v)] accepts
    a string or an integer; the other readers raise [TypeError] on a value
    of another type (Python would pass such a value on unchecked). *)
Definition Decimal_of (v : PyValue) : result Decimal :=
  match v with
  | PyStr s => match decimal_parse s with
               | Some d => Ok d
               | None => raise InvalidOperation s
               end
  | PyInt n => Ok (Dec.of_int n)
  | _ => raise TypeError "conversion to Decimal"
  end.

Definition datetime_of (v : PyValue) : result datetime :=
  match v with
  | PyStr s => match fromisoformat s with
               | Some t => Ok t
               | None => raise ValueError "Invalid isoformat string"
               end
  | _ => raise TypeError "fromisoformat: argument must be str"
  end.

Definition as_str (v : PyValue) : result string :=
  match v with PyStr s => Ok s | _ => raise TypeError "str expected" end.
Definition as_int (v : PyValue) : result Z :=
  match v with PyInt n => Ok n | _ => raise TypeError "int expected" end.
Definition as_optional_str (v : PyValue) : result (option string) :=
  match v with
  | PyNone => Ok None
  | PyStr s => Ok (Some s)
  | _ => raise TypeError "Optional[str] expected"
  end.
Definition as_list (v : PyValue) : result (list PyValue) :=
  match v with PyList l => Ok l | _ => raise TypeError "list expected" end.
Definition as_dict (v : PyValue) : result (list (string * PyValue)) :=
  match v with PyDict d => Ok d | _ => raise TypeError "dict expected" end.

Definition of_optional_str (o : option string) : PyValue :=
  match o with Some s => PyStr s | None => PyNone end.

Record TakeProfit : Type := mkTakeProfit {
  tp_level : Z;
  tp_price : Decimal;
  tp_quantity : Decimal;
  tp_timestamp : datetime
}.

(** [TakeProfit.value] *)
Definition tp_value (tp : TakeProfit) : Decimal :=
  Dec.mul (tp_price tp) (tp_quantity tp).

(** [close_data] is [PyNone] or the dictionary written by [close]. *)
Record Position : Type := mkPosition {
  asset : Asset;
  direction : PositionDirection;
  initial_quantity : Decimal;
  entry_price : Decimal;
  bot_strategy : string;
  timeframe : string;
  bot_settings : string;
  leverage : Decimal;
  margin_type : option string;
  position_id : string;
  timestamp : datetime;
  take_profits : list TakeProfit;
  status : PositionStatus;
  remaining_quantity : Decimal;
  take_profit_max : Z;
  external_id : option string;
  close_data : PyValue
}.

(** The constructor followed by [__post_init__]: strings become members
    of the enumerations, a missing [remaining_quantity] becomes
    [initial_quantity]. *)
Definition Position_init
    (asset : Asset) (direction : enum_arg PositionDirection)
    (initial_quantity entry_price : Decimal)
    (bot_strategy timeframe bot_settings : string)
    (leverage : Decimal) (margin_type : option string)
    (id : string) (timestamp : datetime) (take_profits : list TakeProfit)
    (status : enum_arg PositionStatus) (remaining_quantity : option Decimal)
    (take_profit_max : Z) (external_id : option string) (close_data : PyValue)
  : result Position :=
  direction ← match direction with
              | Member d => Ok d
              | Named s => PositionDirection_of (upper s)
              end;
  status ← match status with
           | Member s => Ok s
           | Named s => PositionStatus_of (upper s)
           end;
  let remaining_quantity :=
    match remaining_quantity with
    | Some r => r
    | None => initial_quantity
    end in
  Ok (mkPosition asset direction initial_quantity entry_price bot_strategy
        timeframe bot_settings leverage margin_type id timestamp take_profits
        status remaining_quantity take_profit_max external_id close_data).

(** Attribute assignments. *)
Definition set_asset (a : Asset) (p : Position) : Position :=
  mkPosition a (direction p) (initial_quantity p) (entry_price p)
    (bot_strategy p) (timeframe p) (bot_settings p) (leverage p)
    (margin_type p) (position_id p) (timestamp p) (take_profits p)
    (status p) (remaining_quantity p) (take_profit_max p) (external_id p)
    (close_data p).
Definition set_take_profits (tps : list TakeProfit) (p : Position) : Position :=
  mkPosition (asset p) (direction p) (initial_quantity p) (entry_price p)
    (bot_strategy p) (timeframe p) (bot_settings p) (leverage p)
    (margin_type p) (position_id p) (timestamp p) tps
    (status p) (remaining_quantity p) (take_profit_max p) (external_id p)
    (close_data p).
Definition set_status (s : PositionStatus) (p : Position) : Position :=
  mkPosition (asset p) (direction p) (initial_quantity p) (entry_price p)
    (bot_strategy p) (timeframe p) (bot_settings p) (leverage p)
    (margin_type p) (position_id p) (timestamp p) (take_profits p)
    s (remaining_quantity p) (take_profit_max p) (external_id p)
    (close_data p).
Definition set_remaining_quantity (r : Decimal) (p : Position) : Position :=
  mkPosition (asset p) (direction p) (initial_quantity p) (entry_price p)
    (bot_strategy p) (timeframe p) (bot_settings p) (leverage p)
    (margin_type p) (position_id p) (timestamp p) (take_profits p)
    (status p) r (take_profit_max p) (external_id p)
    (close_data p).
Definition set_close_data (c : PyValue) (p : Position) : Position :=
  mkPosition (asset p) (direction p) (initial_quantity p) (entry_price p)
    (bot_strategy p) (timeframe p) (bot_settings p) (leverage p)
    (margin_type p) (position_id p) (timestamp p) (take_profits p)
    (status p) (remaining_quantity p) (take_profit_max p) (external_id p)
    c.

(** [Position.is_closed] *)
Definition is_closed (self : Position) : bool :=
  match status self with CLOSED => true | OPEN => false end.

(** [Position.close]; [now] is the value of [datetime.now()]. *)
Definition close (self : Position) (now : datetime)
    (price quantity : Decimal) (reason : string) (external_id : option string)
  : result Position :=
  (* Don't allow closing already closed positions *)
  if is_closed self then raise ValueError "Position already closed"
  else
    (* Adjust closing quantity to avoid closing more than we have *)
    let adjusted_quantity := Dec.py_min quantity (remaining_quantity self) in
    let data :=
      [ ("timestamp", PyStr (isoformat now));
        ("price", PyStr (decimal_str price));
        ("quantity", PyStr (decimal_str adjusted_quantity));
        ("value", PyStr (decimal_str (Dec.mul price adjusted_quantity)));
        ("reason", PyStr reason) ] in
    (* Store external ID if provided *)
    let data :=
      match external_id with
      | Some e => if String.eqb e "" then data
                  else dict_set "external_id" (PyStr e) data
      | None => data
      end in
    let self := set_close_data (PyDict data) self in
    let self :=
      set_remaining_quantity
        (Dec.sub (remaining_quantity self) adjusted_quantity) self in
    (* Mark as closed if no quantity remains *)
    if Dec.leb (remaining_quantity self) Dec.zero
    then Ok (set_remaining_quantity (mkDecimal 0 0) (set_status CLOSED self))
    else Ok self.

(** [Position.add_take_profit]; [now] and [now_close] are the values of
    the two calls of [datetime.now()].  Returns the updated position and
    the take profit. *)
Definition add_take_profit (self : Position) (now now_close : datetime)
    (price quantity : Decimal) (level : Z)
  : result (Position * TakeProfit) :=
  (* Don't allow adding take profits to closed positions *)
  if is_closed self
  then raise ValueError "Cannot add take profit to closed position"
  (* Don't allow take profit levels greater than max *)
  else if level >? take_profit_max self
  then raise ValueError "Take profit level exceeds maximum"
  (* Don't allow adding the same take profit level twice *)
  else if existsb (fun tp => tp_level tp =? level) (take_profits self)
  then raise ValueError "Take profit level already executed"
  else
    (* Ensure we're not selling more than we have *)
    let adjusted_quantity := Dec.py_min quantity (remaining_quantity self) in
    if Dec.leb adjusted_quantity Dec.zero
    then raise ValueError "No quantity available for take profit"
    else
      let take_profit := mkTakeProfit level price adjusted_quantity now in
      let self := set_take_profits (take_profits self ++ [take_profit]) self in
      let self :=
        set_remaining_quantity
          (Dec.sub (remaining_quantity self) adjusted_quantity) self in
      (* Auto-close if this was the final take profit or no quantity remains *)
      self ← (if (level =? take_profit_max self)
                 || Dec.leb (remaining_quantity self) Dec.zero
              then close self now_close price (mkDecimal 0 0) "Manual close" None
              else Ok self);
      Ok (self, take_profit).

(** [Position.to_dict] *)
Definition take_profit_to_dict (tp : TakeProfit) : PyValue :=
  PyDict [ ("level", PyInt (tp_level tp));
           ("price", PyStr (decimal_str (tp_price tp)));
           ("quantity", PyStr (decimal_str (tp_quantity tp)));
           ("timestamp", PyStr (isoformat (tp_timestamp tp)));
           ("value", PyStr (decimal_str (tp_value tp))) ].

Definition to_dict (self : Position) : list (string * PyValue) :=
  [ ("id", PyStr (position_id self));
    ("external_id", of_optional_str (external_id self));
    ("asset", PyStr (symbol (asset self)));
    ("direction", PyStr (direction_value (direction self)));
    ("initial_quantity", PyStr (decimal_str (initial_quantity self)));
    ("remaining_quantity", PyStr (decimal_str (remaining_quantity self)));
    ("entry_price", PyStr (decimal_str (entry_price self)));
    ("bot_strategy", PyStr (bot_strategy self));
    ("bot_settings", PyStr (bot_settings self));
    ("timeframe", PyStr (timeframe self));
    ("leverage", PyStr (decimal_str (leverage self)));
    ("margin_type", of_optional_str (margin_type self));
    ("timestamp", PyStr (isoformat (timestamp self)));
    ("status", PyStr (status_value (status self)));
    ("take_profit_max", PyInt (take_profit_max self));
    ("take_profits", PyList (map take_profit_to_dict (take_profits self)));
    ("close_data", close_data self) ].

(** [Position.from_dict]; [fresh_id] is the value of [str(uuid.uuid4())],
    which Python computes whether or not the key ['id'] is present. *)
Definition take_profit_from_dict (v : PyValue) : result TakeProfit :=
  tp_data ← as_dict v;
  level ← dict_item "level" tp_data ≫= as_int;
  price ← dict_item "price" tp_data ≫= Decimal_of;
  quantity ← dict_item "quantity" tp_data ≫= Decimal_of;
  timestamp ← dict_item "timestamp" tp_data ≫= datetime_of;
  Ok (mkTakeProfit level price quantity timestamp).

Definition from_dict (fresh_id : string) (data : list (string * PyValue))
    (asset : Asset) : result Position :=
  (* Convert take profits data *)
  tps_data ← as_list (dict_get "take_profits" (PyList []) data);
  take_profits ← mapM take_profit_from_dict tps_data;
  (* Create the position *)
  id ← as_str (dict_get "id" (PyStr fresh_id) data);
  direction ← dict_item "direction" data ≫= as_str;
  initial_quantity ← dict_item "initial_quantity" data ≫= Decimal_of;
  default_remaining ← dict_item "initial_quantity" data;
  remaining_quantity ← Decimal_of (dict_get "remaining_quantity" default_remaining data);
  entry_price ← dict_item "entry_price" data ≫= Decimal_of;
  bot_strategy ← dict_item "bot_strategy" data ≫= as_str;
  timeframe ← dict_item "timeframe" data ≫= as_str;
  bot_settings ← as_str (dict_get "bot_settings" (PyStr "default") data);
  leverage ← Decimal_of (dict_get "leverage" (PyStr "1") data);
  margin_type ← as_optional_str (dict_get "margin_type" PyNone data);
  timestamp ← dict_item "timestamp" data ≫= datetime_of;
  status ← as_str (dict_get "status" (PyStr (status_value OPEN)) data);
  take_profit_max ← as_int (dict_get "take_profit_max" (PyInt 3) data);
  external_id ← as_optional_str (dict_get "external_id" PyNone data);
  Position_init asset (Named direction) initial_quantity entry_price
    bot_strategy timeframe bot_settings leverage margin_type id timestamp
    take_profits (Named status) (Some remaining_quantity) take_profit_max
    external_id (dict_get "close_data" PyNone data).

End Position.

(** ** Runs of the position operations *)

Section Runs.

Context {RT : PyRuntime}.

(** The quantity recorded in [close_data], or 0 when there is none: the
    [close_quantity] of [Position.get_realized_pnl]. *)
Definition close_quantity (self : Position) : result Decimal :=
  if truthy (close_data self)
  then d ← as_dict (close_data self); dict_item "quantity" d ≫= Decimal_of
  else Ok (mkDecimal 0 0).

(** [sum(tp.quantity for tp in self.take_profits)] *)
Definition tp_quantity_sum (self : Position) : Decimal :=
  Dec.sum (map tp_quantity (take_profits self)).

(** The equation of the data model:
    [remaining == initial - sum of take-profit quantities - close quantity]. *)
Definition quantity_equation (p : Position) : Prop :=
  exists cq, close_quantity p = Ok cq /\
    Dec.eqb (remaining_quantity p)
            (Dec.sub (Dec.sub (initial_quantity p) (tp_quantity_sum p)) cq) = true.

(** A position as [PositionService.open_position] creates it: no take
    profit, no close data, everything remaining, status OPEN. *)
Definition new_position (asset : Asset) (direction : PositionDirection)
    (initial_quantity entry_price : Decimal)
    (bot_strategy timeframe bot_settings : string) (take_profit_max : Z)
    (external_id : option string) (leverage : Decimal)
    (margin_type : option string) (id : string) (now : datetime)
  : result Position :=
  Position_init asset (Member direction) initial_quantity entry_price
    bot_strategy timeframe bot_settings leverage margin_type id now []
    (Member OPEN) None take_profit_max external_id PyNone.

Inductive operation : Type :=
| AddTakeProfit (now now_close : datetime) (price quantity : Decimal) (level : Z)
| Close (now : datetime) (price quantity : Decimal) (reason : string)
        (external_id : option string).

Definition apply_operation (p : Position) (op : operation) : result Position :=
  match op with
  | AddTakeProfit now now_close price quantity level =>
      '(p', _) ← add_take_profit p now now_close price quantity level; Ok p'
  | Close now price quantity reason external_id =>
      close p now price quantity reason external_id
  end.

(** The positions reached from [p0] by successful operations. *)
Inductive reachable (p0 : Position) : Position -> Prop :=
| reachable_start : reachable p0 p0
| reachable_step (p p' : Position) (op : operation) :
    reachable p0 p -> apply_operation p op = Ok p' -> reachable p0 p'.

(** The same, when no operation is applied to a position whose
    [close_data] already records a quantity other than zero. *)
Definition nothing_closed_yet (p : Position) : Prop :=
  exists cq, close_quantity p = Ok cq /\ Dec.eqb cq Dec.zero = true.

Inductive reachable_before_close (p0 : Position) : Position -> Prop :=
| reachable_bc_start : reachable_before_close p0 p0
| reachable_bc_step (p p' : Position) (op : operation) :
    reachable_before_close p0 p -> nothing_closed_yet p ->
    apply_operation p op = Ok p' -> reachable_before_close p0 p'.

(** [p] is the result of [new_position] for some arguments. *)
Definition freshly_opened (p : Position) : Prop :=
  exists asset direction initial_quantity entry_price bot_strategy timeframe
         bot_settings take_profit_max external_id leverage margin_type id now,
    new_position asset direction initial_quantity entry_price bot_strategy
      timeframe bot_settings take_profit_max external_id leverage margin_type
      id now = Ok p.

End Runs.

(** ** src/repositories/file_position_repository.py: reading a record *)

Section Records.

Context {RT : PyRuntime}.

(** [x or default] on the values of a record. *)
Definition py_or (v default : PyValue) : PyValue :=
  if truthy v then v else default.

(** One element of the loop over [data.get('take_profits', [])]. *)
Definition create_take_profit (now : datetime) (v : PyValue) : result TakeProfit :=
  tp_data ← as_dict v;
  level ← as_int (dict_get "level" (PyInt 1) tp_data);
  price ← Decimal_of (dict_get "price" (PyStr "0") tp_data);
  quantity ← Decimal_of (dict_get "quantity" (PyStr "0") tp_data);
  timestamp ← datetime_of (dict_get "timestamp" (PyStr (isoformat now)) tp_data);
  Ok (mkTakeProfit level price quantity timestamp).

(** [FilePositionRepository._create_position_from_dict]; [now] is the
    value of [datetime.now()]. *)
Definition _create_position_from_dict (now : datetime)
    (data : list (string * PyValue)) (asset : Asset) : result Position :=
  (* Extract parts from the data that need special handling *)
  direction ← as_str (dict_get "direction" (PyStr "LONG") data)
              ≫= (fun s => PositionDirection_of (upper s));
  (* Set bot strategy if it's not in the data *)
  let bot_strategy := dict_get "bot_strategy" PyNone data in
  bot_strategy ←
    (if truthy bot_strategy then Ok bot_strategy
     else if dict_mem "bot_strategy" data then dict_item "bot_strategy" data
     else Ok bot_strategy);
  (* Create the position *)
  initial_quantity ← Decimal_of (dict_get "initial_quantity" (PyStr "0") data);
  entry_price ← Decimal_of (dict_get "entry_price" (PyStr "0") data);
  bot_strategy ← as_str (py_or bot_strategy (PyStr ""));
  timeframe ← as_str (dict_get "timeframe" (PyStr "") data);
  bot_settings ← as_str (dict_get "bot_settings" (PyStr "default") data);
  leverage ← Decimal_of (dict_get "leverage" (PyStr "1") data);
  id ← as_str (dict_get "id" (PyStr "") data);
  timestamp ← datetime_of (dict_get "timestamp" (PyStr (isoformat now)) data);
  take_profit_max ← as_int (dict_get "take_profit_max" (PyInt 3) data);
  external_id ← as_optional_str (dict_get "external_id" PyNone data);
  position ← Position_init asset (Member direction) initial_quantity entry_price
               bot_strategy timeframe bot_settings leverage None id timestamp
               [] (Member OPEN) None take_profit_max external_id PyNone;
  (* Set remaining quantity *)
  position ←
    (if dict_mem "remaining_quantity" data
     then r ← dict_item "remaining_quantity" data ≫= Decimal_of;
          Ok (set_remaining_quantity r position)
     else Ok position);
  (* Set status *)
  position ←
    (if dict_mem "status" data
     then s ← dict_item "status" data ≫= as_str;
          st ← PositionStatus_of (upper s);
          Ok (set_status st position)
     else Ok position);
  (* Handle take profits *)
  tps_data ← as_list (dict_get "take_profits" (PyList []) data);
  tps ← mapM (create_take_profit now) tps_data;
  let position := set_take_profits (take_profits position ++ tps) position in
  (* Set close data *)
  position ←
    (if truthy (dict_get "close_data" PyNone data)
     then cd ← dict_item "close_data" data;
          Ok (set_status CLOSED (set_close_data cd position))
     else Ok position);
  (* If position is supposed to be closed but status doesn't reflect it *)
  if is_closed position && Dec.gtb (remaining_quantity position) Dec.zero
  then Ok (set_remaining_quantity (mkDecimal 0 0) position)
  else Ok position.

(** The remaining quantity a record stores: its own field, or the initial
    quantity the constructor falls back on. *)
Definition stored_remaining_quantity (data : list (string * PyValue)) : result Decimal :=
  if dict_mem "remaining_quantity" data
  then dict_item "remaining_quantity" data ≫= Decimal_of
  else Decimal_of (dict_get "initial_quantity" (PyStr "0") data).

End Records.

(** ** src/repositories/file_position_repository.py: writing the open
    positions file

    A file system maps paths to contents.  A writer is the list of the
    elementary operations it performs, in order; a crash lets a prefix of
    them happen. *)

Module Store.

Inductive fs_op : Type :=
| Truncate (path : string)                 (* f.seek(0); f.truncate() *)
| Write (path : string) (chunk : string)   (* data reaching the end of the file *)
| WriteAtStart (path : string) (content : string)
                                           (* f.write(content) at offset 0 *)
| Remove (path : string)                   (* os.remove *)
| Replace (src dst : string).              (* os.replace *)

Fixpoint drop_chars (n : nat) (s : string) : string :=
  match n, s with
  | O, _ => s
  | S n', String _ s' => drop_chars n' s'
  | S _, EmptyString => EmptyString
  end.

Definition exec_op (fs : gmap string string) (op : fs_op) : gmap string string :=
  match op with
  | Truncate path => <[path := EmptyString]> fs
  | Write path chunk =>
      <[path := String.append (default EmptyString (fs !! path)) chunk]> fs
  | WriteAtStart path content =>
      <[path := String.append content
                  (drop_chars (String.length content)
                              (default EmptyString (fs !! path)))]> fs
  | Remove path => delete path fs
  | Replace src dst =>
      match fs !! src with
      | Some content => <[dst := content]> (delete src fs)
      | None => fs
      end
  end.

Definition run (ops : list fs_op) (fs : gmap string string) : gmap string string :=
  fold_left exec_op ops fs.

(** The file system a crash leaves after the first [n] operations. *)
Definition crash_after (n : nat) (ops : list fs_op) (fs : gmap string string)
  : gmap string string :=
  run (take n ops) fs.

(** The text [json.dump] produces, given as the pieces that reach the file. *)
Definition text_of (chunks : list string) : string :=
  fold_right String.append EmptyString chunks.

(** [_save_positions_with_tempfile]: the data go to a temporary file of
    the same directory, which then replaces the positions file (on
    Windows the positions file is removed first). *)
Definition _save_positions_with_tempfile (windows : bool)
    (positions_file temp_file : string) (chunks : list string) : list fs_op :=
  map (Write temp_file) chunks
  ++ (if windows then [Remove positions_file] else [])
  ++ [Replace temp_file positions_file].

(** [_save_positions_transactional]: the daily backup when it is due, then
    the positions file is emptied and written in place under the write
    lock; the temporary file is used only when the lock is not obtained. *)
Definition _save_positions_transactional
    (create_backup lock_acquired windows : bool)
    (positions_file today_backup temp_file : string)
    (fs : gmap string string) (chunks : list string) : list fs_op :=
  (match create_backup, fs !! positions_file with
   | true, Some content => [WriteAtStart today_backup content]
   | _, _ => []
   end)
  ++ (if lock_acquired
      then Truncate positions_file :: map (Write positions_file) chunks
      else _save_positions_with_tempfile windows positions_file temp_file chunks).

(** What the specification asks of a writer of [path]: whatever the
    moment of the crash, the file holds its old or its new content. *)
Definition crash_safe (path : string) (new_content : string)
    (ops : list fs_op) (fs : gmap string string) : Prop :=
  forall n, crash_after n ops fs !! path = fs !! path \/
            crash_after n ops fs !! path = Some new_content.

(** An empty store on disk. *)
Definition example_fs : gmap string string :=
  {[ "data/positions.json" := "{}" ]}.

End Store.

(** ** src/services/position_service.py: close_position

    The service is written against two interfaces: the position repository
    and the exchange adapter.  A world holds the state of the repository,
    the orders sent to the exchange and the [position] object the service
    works on (the repository keeps a reference to that same object). *)

Section Service.

Context {RT : PyRuntime}.

(** An order as the exchange returns it. *)
Definition Order : Type := list (string * PyValue).

(** The repository, with a state of type [R]. *)
Class PositionRepository (R : Type) : Type := {
  reload_positions : R -> R;
  get_by_id : string -> R -> option Position;
  update : Position -> R -> result unit * R
}.

(** The exchange: what each call answers. *)
Record ExchangeAdapter : Type := {
  get_asset_info : string -> result Asset;
  get_current_price : Asset -> result Decimal;
  place_market_order :
    Asset -> PositionDirection -> Decimal -> option bool -> option string ->
    result Order
}.

Record World (R : Type) : Type := mkWorld {
  repository_state : R;
  placed_orders : list (Asset * PositionDirection * Decimal);
  position_object : option Position
}.
Arguments mkWorld {R}.
Arguments repository_state {R}.
Arguments placed_orders {R}.
Arguments position_object {R}.

(** The parameters [Position.close] accepts by keyword. *)
Definition close_parameters : list string :=
  ["price"; "quantity"; "reason"; "external_id"]%string.

(** A call [self.close(price, quantity, **keywords)]: a keyword that is
    not a parameter of [close] is a [TypeError] and nothing is executed. *)
Definition call_close (self : Position) (now : datetime)
    (price quantity : Decimal) (keywords : list (string * string))
  : result Position :=
  match filter (fun kv => negb (existsb (String.eqb kv.1) close_parameters) = true)
               keywords with
  | (k, _) :: _ =>
      raise TypeError
        (String.append "close() got an unexpected keyword argument " k)
  | [] =>
      let lookup k := snd <$> find (fun kv => String.eqb kv.1 k) keywords in
      close self now price quantity
        (default "Manual close"%string (lookup "reason"%string))
        (lookup "external_id"%string)
  end.

(** The attributes of a [Position]: the fields of the dataclass, its
    properties and its methods.  No code assigns another one. *)
Definition Position_attributes : list string :=
  [ "asset"; "direction"; "initial_quantity"; "entry_price"; "bot_strategy";
    "timeframe"; "bot_settings"; "leverage"; "margin_type"; "id"; "timestamp";
    "take_profits"; "status"; "remaining_quantity"; "take_profit_max";
    "external_id"; "close_data";
    "initial_value"; "take_profit_count"; "last_tp_level"; "is_closed";
    "add_take_profit"; "close"; "get_unrealized_pnl"; "get_realized_pnl";
    "get_total_pnl"; "get_pnl_percentage"; "to_dict"; "from_dict" ]%string.

(** [position.last_price]: an attribute that a [Position] does not have
    raises [AttributeError]. *)
Definition Position_last_price (self : Position) : result (option Decimal) :=
  if existsb (String.eqb "last_price") Position_attributes
  then Ok None
  else raise AttributeError "'Position' object has no attribute 'last_price'".

(** The step size applied to a quantity, as in
    [(q // step * step).quantize(step, rounding=ROUND_DOWN)]. *)
Definition truncate_to_step_size (a : Asset) (q : Decimal) : result Decimal :=
  match step_size a with
  | Some step =>
      if Dec.gtb step Dec.zero then
        match Dec.floordiv q step with
        | Some n => Ok (Dec.quantize_down (Dec.mul n step) step)
        | None => raise InvalidOperation "division by zero"
        end
      else Ok q
  | None => Ok q
  end.

(** [str(v)] for the values an order carries; the text of a list or of
    a dictionary is not modelled. *)
Definition py_str (v : PyValue) : result string :=
  match v with
  | PyStr s => Ok s
  | PyInt n => Ok (print_Z n)
  | PyNone => Ok "None"%string
  | _ => raise TypeError "str() of a container"
  end.

Definition reverse (d : PositionDirection) : PositionDirection :=
  match d with LONG => SHORT | SHORT => LONG end.

(** The margin parameters of the closing order: [is_isolated] and
    [side_effect_type], both [None] for a position without margin. *)
Definition margin_parameters (position : Position) : option bool * option string :=
  let is_margin_position :=
    Dec.gtb (leverage position) (Dec.of_int 1)
    || match direction position with SHORT => true | LONG => false end in
  if is_margin_position
  then (Some (match margin_type position with
              | Some m => String.eqb m "ISOLATED"
              | None => false
              end),
        Some "AUTO_REPAY"%string)
  else (None, None).

Context {R : Type} {repo : PositionRepository R}.
Variable exchange : ExchangeAdapter.
(** [_get_average_fill_price(order)], a division of decimals. *)
Variable average_fill_price : Order -> result (option Decimal).

Definition set_object (p : Position) (w : World R) : World R :=
  mkWorld (repository_state w) (placed_orders w) (Some p).

Definition repository_update (p : Position) (w : World R) : result unit * World R :=
  let '(r, s) := update p (repository_state w) in
  (r, mkWorld s (placed_orders w) (position_object w)).

Definition send_order (a : Asset) (d : PositionDirection) (q : Decimal)
    (is_isolated : option bool) (side_effect_type : option string) (w : World R)
  : result Order * World R :=
  (place_market_order exchange a d q is_isolated side_effect_type,
   mkWorld (repository_state w) (placed_orders w ++ [(a, d, q)])
           (position_object w)).

(** The inner [try] block: refresh the asset, apply the step size, and
    close locally when the quantity is below the minimum.  It returns the
    position, the quantity to execute when it got bound, and either the
    value to return from [close_position], nothing, or the exception. *)
Definition adjust_quantity (position : Position) (now : datetime)
    (reason : string) (w : World R)
  : Position * option Decimal
    * result (option (Position * option Order)) * World R :=
  match get_asset_info exchange (symbol (asset position)) with
  | Err e => (position, None, Err e, w)
  | Ok a =>
      let position := set_asset a position in
      let w := set_object position w in
      match truncate_to_step_size a (remaining_quantity position) with
      | Err e => (position, Some (remaining_quantity position), Err e, w)
      | Ok quantity_to_execute =>
          let below :=
            match min_quantity a with
            | Some mn => Dec.ltb quantity_to_execute mn
            | None => false
            end in
          if below then
            match get_current_price exchange a with
            | Err e => (position, Some quantity_to_execute, Err e, w)
            | Ok current_price =>
                match call_close position now current_price
                        (remaining_quantity position)
                        [("reason", String.append reason " (Below minimum quantity)")]%string
                with
                | Err e => (position, Some quantity_to_execute, Err e, w)
                | Ok position =>
                    let w := set_object position w in
                    match repository_update position w with
                    | (Err e, w) => (position, Some quantity_to_execute, Err e, w)
                    | (Ok _, w) =>
                        (position, Some quantity_to_execute,
                         Ok (Some (position, None)), w)
                    end
                end
            end
          else (position, Some quantity_to_execute, Ok None, w)
      end
  end.

(** The [except Exception as e] handler of the outer [try]. *)
Definition close_failed (position : Position) (now : datetime)
    (reason : string) (e : exn) (w : World R)
  : result (Position * option Order) * World R :=
  (* Use current price for closing as fill price is unknown *)
  match get_current_price exchange (asset position) with
  | Err e' => (Err e', w)
  | Ok current_price =>
      match call_close position now current_price (remaining_quantity position)
              [("reason", String.append reason
                   (String.append " (Exchange Failed: "
                      (String.append (exn_message e) ")")));
               ("margin_details", "N/A - Order Failed")]%string
      with
      | Err e' => (Err e', w)
      | Ok position =>
          let w := set_object position w in
          match repository_update position w with
          | (Err e', w) => (Err e', w)
          | (Ok _, w) =>
              (* Return the locally closed position, but indicate order failure *)
              (Ok (position, None), w)
          end
      end
  end.

(** The body of the outer [try], after the inner one. *)
Definition place_close_order (position : Position) (now : datetime)
    (reason : string) (quantity_to_execute : option Decimal) (w : World R)
  : Position * result (Position * option Order) * World R :=
  let reverse_direction := reverse (direction position) in
  let '(is_isolated, side_effect_type) := margin_parameters position in
  match quantity_to_execute with
  | None =>
      (position,
       raise NameError "local variable 'quantity_to_execute' referenced before assignment",
       w)
  | Some quantity_to_execute =>
      match send_order (asset position) reverse_direction quantity_to_execute
              is_isolated side_effect_type w with
      | (Err e, w) => (position, Err e, w)
      | (Ok order, w) =>
          (* Extract the executed price and quantity *)
          let price :=
            match average_fill_price order with
            | Err e => Err e
            | Ok (Some p) =>
                if Dec.eqb p Dec.zero then get_current_price exchange (asset position)
                else Ok p
            | Ok None => get_current_price exchange (asset position)
            end in
          match price with
          | Err e => (position, Err e, w)
          | Ok executed_price =>
              let executed_quantity := remaining_quantity position in
              match py_str (dict_get "orderId" (PyStr "N/A") order) with
              | Err e => (position, Err e, w)
              | Ok order_id =>
                  match call_close position now executed_price executed_quantity
                          [("reason", reason); ("external_id", order_id)]%string with
                  | Err e => (position, Err e, w)
                  | Ok position =>
                      let w := set_object position w in
                      match repository_update position w with
                      | (Err e, w) => (position, Err e, w)
                      | (Ok _, w) => (position, Ok (position, Some order), w)
                      end
                  end
              end
          end
      end
  end.

(** [PositionService.close_position]; [now] is the value of
    [datetime.now()] inside [Position.close]. *)
Definition close_position (position_id reason : string) (now : datetime)
    (w : World R) : result (Position * option Order) * World R :=
  (* Ensure we have the latest position data *)
  let w := mkWorld (reload_positions (repository_state w)) (placed_orders w)
                   (position_object w) in
  match get_by_id position_id (repository_state w) with
  | None => (raise ValueError (String.append "Position not found: " position_id), w)
  | Some position =>
      let w := set_object position w in
      if is_closed position then (Ok (position, None), w)
      else if Dec.leb (remaining_quantity position) Dec.zero then
        (* Mark as closed if not already, using last known price or current price *)
        match Position_last_price position with
        | Err e => (Err e, w)
        | Ok last_price =>
            let close_price :=
              match last_price with
              | Some p => if Dec.eqb p Dec.zero
                          then get_current_price exchange (asset position)
                          else Ok p
              | None => get_current_price exchange (asset position)
              end in
            match close_price with
            | Err e => (Err e, w)
            | Ok close_price =>
                match call_close position now close_price (mkDecimal 0 0) [] with
                | Err e => (Err e, w)
                | Ok position =>
                    let w := set_object position w in
                    match repository_update position w with
                    | (Err e, w) => (Err e, w)
                    | (Ok _, w) => (Ok (position, None), w)
                    end
                end
            end
        end
      else
        match adjust_quantity position now reason w with
        | (position, _, Ok (Some returned), w) => (Ok returned, w)
        | (position, quantity_to_execute, _, w) =>
            (* the exception of the inner block, if any, is only logged *)
            match place_close_order position now reason quantity_to_execute w with
            | (position, Ok returned, w) => (Ok returned, w)
            | (position, Err e, w) => close_failed position now reason e w
            end
        end
  end.

End Service.

Arguments mkWorld {RT R}.
Arguments repository_state {RT R}.
Arguments placed_orders {RT R}.
Arguments position_object {RT R}.

(** ** src/services/signal_processor.py: the bot field *)

Module Signal.

(** [s.startswith(p)] and [s.endswith(p)] *)
Definition startswith (p s : string) : bool := String.prefix p s.
Definition endswith (p s : string) : bool :=
  String.prefix (String.rev p) (String.rev s).

(** [c in s] for a one-character string [c]. *)
Fixpoint contains (c : ascii) (s : string) : bool :=
  match s with
  | EmptyString => false
  | String c' s' => Ascii.eqb c' c || contains c s'
  end.

(** [s.split(sep, 1)]: at most one split, at the first separator. *)
Definition split1 (sep : ascii) (s : string) : list string :=
  match split_once sep s with
  | Some (a, b) => [a; b]
  | None => [s]
  end.

(** A value that is still a TradingView placeholder. *)
Definition is_placeholder (value : string) : bool :=
  startswith "{{" value && endswith "}}" value.

(** [SignalProcessor._clean_signal_data]: empty values and placeholders
    are dropped.  The values of a signal are strings. *)
Definition _clean_signal_data (signal_data : gmap string string) : gmap string string :=
  filter (fun kv => negb (String.eqb kv.2 "") && negb (is_placeholder kv.2) = true)
         signal_data.

(** The strategy and the settings [process_signal] extracts from the
    cleaned data (after which an empty strategy is refused). *)
Definition bot_components (cleaned_data : gmap string string) : string * string :=
  let bot_raw := default "" (cleaned_data !! "bot") in
  let bot_settings_raw := cleaned_data !! "botSettings" in
  let no_settings :=
    match bot_settings_raw with
    | Some v => String.eqb v ""
    | None => true
    end in
  (* Split bot strategy if it contains an underscore *)
  if no_settings && contains "_" bot_raw then
    let parts := split1 "_" bot_raw in
    (nth 0 parts "", if (1 <? length parts)%nat then nth 1 parts "" else "default")
  else
    (bot_raw,
     match bot_settings_raw with
     | Some v => if String.eqb v "" then "default" else v
     | None => "default"
     end).

(** The split the specification describes: at the last underscore. *)
Definition split_at_last (sep : ascii) (s : string) : option (string * string) :=
  match split_once sep (String.rev s) with
  | Some (b, a) => Some (String.rev a, String.rev b)
  | None => None
  end.

(** An entry signal without [botSettings]. *)
Definition example_signal : gmap string string :=
  {[ "command" := "LONG"; "asset" := "BTCUSDT"; "interval" := "1h";
     "bot" := "ema_cross_v2" ]}.

End Signal.

(** ** Devices of the proofs *)

(** The computation of [ensure_valid_quantity] on coefficients that are all
    aligned on one exponent (a device of the proofs below): clamping, then
    truncation to a multiple of the step. *)
Definition clamp_aligned (mn mx : option Z) (q : Z) : Z :=
  let q := match mn with Some m => if q >? m then q else m | None => q end in
  match mx with Some M => if q <? M then q else M | None => q end.

Definition trunc_step (s x : Z) : Z := Z.quot x s * s.

Definition ensure_valid_aligned (mn mx st : option Z) (q : Z) : Z :=
  let q := clamp_aligned mn mx q in
  match st with
  | Some s =>
      if s >? 0 then
        let r := trunc_step s q in
        match mn with
        | Some m => if r <? m then 0 else r
        | None => r
        end
      else q
  | None => q
  end.

Definition exponent_or_zero (o : option Decimal) : Z :=
  match o with Some d => exponent d | None => 0 end.

(** An exponent below every exponent met while adjusting [q] for [a]. *)
Definition common_exponent (a : Asset) (q : Decimal) : Z :=
  Z.min 0 (Z.min (exponent q)
    (Z.min (exponent_or_zero (min_quantity a))
      (Z.min (exponent_or_zero (max_quantity a))
             (exponent_or_zero (step_size a))))).

Definition exponents_above (m : Z) (a : Asset) : Prop :=
  m <= 0 /\
  m <= exponent_or_zero (min_quantity a) /\
  m <= exponent_or_zero (max_quantity a) /\
  m <= exponent_or_zero (step_size a).

(** The equation of the data model, on the rational values. *)
Definition equation_on_values {RT : PyRuntime} (p : Position) : Prop :=
  exists cq, close_quantity p = Ok cq /\
    (Dec.value (remaining_quantity p)
     == Dec.value (initial_quantity p) - Dec.value (tp_quantity_sum p) - Dec.value cq)%Q.

(** What C10 says, word for word: a request below a minimum that fits the
    step is raised to the minimum. *)
Definition raised_to_minimum (a : Asset) (m q : Decimal) : Prop :=
  min_quantity a = Some m ->
  (step_size a = None \/
   exists step k, step_size a = Some step /\ Dec.gtb step Dec.zero = true /\
                  Dec.eqb m (Dec.mul (Dec.of_int k) step) = true) ->
  Dec.ltb Dec.zero q = true -> Dec.ltb q m = true ->
  exists r, ensure_valid_quantity a q = Some r /\ Dec.eqb r m = true.

(** ** A runtime to run the model on examples

    Times are counted in microseconds and printed as integers; a decimal is
    printed as its coefficient, the letter E and its exponent, which is one
    of the forms [Decimal(str)] reads; a plain integer is read as well. *)

Definition example_runtime : PyRuntime := {|
  datetime := Z;
  isoformat := print_Z;
  fromisoformat := read_Z;
  decimal_str := fun d =>
    String.append (print_Z (coefficient d))
                  (String "E" (print_Z (exponent d)));
  decimal_parse := fun s =>
    match split_once "E" s with
    | Some (c, e) =>
        match read_Z c, read_Z e with
        | Some c, Some e => Some (mkDecimal c e)
        | _, _ => None
        end
    | None =>
        match read_Z s with
        | Some c => Some (mkDecimal c 0)
        | None => None
        end
    end
|}.

(** A spot asset without constraints and a LONG position of 10 units bought
    at 100, with three take-profit levels, in the example runtime. *)
Definition example_asset : Asset :=
  mkAsset "BTCUSDT" "crypto" "binance" None None None None None.

Definition example_position : @Position example_runtime :=
  @mkPosition example_runtime example_asset LONG (mkDecimal 10 0) (mkDecimal 100 0)
    "trend" "1h" "default" (mkDecimal 1 0) None "p-1" 0 [] OPEN
    (mkDecimal 10 0) 3 None PyNone.

(** The example position after a take profit of 3 units at level 1 and a
    partial close of 2 units. *)
Definition example_position_in_progress : @Position example_runtime :=
  @mkPosition example_runtime example_asset LONG (mkDecimal 10 0) (mkDecimal 100 0)
    "trend" "1h" "default" (mkDecimal 1 0) None "p-1" 0
    [@mkTakeProfit example_runtime 1 (mkDecimal 110 0) (mkDecimal 3 0) 1]
    OPEN (mkDecimal 5 0) 3 None
    (PyDict [ ("timestamp", PyStr "2"); ("price", PyStr "120E0");
              ("quantity", PyStr "2E0"); ("value", PyStr "240E0");
              ("reason", PyStr "Manual close") ]).

(** A stored record with close data whose remaining quantity is negative. *)
Definition example_record_negative_remaining : list (string * PyValue) :=
  [ ("id", PyStr "p-2"); ("direction", PyStr "LONG");
    ("initial_quantity", PyStr "10"); ("remaining_quantity", PyStr "-1");
    ("entry_price", PyStr "100"); ("bot_strategy", PyStr "trend");
    ("timeframe", PyStr "1h"); ("timestamp", PyStr "0");
    ("status", PyStr "OPEN");
    ("close_data", PyDict [ ("quantity", PyStr "11");
                            ("reason", PyStr "Manual close") ]) ].

(** An in-memory repository for the examples: the positions it holds. *)
Definition example_repository : @PositionRepository example_runtime (list (@Position example_runtime)) := {|
  reload_positions := fun ps => ps;
  get_by_id := fun id ps => find (fun p => String.eqb (position_id p) id) ps;
  update := fun p ps =>
    (Ok tt, map (fun q => if String.eqb (position_id q) (position_id p) then p else q) ps)
|}.

(** An exchange that quotes 100 and refuses every order. *)
Definition example_exchange_down : ExchangeAdapter := {|
  get_asset_info := fun _ => Ok example_asset;
  get_current_price := fun _ => Ok (mkDecimal 100 0);
  place_market_order := fun _ _ _ _ _ => raise ExchangeError "Connection reset"
|}.

(** The example position once drained, still OPEN. *)
Definition example_position_drained : @Position example_runtime :=
  set_remaining_quantity (mkDecimal 0 0) example_position.


(** * The rest of the cited modules *)

(** ** src/core/position.py: the derived values of a position *)

Section Analytics.

Context {RT : PyRuntime}.

(** [Position.initial_value] *)
Definition initial_value (self : Position) : Decimal :=
  Dec.mul (entry_price self) (initial_quantity self).

(** [Position.take_profit_count] *)
Definition take_profit_count (self : Position) : nat :=
  length (take_profits self).

(** [Position.last_tp_level]: the highest level executed so far, or 0. *)
Definition last_tp_level (self : Position) : Z :=
  match take_profits self with
  | [] => 0
  | tp :: tps => fold_left Z.max (map tp_level tps) (tp_level tp)
  end.

(** [Position.get_unrealized_pnl] *)
Definition get_unrealized_pnl (self : Position) (current_price : Decimal) : Decimal :=
  if is_closed self || Dec.leb (remaining_quantity self) Dec.zero
  then Dec.zero
  else
    match direction self with
    | LONG =>
        Dec.mul (Dec.sub current_price (entry_price self)) (remaining_quantity self)
    | SHORT =>
        Dec.mul (Dec.sub (entry_price self) current_price) (remaining_quantity self)
    end.

(** [Position.get_realized_pnl] *)
Definition get_realized_pnl (self : Position) : result Decimal :=
  let tp_value := Dec.sum (map tp_value (take_profits self)) in
  let tp_quantity := Dec.sum (map tp_quantity (take_profits self)) in
  '(close_value, close_quantity) ←
    (if truthy (close_data self)
     then
       d ← as_dict (close_data self);
       price ← dict_item "price" d ≫= Decimal_of;
       quantity ← dict_item "quantity" d ≫= Decimal_of;
       Ok (Dec.mul price quantity, quantity)
     else Ok (Dec.zero, Dec.zero));
  let total_value := Dec.add tp_value close_value in
  let total_quantity := Dec.add tp_quantity close_quantity in
  match direction self with
  | LONG => Ok (Dec.sub total_value (Dec.mul (entry_price self) total_quantity))
  | SHORT => Ok (Dec.sub (Dec.mul (entry_price self) total_quantity) total_value)
  end.

(** [Position.get_total_pnl] *)
Definition get_total_pnl (self : Position) (current_price : Decimal) : result Decimal :=
  realized ← get_realized_pnl self;
  Ok (Dec.add realized (get_unrealized_pnl self current_price)).

End Analytics.

(** The example position once closed by hand. *)
Definition example_position_closed : @Position example_runtime :=
  set_status CLOSED example_position_drained.

(** ** Devices of the further proofs *)

(** The two values [get_realized_pnl] reads from [close_data]:
    [close_value] and [close_quantity]. *)
Definition close_value_and_quantity {RT : PyRuntime} (self : Position)
  : result (Decimal * Decimal) :=
  if truthy (close_data self)
  then
    d ← as_dict (close_data self);
    price ← dict_item "price" d ≫= Decimal_of;
    quantity ← dict_item "quantity" d ≫= Decimal_of;
    Ok (Dec.mul price quantity, quantity)
  else Ok (Dec.zero, Dec.zero).

(** The sign of a direction: a LONG gains when the price rises. *)
Definition direction_sign (d : PositionDirection) : Q :=
  match d with LONG => 1%Q | SHORT => (-1)%Q end.

(** The paths an operation on the file system can change. *)
Definition touched (op : Store.fs_op) : list string :=
  match op with
  | Store.Truncate path | Store.Write path _ | Store.WriteAtStart path _
  | Store.Remove path => [path]
  | Store.Replace src dst => [src; dst]
  end.

(** A store on disk with an older, longer daily backup. *)
Definition example_fs_with_backup : gmap string string :=
  {[ "data/positions.json" := "{}";
     "data/backup/positions_daily.json" := "{ 'k': [] }" ]}.

(** ** src/repositories/file_position_repository.py: the cache of open
    positions

    The cache is a dictionary from keys to lists of positions; like every
    Python dictionary it keeps the insertion order, in which [get_by_id]
    searches. *)

(** Dictionaries with values of any type. *)
Fixpoint assoc_lookup {V : Type} (k : string) (d : list (string * V)) : option V :=
  match d with
  | [] => None
  | (k', v) :: d' => if String.eqb k k' then Some v else assoc_lookup k d'
  end.

(** [d[k] = v]: replaces in place or appends. *)
Fixpoint assoc_set {V : Type} (k : string) (v : V) (d : list (string * V))
  : list (string * V) :=
  match d with
  | [] => [(k, v)]
  | (k', v') :: d' =>
      if String.eqb k k' then (k, v) :: d' else (k', v') :: assoc_set k v d'
  end.

(** [del d[k]] *)
Fixpoint assoc_del {V : Type} (k : string) (d : list (string * V))
  : list (string * V) :=
  match d with
  | [] => []
  | (k', v') :: d' =>
      if String.eqb k k' then d' else (k', v') :: assoc_del k d'
  end.

(** [next((i for i, x in enumerate(l) if f(x)), None)] *)
Fixpoint first_index {A : Type} (f : A -> bool) (l : list A) : option nat :=
  match l with
  | [] => None
  | x :: l' => if f x then Some O else S <$> first_index f l'
  end.

(** [s.split(sep)] for a separator of one character. *)
Fixpoint py_split (sep : ascii) (s : string) : list string :=
  match s with
  | EmptyString => [EmptyString]
  | String c s' =>
      if Ascii.eqb c sep then EmptyString :: py_split sep s'
      else match py_split sep s' with
           | piece :: pieces => String c piece :: pieces
           | [] => [String c EmptyString]
           end
  end.

(** [v == s] for a value read from a record and a string. *)
Definition is_str (s : string) (v : PyValue) : bool :=
  match v with PyStr s' => String.eqb s' s | _ => false end.

Module FileRepository.

Section Cache.

Context {RT : PyRuntime}.

Definition Cache : Type := list (string * list Position).

(** [_generate_key]:
    [{bot_strategy}_{bot_settings}_{timeframe}_{asset_symbol}] *)
Definition _generate_key (position : Position) : string :=
  String.append (bot_strategy position)
    (String "_" (String.append (bot_settings position)
       (String "_" (String.append (timeframe position)
          (String "_" (symbol (asset position))))))).

(** [key.split('_')[-1]], the symbol [_load_positions] and
    [get_closed_positions] give to the asset of a stored position. *)
Definition asset_symbol (key : string) : string :=
  default EmptyString (last (py_split "_" key)).

(** The asset built for a stored position. *)
Definition stored_asset (key : string) : Asset :=
  mkAsset (asset_symbol key) "crypto" "binance" None None None None None.

(** [get_by_id]: the first position with this id, the lists being
    searched in the order of the keys. *)
Definition get_by_id (id : string) (cache : Cache) : option Position :=
  find (fun position => String.eqb (position_id position) id)
       (concat (map snd cache)).

(** The part of [save] that updates the cache. *)
Definition save_in_cache (position : Position) (cache : Cache) : Cache :=
  (* Generate key for position *)
  let key := _generate_key position in
  (* Add to positions cache *)
  let cache :=
    match assoc_lookup key cache with
    | Some _ => cache
    | None => assoc_set key [] cache
    end in
  let positions := default [] (assoc_lookup key cache) in
  (* Check if position already exists *)
  let existing_index :=
    first_index (fun p => String.eqb (position_id p) (position_id position))
                positions in
  match existing_index with
  | Some i => assoc_set key (<[i := position]> positions) cache
  | None => assoc_set key (positions ++ [position]) cache
  end.

(** [_matches_filters]; a key that is not one of the five known ones is
    ignored. *)
Fixpoint _matches_filters (position : Position) (filters : list (string * PyValue))
  : bool :=
  match filters with
  | [] => true
  | (key, value) :: filters' =>
      let differs (field : string) := negb (is_str field value) in
      if String.eqb key "asset" then
        if differs (symbol (asset position)) then false
        else _matches_filters position filters'
      else if String.eqb key "direction" then
        if differs (direction_value (direction position)) then false
        else _matches_filters position filters'
      else if String.eqb key "bot_strategy" then
        if differs (bot_strategy position) then false
        else _matches_filters position filters'
      else if String.eqb key "timeframe" then
        if differs (timeframe position) then false
        else _matches_filters position filters'
      else if String.eqb key "bot_settings" then
        if differs (bot_settings position) then false
        else _matches_filters position filters'
      else _matches_filters position filters'
  end.

(** [get_open_positions]; [filters] is [None] or a dictionary. *)
Definition get_open_positions (filters : option (list (string * PyValue)))
    (cache : Cache) : list Position :=
  (* Start with all positions *)
  let all_positions :=
    filter (fun p => is_closed p = false) (concat (map snd cache)) in
  (* Apply filters if provided *)
  match filters with
  | Some (f :: fs) =>
      filter (fun position => _matches_filters position (f :: fs) = true)
             all_positions
  | _ => all_positions
  end.

(** The [data] that [_save_positions_transactional] writes. *)
Definition positions_data (cache : Cache) : PyValue :=
  PyDict (map (fun '(key, positions) =>
                 (key, PyList (map (fun p => PyDict (to_dict p)) positions)))
              cache).

(** What iterating over a value yields; [None] is the [TypeError] of a
    value that is not iterable. *)
Definition iterate (v : PyValue) : option (list PyValue) :=
  match v with
  | PyList l => Some l
  | PyDict d => Some (map (fun kv => PyStr kv.1) d)
  | PyStr s => Some (map (fun c => PyStr (String c EmptyString)) (list_ascii_of_string s))
  | PyNone | PyInt _ => None
  end.

(** The body of the loop of [_load_positions] over the records of one
    key: a record that cannot be read is logged and skipped. *)
Definition load_records (now : datetime) (key : string) (records : list PyValue)
  : list Position :=
  omap (fun p_data =>
          match as_dict p_data
                ≫= (fun d => _create_position_from_dict now d (stored_asset key)) with
          | Ok position => Some position
          | Err _ => None
          end) records.

(** The loop of [_load_positions] over [data.items()]; a list of records
    that cannot be iterated aborts the whole loading. *)
Fixpoint load_items (now : datetime) (items : list (string * PyValue)) (cache : Cache)
  : option Cache :=
  match items with
  | [] => Some cache
  | (key, positions_data) :: items' =>
      match iterate positions_data with
      | None => None
      | Some records =>
          let positions_list := load_records now key records in
          load_items now items'
            (match positions_list with
             | [] => cache
             | _ => assoc_set key positions_list cache
             end)
      end
  end.

(** What reading the positions file can give. *)
Inductive file_content : Type :=
| NoFile                     (* no file, or an empty one *)
| LockTimeout                (* FileLockException *)
| Malformed                  (* json.JSONDecodeError *)
| Parsed (data : PyValue).

(** The cache [_load_positions] builds: empty unless the file is read and
    every list of records can be iterated. *)
Definition _load_positions (now : datetime) (content : file_content) : Cache :=
  match content with
  | Parsed (PyDict items) => default [] (load_items now items [])
  | _ => []
  end.

End Cache.

(** *** The operations that also write to disk

    The files are reached through four operations whose outcome the
    repository cannot control: they are parameters, with a state of the
    disk of type [D].  [_save_positions_transactional] writes
    [positions_data] of the cache it is given and can raise;
    [_load_closed_positions] never raises; [_save_file_transactional]
    writes the closed positions and can raise; [_record_trade_outcome]
    appends to the CSV file and never raises. *)

Section Disk.

Context {RT : PyRuntime}.
Variable D : Type.

(** The closed positions file: lists of records under keys. *)
Definition ClosedPositions : Type := list (string * list (list (string * PyValue))).

Variable _save_positions_transactional : Cache -> D -> result unit * D.
Variable _load_closed_positions : D -> ClosedPositions * D.
Variable _save_file_transactional : ClosedPositions -> D -> result unit * D.
Variable _record_trade_outcome : Position -> D -> D.

Record Repository : Type := mkRepository {
  positions_cache : Cache;
  disk : D
}.

(** [save] *)
Definition save (position : Position) (self : Repository)
  : result unit * Repository :=
  let cache := save_in_cache position (positions_cache self) in
  (* Save to file *)
  let '(r, d) := _save_positions_transactional cache (disk self) in
  (r, mkRepository cache d).

(** The full search of [delete], used when the position is not found
    under its own key: the first list that holds the id, and that list
    without the positions of this id. *)
Fixpoint search_all_keys (id : string) (items : Cache)
  : option (string * list Position) :=
  match items with
  | [] => None
  | (cache_key, positions_list) :: items' =>
      let filtered_positions :=
        filter (fun p => position_id p <> id) positions_list in
      if (length filtered_positions <? length positions_list)%nat
      then Some (cache_key, filtered_positions)
      else search_all_keys id items'
  end.

(** [cache[key] = positions], the key being deleted when the list is
    empty. *)
Definition store_list (key : string) (positions : list Position) (cache : Cache)
  : Cache :=
  match positions with
  | [] => assoc_del key cache
  | _ => assoc_set key positions cache
  end.

(** [delete] *)
Definition delete (id : string) (self : Repository) : result unit * Repository :=
  match get_by_id id (positions_cache self) with
  | None => (raise ValueError (String.append "Position not found: " id), self)
  | Some position =>
      (* Find key and index *)
      let key := _generate_key position in
      let cache := positions_cache self in
      let index :=
        match assoc_lookup key cache with
        | Some positions =>
            first_index (fun p => String.eqb (position_id p) id) positions
        | None => None
        end in
      match index with
      | Some i =>
          let positions := default [] (assoc_lookup key cache) in
          (* Remove position from list; remove key if list is empty *)
          let cache := store_list key (base.delete i positions) cache in
          (* Save changes *)
          let '(r, d) := _save_positions_transactional cache (disk self) in
          (r, mkRepository cache d)
      | None =>
          (* If we couldn't find the position by key/index, try a full search *)
          match search_all_keys id cache with
          | Some (cache_key, filtered_positions) =>
              let cache := store_list cache_key filtered_positions cache in
              let '(r, d) := _save_positions_transactional cache (disk self) in
              (r, mkRepository cache d)
          | None =>
              (raise ValueError (String.append "Position not found in cache: " id),
               self)
          end
      end
  end.

(** [_handle_closed_position]; [now] is the value of [datetime.now()].
    Every exception is logged and swallowed. *)
Definition _handle_closed_position (now : datetime) (position : Position)
    (self : Repository) : Repository :=
  if negb (is_closed position) then self
  else
    (* Save to closed positions file *)
    let '(closed_positions, d) := _load_closed_positions (disk self) in
    let key := _generate_key position in
    let closed_positions :=
      match assoc_lookup key closed_positions with
      | Some _ => closed_positions
      | None => assoc_set key [] closed_positions
      end in
    (* Check if this position is already in closed positions to avoid duplicates *)
    let records := default [] (assoc_lookup key closed_positions) in
    let same_id (record : list (string * PyValue)) :=
      is_str (position_id position) (dict_get "id" PyNone record) in
    let position_already_closed := existsb same_id records in
    let closed_positions :=
      if position_already_closed
      then assoc_set key (filter (fun record => same_id record = false) records)
                     closed_positions
      else closed_positions in
    (* Add closed position with timestamp *)
    let position_data :=
      dict_set "closed_at" (PyStr (isoformat now)) (to_dict position) in
    let closed_positions :=
      assoc_set key (default [] (assoc_lookup key closed_positions) ++ [position_data])
                closed_positions in
    (* Save updated closed positions *)
    match _save_file_transactional closed_positions d with
    | (Err _, d) => mkRepository (positions_cache self) d
    | (Ok _, d) =>
        (* Record trade outcome *)
        let d := _record_trade_outcome position d in
        let self := mkRepository (positions_cache self) d in
        (* Remove from open positions *)
        if position_already_closed then self
        else
          match delete (position_id position) self with
          | (Ok _, self) => self
          | (Err e, self) =>
              match exn_kind e with
              | ValueError => self
              | _ =>
                  (* As a fallback, try to remove the position directly from the cache *)
                  let key := _generate_key position in
                  match assoc_lookup key (positions_cache self) with
                  | Some positions =>
                      let cache :=
                        store_list key
                          (filter (fun p => position_id p <> position_id position)
                                  positions)
                          (positions_cache self) in
                      let '(_, d) := _save_positions_transactional cache (disk self) in
                      mkRepository cache d
                  | None => self
                  end
              end
          end
    end.

(** [update] *)
Definition update (now : datetime) (position : Position) (self : Repository)
  : result unit * Repository :=
  (* Find and update position *)
  match get_by_id (position_id position) (positions_cache self) with
  | None =>
      (raise ValueError (String.append "Position not found: " (position_id position)),
       self)
  | Some _ =>
      (* Save the updated position *)
      match save position self with
      | (Err e, self) => (Err e, self)
      | (Ok _, self) =>
          (* If position is now closed, handle closing *)
          if is_closed position
          then (Ok tt, _handle_closed_position now position self)
          else (Ok tt, self)
      end
  end.

End Disk.

End FileRepository.

(** The assignment [position.margin_type = m]. *)
Definition set_margin_type {RT : PyRuntime} (m : option string) (p : Position)
  : Position :=
  mkPosition (asset p) (direction p) (initial_quantity p) (entry_price p)
    (bot_strategy p) (timeframe p) (bot_settings p) (leverage p)
    m (position_id p) (timestamp p) (take_profits p)
    (status p) (remaining_quantity p) (take_profit_max p) (external_id p)
    (close_data p).

(** The list [save] stores under the key of the position, given the list
    that was there. *)
Definition stored_list {RT : PyRuntime} (position : Position)
    (positions : list Position) : list Position :=
  match first_index (fun p => String.eqb (position_id p) (position_id position))
                    positions with
  | Some i => <[i := position]> positions
  | None => positions ++ [position]
  end.

(** *** A disk that works

    The two JSON files as the data they hold, every read and write
    succeeding; the CSV file of the trade outcomes is left out. *)

Section WorkingDisk.

Context {RT : PyRuntime}.

Record Files : Type := mkFiles {
  positions_file : PyValue;
  closed_positions_file : FileRepository.ClosedPositions
}.

Definition write_positions (cache : FileRepository.Cache) (d : Files)
  : result unit * Files :=
  (Ok tt, mkFiles (FileRepository.positions_data cache) (closed_positions_file d)).

Definition read_closed_positions (d : Files) : FileRepository.ClosedPositions * Files :=
  (closed_positions_file d, d).

Definition write_closed_positions (closed : FileRepository.ClosedPositions) (d : Files)
  : result unit * Files :=
  (Ok tt, mkFiles (positions_file d) closed).

Definition write_trade_outcome (position : Position) (d : Files) : Files := d.

(** [update] on the working disk. *)
Definition update_on_disk (now : datetime) (position : Position)
    (self : FileRepository.Repository Files)
  : result unit * FileRepository.Repository Files :=
  FileRepository.update Files write_positions read_closed_positions
    write_closed_positions write_trade_outcome now position self.

(** The record [_handle_closed_position] appends to the closed positions. *)
Definition closed_record (now : datetime) (position : Position)
  : list (string * PyValue) :=
  dict_set "closed_at" (PyStr (isoformat now)) (to_dict position).

End WorkingDisk.

(** A repository that holds the example position, and the same with a
    closed positions file that already has a record of it. *)
Definition example_files : Files := mkFiles (PyDict []) [].

Definition example_file_repository : @FileRepository.Repository example_runtime Files :=
  FileRepository.mkRepository Files
    [("trend_default_1h_BTCUSDT", [example_position])] example_files.

Definition example_file_repository_closed_twice
  : @FileRepository.Repository example_runtime Files :=
  FileRepository.mkRepository Files
    [("trend_default_1h_BTCUSDT", [example_position])]
    (mkFiles (PyDict [])
       [("trend_default_1h_BTCUSDT", [[("id", PyStr "p-1")]])]).

(** The field of a position that a filter key selects; the other keys
    select nothing. *)
Definition filter_field {RT : PyRuntime} (key : string) (position : Position)
  : option string :=
  if String.eqb key "asset" then Some (symbol (asset position))
  else if String.eqb key "direction" then Some (direction_value (direction position))
  else if String.eqb key "bot_strategy" then Some (bot_strategy position)
  else if String.eqb key "timeframe" then Some (timeframe position)
  else if String.eqb key "bot_settings" then Some (bot_settings position)
  else None.

(** A position as the repository gives it back after a save and a
    reload under [key]. *)
Definition reloaded {RT : PyRuntime} (key : string) (p : Position) : Position :=
  set_margin_type None (set_asset (FileRepository.stored_asset key) p).

(** An exchange that quotes 100 and fills every order, an exchange whose
    minimum quantity is 20, and an exchange that cannot give the asset
    information. *)
Definition example_order : Order := [("orderId", PyInt 42)].

Definition example_exchange_up : ExchangeAdapter := {|
  get_asset_info := fun _ => Ok example_asset;
  get_current_price := fun _ => Ok (mkDecimal 100 0);
  place_market_order := fun _ _ _ _ _ => Ok example_order
|}.

Definition example_asset_minimum : Asset :=
  mkAsset "BTCUSDT" "crypto" "binance" (Some (mkDecimal 20 0)) None None None None.

Definition example_exchange_minimum : ExchangeAdapter := {|
  get_asset_info := fun _ => Ok example_asset_minimum;
  get_current_price := fun _ => Ok (mkDecimal 100 0);
  place_market_order := fun _ _ _ _ _ => Ok example_order
|}.

Definition example_exchange_no_info : ExchangeAdapter := {|
  get_asset_info := fun _ => raise ExchangeError "Connection reset";
  get_current_price := fun _ => Ok (mkDecimal 100 0);
  place_market_order := fun _ _ _ _ _ => Ok example_order
|}.

(** ** src/services/signal_processor.py: the position a take profit
    signal applies to *)

Section FindPosition.

Context {RT : PyRuntime}.

(** [a < b] on the values of [datetime]: an operation of the runtime. *)
Variable datetime_lt : datetime -> datetime -> bool.

(** The sort key [(-len(p.take_profits), p.timestamp)] and the comparison
    of two keys, as tuples compare. *)
Definition tp_sort_key (p : Position) : Z * datetime :=
  (- Z.of_nat (length (take_profits p)), timestamp p).

Definition key_lt (k1 k2 : Z * datetime) : bool :=
  (k1.1 <? k2.1) || ((k1.1 =? k2.1) && datetime_lt k1.2 k2.2).

(** [list.sort(key=...)]: a stable sort, here by insertion; an element
    goes before the first one that is not smaller than it. *)
Fixpoint insert_sorted (p : Position) (sorted : list Position) : list Position :=
  match sorted with
  | [] => [p]
  | q :: sorted' =>
      if key_lt (tp_sort_key q) (tp_sort_key p) then q :: insert_sorted p sorted'
      else p :: q :: sorted'
  end.

Definition sort_candidates (candidates : list Position) : list Position :=
  fold_right insert_sorted [] candidates.

(** [SignalProcessor._find_position_for_tp]; [level] is the requested
    [tp_level]. *)
Definition _find_position_for_tp (positions : list Position) (level : Z)
  : option Position :=
  let candidates :=
    List.filter
      (fun p => negb (existsb (fun tp => level <=? tp_level tp) (take_profits p)))
      positions in
  match candidates with
  | [] => None
  | _ => head (sort_candidates candidates)
  end.

End FindPosition.

(** ** src/services/position_service.py: get_position_details *)

Section Details.

Context {RT : PyRuntime} {R : Type} {repo : PositionRepository R}.
Variable exchange : ExchangeAdapter.

(** [a / b] on decimals, which rounds to the precision of the context and
    raises for a zero divisor, and [f"{x:.2f}"]: operations of the
    runtime. *)
Variable decimal_divide : Decimal -> Decimal -> result Decimal.
Variable format_2f : Decimal -> string.

(** [Position.get_pnl_percentage] *)
Definition get_pnl_percentage (self : Position) (current_price : Decimal)
  : result Decimal :=
  if Dec.leb (initial_value self) Dec.zero then Ok Dec.zero
  else
    total ← get_total_pnl self current_price;
    ratio ← decimal_divide total (initial_value self);
    Ok (Dec.mul ratio (mkDecimal 100 0)).

(** The [except] branch of [get_position_details]. *)
Definition details_error (details : list (string * PyValue)) : list (string * PyValue) :=
  dict_set "pnl_percentage" (PyStr "Error")
    (dict_set "total_pnl" (PyStr "Error")
       (dict_set "current_price" (PyStr "Error") details)).

(** [PositionService.get_position_details].  For a position that is not
    OPEN the code calls [position.get_total_pnl()] without its argument
    [current_price]: a [TypeError], outside any [try]. *)
Definition get_position_details (position_id : string) (s : R)
  : result (option (list (string * PyValue))) :=
  match get_by_id position_id s with
  | None => Ok None
  | Some position =>
      let details := to_dict position in (* Get base details *)
      match status position with
      | OPEN =>
          (* If position is open, add current market data and PnL *)
          match get_current_price exchange (asset position) with
          | Err _ => Ok (Some (details_error details))
          | Ok current_price =>
              let details :=
                dict_set "current_price" (PyStr (decimal_str current_price)) details in
              let details :=
                dict_set "unrealized_pnl"
                  (PyStr (decimal_str (get_unrealized_pnl position current_price)))
                  details in
              match get_realized_pnl position with
              | Err _ => Ok (Some (details_error details))
              | Ok realized =>
                  let details :=
                    dict_set "realized_pnl" (PyStr (decimal_str realized)) details in
                  match get_total_pnl position current_price with
                  | Err _ => Ok (Some (details_error details))
                  | Ok total =>
                      let details :=
                        dict_set "total_pnl" (PyStr (decimal_str total)) details in
                      match get_pnl_percentage position current_price with
                      | Err _ => Ok (Some (details_error details))
                      | Ok percentage =>
                          Ok (Some (dict_set "pnl_percentage"
                                      (PyStr (String.append (format_2f percentage) "%"))
                                      details))
                      end
                  end
              end
          end
      | CLOSED =>
          raise TypeError
            "get_total_pnl() missing 1 required positional argument: 'current_price'"
      end
  end.

End Details.

(** The keys [get_position_details] adds to those of [to_dict]. *)
Definition computed_keys : list string :=
  ["current_price"; "unrealized_pnl"; "realized_pnl"; "total_pnl";
   "pnl_percentage"]%string.

(** ** src/services/position_service.py: execute_take_profit *)

(** [d / Decimal("100")], which is exact: the exponent goes down by two,
    less when the coefficient ends with zeros, since Python keeps the
    quotient as close as it can to the exponent of [d]. *)
Definition div_hundred (d : Decimal) : Decimal :=
  if coefficient d mod 100 =? 0 then mkDecimal (coefficient d / 100) (exponent d)
  else if coefficient d mod 10 =? 0
       then mkDecimal (coefficient d / 10) (exponent d - 1)
       else mkDecimal (coefficient d) (exponent d - 2).

Section TakeProfitService.

Context {RT : PyRuntime} {R : Type} {repo : PositionRepository R}.
Variable exchange : ExchangeAdapter.
Variable average_fill_price : Order -> result (option Decimal).
(** The text Python prints for the dictionary of percentages. *)
Variable percentages_str : gmap Z Decimal -> string.

(** The first [try] block of [execute_take_profit]: refresh the asset,
    apply the step size, and leave early when the quantity is below the
    minimum.  It returns the position, the quantity to execute and the
    value to return at once, if any; an exception is only logged. *)
Definition validate_tp_quantity (position : Position) (position_id : string)
    (level : Z) (is_last_tp : bool) (quantity_to_execute : Decimal)
    (now_small : datetime) (w : World R)
  : Position * Decimal * option (Position * option Order) * World R :=
  match get_asset_info exchange (symbol (asset position)) with
  | Err _ => (position, quantity_to_execute, None, w)
  | Ok a =>
      let position := set_asset a position in
      let w := set_object position w in
      match truncate_to_step_size a quantity_to_execute with
      | Err _ => (position, quantity_to_execute, None, w)
      | Ok quantity_to_execute =>
          let below :=
            match min_quantity a with
            | Some mn => Dec.ltb quantity_to_execute mn
            | None => false
            end in
          if below then
            (* If this is the last TP and quantity is too small, close the
               position instead *)
            if is_last_tp then
              match close_position exchange average_fill_price position_id
                      (String.append
                         "Auto-closed due to small adjusted quantity on final TP "
                         (print_Z level))
                      now_small w with
              | (Ok returned, w) => (position, quantity_to_execute, Some returned, w)
              | (Err _, w) => (position, quantity_to_execute, None, w)
              end
            else (position, quantity_to_execute, Some (position, Some []), w)
          else (position, quantity_to_execute, None, w)
      end
  end.

(** The second [try] block: the order, the take profit, the update. *)
Definition place_tp_order (position : Position) (level : Z) (is_last_tp : bool)
    (quantity_to_execute : Decimal) (now now_close now_last : datetime) (w : World R)
  : result (Position * option Order) * World R :=
  (* Determine the direction to close the portion *)
  let reverse_direction := reverse (direction position) in
  let '(is_isolated, side_effect_type) := margin_parameters position in
  (* Execute the trade on the exchange *)
  match send_order exchange (asset position) reverse_direction quantity_to_execute
          is_isolated side_effect_type w with
  | (Err e, w) => (Err e, w)
  | (Ok order, w) =>
      (* Extract the executed price and quantity *)
      let price :=
        match average_fill_price order with
        | Err e => Err e
        | Ok (Some p) =>
            if Dec.eqb p Dec.zero then get_current_price exchange (asset position)
            else Ok p
        | Ok None => get_current_price exchange (asset position)
        end in
      match price with
      | Err e => (Err e, w)
      | Ok executed_price =>
          match (match dict_lookup "executedQty" order with
                 | Some v => Decimal_of v
                 | None => Ok quantity_to_execute
                 end) with
          | Err e => (Err e, w)
          | Ok executed_quantity =>
              match py_str (dict_get "orderId" (PyStr "N/A") order) with
              | Err e => (Err e, w)
              | Ok order_id =>
                  (* Add the take profit event to the position object *)
                  match add_take_profit position now now_close executed_price
                          executed_quantity level with
                  | Err e => (Err e, w)
                  | Ok (position, _) =>
                      let w := set_object position w in
                      (* If for some reason the position isn't closed yet and
                         it's the last TP level, close it *)
                      match (if is_closed position then Ok position
                             else if is_last_tp
                                  then call_close position now_last executed_price
                                         (mkDecimal 0 0) []
                                  else Ok position) with
                      | Err e => (Err e, w)
                      | Ok position =>
                          let w := set_object position w in
                          (* Update the position in the repository *)
                          match repository_update position w with
                          | (Err e, w) => (Err e, w)
                          | (Ok _, w) => (Ok (position, Some order), w)
                          end
                      end
                  end
              end
          end
      end
  end.

(** [PositionService.execute_take_profit]; [level] is [tp_level], and the
    four times are the values of [datetime.now()] in [add_take_profit], in
    its automatic close, in the explicit close of the last level and in
    [close_position]. *)
Definition execute_take_profit (position_id : string) (level : Z)
    (tp_percentages : gmap Z Decimal)
    (now now_close now_last now_small : datetime) (w : World R)
  : result (Position * option Order) * World R :=
  (* Ensure we have the latest position data *)
  let w := mkWorld (reload_positions (repository_state w)) (placed_orders w)
                   (position_object w) in
  match get_by_id position_id (repository_state w) with
  | None => (raise ValueError (String.append "Position not found: " position_id), w)
  | Some position =>
      let w := set_object position w in
      if is_closed position then (raise ValueError "Position already closed", w)
      (* Check if the requested TP level has already been executed *)
      else if existsb (fun tp => level <=? tp_level tp) (take_profits position)
      then (raise ValueError
              (String.append "TP level "
                 (String.append (print_Z level)
                    " or higher has already been executed")), w)
      else
        let is_last_tp := level =? take_profit_max position in
        (* Calculate quantity to execute for this TP level *)
        match tp_percentages !! level with
        | None =>
            (raise ValueError
               (String.append "No percentage defined for TP level " (print_Z level)), w)
        | Some percentage =>
            if Dec.eqb percentage Dec.zero
            then (raise ValueError
                    (String.append "No percentage defined for TP level "
                       (print_Z level)), w)
            else
              (* Calculate percentage relative to the previous TP *)
              let prev_tp_percentage :=
                if 1 <? level
                then default Dec.zero (tp_percentages !! (level - 1))
                else Dec.zero in
              let current_percentage := Dec.sub percentage prev_tp_percentage in
              if Dec.leb current_percentage Dec.zero
              then (raise ValueError
                      (String.append "Invalid TP percentage configuration: "
                         (percentages_str tp_percentages)), w)
              else
                (* Calculate amount to sell at this level *)
                let tp_quantity :=
                  Dec.mul (div_hundred current_percentage) (initial_quantity position) in
                (* Don't try to TP more than what remains *)
                let quantity_to_execute :=
                  Dec.py_min tp_quantity (remaining_quantity position) in
                if Dec.leb quantity_to_execute Dec.zero
                then (raise ValueError
                        (String.append "No quantity available for TP "
                           (print_Z level)), w)
                else
                  match validate_tp_quantity position position_id level is_last_tp
                          quantity_to_execute now_small w with
                  | (_, _, Some returned, w) => (Ok returned, w)
                  | (position, quantity_to_execute, None, w) =>
                      place_tp_order position level is_last_tp quantity_to_execute
                        now now_close now_last w
                  end
        end
  end.

End TakeProfitService.

(** An exchange whose asset has a step of 0.1 and which accepts every order. *)
Definition example_asset_step : Asset :=
  mkAsset "BTCUSDT" "crypto" "binance" None None (Some (mkDecimal 1 (-1))) None None.

Definition example_exchange_step : ExchangeAdapter := {|
  get_asset_info := fun _ => Ok example_asset_step;
  get_current_price := fun _ => Ok (mkDecimal 100 0);
  place_market_order := fun _ _ _ _ _ => Ok example_order
|}.

(** Cumulative percentages: a third at each of three levels. *)
Definition example_percentages : gmap Z Decimal :=
  {[ 1 := mkDecimal 33 0; 2 := mkDecimal 66 0; 3 := mkDecimal 100 0 ]}.
(** * Properties *)

(** ** Decimal arithmetic on aligned coefficients *)

Section DecimalFacts.

Import Dec.

Lemma pow10_pos (k : Z) : 0 <= k -> 0 < 10 ^ k.
Proof. intros Hk. apply Z.pow_pos_nonneg; lia. Qed.

(** Aligning on a smaller exponent multiplies by a power of ten. *)
Lemma scale_shift (m m' : Z) (d : Decimal) :
  m <= m' -> m' <= exponent d ->
  scale m d = scale m' d * 10 ^ (m' - m).
Proof.
  intros H1 H2. unfold scale.
  replace (exponent d - m) with ((exponent d - m') + (m' - m)) by lia.
  rewrite Z.pow_add_r by lia. ring.
Qed.

(** Comparison can be done on any common alignment. *)
Lemma compare_scale (m : Z) (a b : Decimal) :
  m <= exponent a -> m <= exponent b ->
  compare a b = (scale m a ?= scale m b).
Proof.
  intros Ha Hb. unfold compare.
  set (m0 := Z.min (exponent a) (exponent b)).
  rewrite (scale_shift m m0 a), (scale_shift m m0 b) by (subst m0; lia).
  apply Zmult_compare_compat_r.
  apply Z.lt_gt, pow10_pos. subst m0; lia.
Qed.

Lemma gtb_scale (m : Z) (a b : Decimal) :
  m <= exponent a -> m <= exponent b ->
  gtb a b = (scale m a >? scale m b).
Proof.
  intros Ha Hb. unfold gtb, Z.gtb. now rewrite (compare_scale m).
Qed.

Lemma ltb_scale (m : Z) (a b : Decimal) :
  m <= exponent a -> m <= exponent b ->
  ltb a b = (scale m a <? scale m b).
Proof.
  intros Ha Hb. unfold ltb, Z.ltb. now rewrite (compare_scale m).
Qed.

Lemma eqb_scale (m : Z) (a b : Decimal) :
  m <= exponent a -> m <= exponent b ->
  eqb a b = (scale m a =? scale m b).
Proof.
  intros Ha Hb. unfold eqb. rewrite (compare_scale m) by assumption.
  destruct (Z.compare_spec (scale m a) (scale m b)) as [E|E|E];
    symmetry; [apply Z.eqb_eq | apply Z.eqb_neq | apply Z.eqb_neq]; lia.
Qed.

Lemma leb_scale (m : Z) (a b : Decimal) :
  m <= exponent a -> m <= exponent b ->
  leb a b = (scale m a <=? scale m b).
Proof.
  intros Ha Hb. unfold leb, Z.leb. now rewrite (compare_scale m).
Qed.

Lemma scale_zero (m : Z) : scale m zero = 0.
Proof. reflexivity. Qed.

Lemma scale_nonzero (m : Z) (d : Decimal) :
  m <= exponent d -> coefficient d <> 0 -> scale m d <> 0.
Proof.
  intros Hm Hc. unfold scale.
  pose proof (pow10_pos (exponent d - m)). nia.
Qed.

(** [a // b] is the truncated quotient of the aligned coefficients. *)
Lemma floordiv_scale (m : Z) (a b : Decimal) :
  m <= exponent a -> m <= exponent b -> coefficient b <> 0 ->
  floordiv a b = Some (mkDecimal (Z.quot (scale m a) (scale m b)) 0).
Proof.
  intros Ha Hb Hc. unfold floordiv.
  destruct (Z.eqb_spec (coefficient b) 0) as [E|_]; [contradiction|].
  set (m0 := Z.min (exponent a) (exponent b)).
  rewrite (scale_shift m m0 a), (scale_shift m m0 b) by (subst m0; lia).
  rewrite Z.quot_mul_cancel_r; [reflexivity | |].
  - apply scale_nonzero; [subst m0; lia | assumption].
  - pose proof (pow10_pos (m0 - m)). subst m0; lia.
Qed.

(** Quantizing to the exponent a number already has changes nothing. *)
Lemma quantize_down_same (d e : Decimal) :
  exponent e = exponent d -> quantize_down d e = d.
Proof.
  intros E. unfold quantize_down. rewrite E, Z.leb_refl, Z.sub_diag.
  destruct d as [c x]; simpl. f_equal. lia.
Qed.

Lemma scale_mul_int (m n : Z) (s : Decimal) :
  scale m (mul (mkDecimal n 0) s) = n * scale m s.
Proof.
  unfold scale, mul; cbn [coefficient exponent].
  rewrite Z.add_0_l. ring.
Qed.

End DecimalFacts.

(** ** Decimal arithmetic through the rationals *)

Section DecimalValue.

Import Dec.
Local Open Scope Q_scope.

Lemma ten_nonzero : ~ inject_Z 10 == 0.
Proof. intros H. discriminate H. Qed.

Lemma ten_power_pos (m : Z) : 0 < inject_Z 10 ^ m.
Proof. apply Qpower_0_lt. reflexivity. Qed.

Lemma value_scale (m : Z) (d : Decimal) :
  (m <= exponent d)%Z ->
  value d == inject_Z (scale m d) * inject_Z 10 ^ m.
Proof.
  intros Hm. unfold value, scale.
  rewrite inject_Z_mult, Zpower_Qpower by lia.
  rewrite <- Qmult_assoc, <- Qpower_plus by apply ten_nonzero.
  replace (exponent d - m + m)%Z with (exponent d) by lia. reflexivity.
Qed.

Lemma ltb_value (a b : Decimal) : ltb a b = true <-> value a < value b.
Proof.
  set (m := Z.min (exponent a) (exponent b)).
  rewrite (ltb_scale m), (value_scale m a), (value_scale m b) by (subst m; lia).
  rewrite Qmult_lt_r by apply ten_power_pos.
  rewrite <- Zlt_Qlt. apply Z.ltb_lt.
Qed.

Lemma leb_value (a b : Decimal) : leb a b = true <-> value a <= value b.
Proof.
  set (m := Z.min (exponent a) (exponent b)).
  rewrite (leb_scale m), (value_scale m a), (value_scale m b) by (subst m; lia).
  rewrite Qmult_le_r by apply ten_power_pos.
  rewrite <- Zle_Qle. apply Z.leb_le.
Qed.

Lemma eqb_value (a b : Decimal) : eqb a b = true <-> value a == value b.
Proof.
  set (m := Z.min (exponent a) (exponent b)).
  rewrite (eqb_scale m), (value_scale m a), (value_scale m b) by (subst m; lia).
  rewrite Qmult_inj_r.
  - rewrite inject_Z_injective. apply Z.eqb_eq.
  - intros H. pose proof (ten_power_pos m) as Hp. rewrite H in Hp.
    discriminate Hp.
Qed.

Lemma value_sub (a b : Decimal) : value (sub a b) == value a - value b.
Proof.
  set (m := Z.min (exponent a) (exponent b)).
  rewrite (value_scale m a), (value_scale m b) by (subst m; lia).
  unfold sub, value; cbn [coefficient exponent]. fold m.
  unfold Z.sub at 1. rewrite inject_Z_plus, inject_Z_opp. ring.
Qed.

Lemma value_add (a b : Decimal) : value (add a b) == value a + value b.
Proof.
  set (m := Z.min (exponent a) (exponent b)).
  rewrite (value_scale m a), (value_scale m b) by (subst m; lia).
  unfold add, value; cbn [coefficient exponent]. fold m.
  rewrite inject_Z_plus. ring.
Qed.

Lemma leb_false_value (a b : Decimal) : leb a b = false <-> value b < value a.
Proof.
  rewrite <- Bool.not_true_iff_false, leb_value. split.
  - apply Qnot_le_lt.
  - apply Qlt_not_le.
Qed.

Lemma ltb_false_value (a b : Decimal) : ltb a b = false <-> value b <= value a.
Proof.
  rewrite <- Bool.not_true_iff_false, ltb_value. split.
  - apply Qnot_lt_le.
  - apply Qle_not_lt.
Qed.

(** The value of [min(a, b)] is the smaller value. *)
Lemma value_py_min (a b : Decimal) :
  value (py_min a b) <= value a /\ value (py_min a b) <= value b /\
  (py_min a b = a \/ py_min a b = b).
Proof.
  unfold py_min. destruct (ltb b a) eqn:E.
  - apply ltb_value in E. repeat split; [lra | lra | auto].
  - apply ltb_false_value in E. repeat split; [lra | lra | auto].
Qed.

Lemma value_sum_snoc (l : list Decimal) (x : Decimal) :
  value (sum (l ++ [x])) == value (sum l) + value x.
Proof. unfold sum. rewrite fold_left_app. simpl. apply value_add. Qed.

End DecimalValue.

(** ** Asset.ensure_valid_quantity *)

Section EnsureValidQuantity.

Import Dec.

Lemma common_exponent_above (a : Asset) (q : Decimal) :
  exponents_above (common_exponent a q) a /\ common_exponent a q <= exponent q.
Proof. unfold exponents_above, common_exponent. lia. Qed.

Lemma py_max_scale (m : Z) (a b : Decimal) :
  m <= exponent a -> m <= exponent b ->
  m <= exponent (py_max a b) /\
  scale m (py_max a b) = if scale m b >? scale m a then scale m b else scale m a.
Proof.
  intros Ha Hb. unfold py_max. rewrite (gtb_scale m) by assumption.
  destruct (scale m b >? scale m a); auto.
Qed.

Lemma py_min_scale (m : Z) (a b : Decimal) :
  m <= exponent a -> m <= exponent b ->
  m <= exponent (py_min a b) /\
  scale m (py_min a b) = if scale m b <? scale m a then scale m b else scale m a.
Proof.
  intros Ha Hb. unfold py_min. rewrite (ltb_scale m) by assumption.
  destruct (scale m b <? scale m a); auto.
Qed.

(** The step of truncation: [(q // step * step).quantize(step)] is the
    product itself, a multiple of the step. *)
Lemma truncate_to_step (n : Z) (step : Decimal) :
  quantize_down (mul (mkDecimal n 0) step) step = mul (mkDecimal n 0) step.
Proof. apply quantize_down_same. unfold mul; simpl. lia. Qed.

(** [ensure_valid_quantity] always returns, and on aligned coefficients it
    computes [ensure_valid_aligned]. *)
Lemma ensure_valid_quantity_aligned (m : Z) (a : Asset) (q : Decimal) :
  exponents_above m a -> m <= exponent q ->
  exists r, ensure_valid_quantity a q = Some r /\
            m <= exponent r /\
            scale m r =
              ensure_valid_aligned (scale m <$> min_quantity a)
                                   (scale m <$> max_quantity a)
                                   (scale m <$> step_size a) (scale m q).
Proof.
  intros (H0 & Hmn & Hmx & Hst) Hq.
  unfold ensure_valid_quantity, ensure_valid_aligned, clamp_aligned, trunc_step.
  set (q1 := match min_quantity a with Some mn => py_max mn q | None => q end).
  assert (Hq1 : m <= exponent q1 /\
                scale m q1 = match scale m <$> min_quantity a with
                             | Some x => if scale m q >? x then scale m q else x
                             | None => scale m q end).
  { subst q1. destruct (min_quantity a) as [mn|]; simpl in *; [|auto].
    apply py_max_scale; assumption. }
  destruct Hq1 as [Hq1e Hq1s]. rewrite <- Hq1s. clearbody q1.
  set (q2 := match max_quantity a with Some mx => py_min mx q1 | None => q1 end).
  assert (Hq2 : m <= exponent q2 /\
                scale m q2 = match scale m <$> max_quantity a with
                             | Some x => if scale m q1 <? x then scale m q1 else x
                             | None => scale m q1 end).
  { subst q2. destruct (max_quantity a) as [mx|]; simpl in *; [|auto].
    apply py_min_scale; assumption. }
  destruct Hq2 as [Hq2e Hq2s]. rewrite <- Hq2s. clearbody q2.
  destruct (step_size a) as [step|]; simpl in *; [|eauto].
  rewrite (gtb_scale m), scale_zero by (simpl; lia).
  destruct (Z.gtb_spec (scale m step) 0) as [Hpos|Hnpos]; [|eauto].
  assert (Hc : coefficient step <> 0).
  { intros E. unfold scale in Hpos. rewrite E in Hpos. lia. }
  rewrite (floordiv_scale m) by assumption.
  rewrite truncate_to_step.
  set (n := Z.quot (scale m q2) (scale m step)).
  assert (Hr : m <= exponent (mul (mkDecimal n 0) step)) by (simpl; lia).
  pose proof (scale_mul_int m n step) as Hs.
  destruct (min_quantity a) as [mn|]; simpl in *; [|eauto].
  rewrite (ltb_scale m), Hs by assumption.
  destruct (n * scale m step <? scale m mn).
  - exists (mkDecimal 0 0). repeat split; simpl; lia.
  - eauto.
Qed.

(** Truncation to a multiple of a positive step. *)
Lemma trunc_step_idem (s x : Z) : 0 < s -> trunc_step s (trunc_step s x) = trunc_step s x.
Proof. intros Hs. unfold trunc_step. rewrite Z.quot_mul by lia. reflexivity. Qed.

Lemma trunc_step_bounds (s x : Z) :
  0 < s ->
  (0 <= x -> 0 <= trunc_step s x <= x) /\ (x <= 0 -> x <= trunc_step s x <= 0).
Proof.
  intros Hs. unfold trunc_step. split; intros Hx.
  - pose proof (Z.mul_quot_le x s Hx ltac:(lia)). lia.
  - pose proof (Z.mul_quot_le (- x) s ltac:(lia) ltac:(lia)) as H.
    rewrite Z.quot_opp_l in H by lia. lia.
Qed.

Lemma trunc_step_mono (s x y : Z) :
  0 < s -> x <= y -> trunc_step s x <= trunc_step s y.
Proof.
  intros Hs Hxy. unfold trunc_step.
  apply Z.mul_le_mono_nonneg_r; [lia|].
  apply Z.quot_le_mono; lia.
Qed.

Lemma trunc_step_0 (s : Z) : trunc_step s 0 = 0.
Proof. unfold trunc_step. destruct s; reflexivity. Qed.

Ltac clamp_cases :=
  unfold clamp_aligned;
  repeat match goal with
    | |- context [?x >? ?y] => destruct (Z.gtb_spec x y)
    | |- context [?x <? ?y] => destruct (Z.ltb_spec x y)
    end.

Lemma clamp_aligned_upper (mn : option Z) (M q : Z) :
  clamp_aligned mn (Some M) q <= M.
Proof. destruct mn; clamp_cases; lia. Qed.

Lemma clamp_aligned_lower (m : Z) (mx : option Z) (q : Z) :
  (forall M, mx = Some M -> m <= M) -> m <= clamp_aligned (Some m) mx q.
Proof.
  intros H. destruct mx as [M|]; [specialize (H M eq_refl)|];
    clamp_cases; lia.
Qed.

Lemma clamp_aligned_const (m M q q' : Z) :
  M <= m -> clamp_aligned (Some m) (Some M) q = clamp_aligned (Some m) (Some M) q'.
Proof. intros H. clamp_cases; lia. Qed.

(** A truncated value that passed the minimum is a fixed point. *)
Lemma truncated_fixed (mn mx : option Z) (s q : Z) :
  0 < s ->
  (forall m, mn = Some m -> m <= trunc_step s (clamp_aligned mn mx q)) ->
  trunc_step s (clamp_aligned mn mx (trunc_step s (clamp_aligned mn mx q)))
  = trunc_step s (clamp_aligned mn mx q).
Proof.
  intros Hs Hmin.
  set (a := clamp_aligned mn mx q) in *.
  set (r := trunc_step s a) in *.
  assert (Hidem : trunc_step s r = r) by apply (trunc_step_idem s a Hs).
  assert (Hr : r = trunc_step s a) by reflexivity.
  clearbody r.
  assert (Hup : forall M, mx = Some M -> a <= M).
  { intros M ->. apply clamp_aligned_upper. }
  destruct mn as [m|], mx as [M|];
    try specialize (Hmin _ eq_refl); try specialize (Hup _ eq_refl).
  all: unfold clamp_aligned;
    repeat match goal with
      | |- context [?x >? ?y] => destruct (Z.gtb_spec x y)
      | |- context [?x <? ?y] => destruct (Z.ltb_spec x y)
      end; try assumption.
  all: try (replace m with r by lia; assumption).
  all: pose proof (trunc_step_mono s a M Hs);
       pose proof (trunc_step_mono s M r Hs); lia.
Qed.

(** When the truncated value fails the minimum, so does the one of 0. *)
Lemma truncated_zero (m : Z) (mx : option Z) (s q : Z) :
  0 < s ->
  trunc_step s (clamp_aligned (Some m) mx q) < m ->
  trunc_step s (clamp_aligned (Some m) mx 0) < m \/
  trunc_step s (clamp_aligned (Some m) mx 0) = 0.
Proof.
  intros Hs Hr.
  destruct mx as [M|].
  - destruct (Z_le_gt_dec M m) as [HMm|HMm].
    + left. rewrite (clamp_aligned_const m M 0 q) by assumption. exact Hr.
    + pose proof (clamp_aligned_lower m (Some M) q) as Hlow.
      specialize (Hlow ltac:(intros ? [= <-]; lia)).
      pose proof (clamp_aligned_upper (Some m) M q) as Hup.
      set (a := clamp_aligned (Some m) (Some M) q) in *.
      pose proof (trunc_step_bounds s a Hs) as [Hb1 Hb2].
      pose proof (trunc_step_mono s m a Hs Hlow).
      pose proof (trunc_step_0 s).
      clamp_cases; lia.
  - pose proof (clamp_aligned_lower m None q) as Hlow.
    specialize (Hlow ltac:(intros ? [=])).
    set (a := clamp_aligned (Some m) None q) in *.
    pose proof (trunc_step_bounds s a Hs) as [Hb1 Hb2].
    pose proof (trunc_step_mono s m a Hs Hlow).
    pose proof (trunc_step_0 s).
    clamp_cases; lia.
Qed.

Lemma clamp_aligned_idem (mn mx : option Z) (q : Z) :
  clamp_aligned mn mx (clamp_aligned mn mx q) = clamp_aligned mn mx q.
Proof. destruct mn, mx; clamp_cases; lia. Qed.

Lemma ensure_valid_aligned_idempotent (mn mx st : option Z) (q : Z) :
  ensure_valid_aligned mn mx st (ensure_valid_aligned mn mx st q)
  = ensure_valid_aligned mn mx st q.
Proof.
  unfold ensure_valid_aligned.
  destruct st as [s|]; [|apply clamp_aligned_idem].
  destruct (Z.gtb_spec s 0) as [Hs|Hs]; [|apply clamp_aligned_idem].
  pose proof (truncated_fixed mn mx s q Hs) as Hfix.
  destruct mn as [m|]; [|apply Hfix; intros ? [=]].
  destruct (Z.ltb_spec (trunc_step s (clamp_aligned (Some m) mx q)) m) as [Hlt|Hge].
  - pose proof (truncated_zero m mx s q Hs Hlt) as H0.
    destruct (Z.ltb_spec (trunc_step s (clamp_aligned (Some m) mx 0)) m); lia.
  - rewrite Hfix by (intros ? [= <-]; exact Hge).
    destruct (Z.ltb_spec (trunc_step s (clamp_aligned (Some m) mx q)) m); lia.
Qed.

(** With a positive step the result is a multiple of the step, or zero. *)
Lemma ensure_valid_quantity_multiple (a : Asset) (q r step : Decimal) :
  ensure_valid_quantity a q = Some r ->
  step_size a = Some step -> gtb step zero = true ->
  (exists n : Z, r = mul (of_int n) step) \/ r = zero.
Proof.
  unfold ensure_valid_quantity. intros H Hstep Hpos.
  rewrite Hstep, Hpos in H.
  destruct (floordiv _ step) as [n|] eqn:Hn; [|discriminate].
  assert (En : n = of_int (coefficient n)).
  { unfold floordiv in Hn. destruct (coefficient step =? 0); [discriminate|].
    injection Hn as <-. reflexivity. }
  rewrite En in H. unfold of_int in H. rewrite truncate_to_step in H.
  destruct (min_quantity a) as [mn|].
  - destruct (ltb _ mn); injection H as <-; [right; reflexivity|].
    left. now exists (coefficient n).
  - injection H as <-. left. now exists (coefficient n).
Qed.

End EnsureValidQuantity.






(** ** Position.close and Position.add_take_profit *)

Section PositionFacts.

Context {RT : PyRuntime} (laws : PyRuntimeLaws RT).

Import Dec.
Local Open Scope Q_scope.

(** What a successful [close] does. *)
Lemma close_inv (p p' : Position) (now : datetime) (price q : Decimal)
    (reason : string) (ext : option string) :
  close p now price q reason ext = Ok p' ->
  let adjusted := py_min q (remaining_quantity p) in
  status p = OPEN /\
  initial_quantity p' = initial_quantity p /\
  take_profits p' = take_profits p /\
  close_quantity p' = Ok adjusted /\
  value (remaining_quantity p') == value (remaining_quantity p) - value adjusted /\
  0 <= value (remaining_quantity p') /\
  (status p' = CLOSED <-> value (remaining_quantity p) <= value q).
Proof.
  intros H adjusted. unfold close, is_closed in H.
  destruct (status p) eqn:Hst; [|discriminate]. split; [reflexivity|].
  fold adjusted in H.
  destruct (value_py_min q (remaining_quantity p)) as (Hle1 & Hle2 & Hcase).
  fold adjusted in Hle1, Hle2, Hcase.
  assert (Hq : value adjusted == value q \/
               (value adjusted == value (remaining_quantity p) /\
                value (remaining_quantity p) <= value q)).
  { destruct Hcase as [E|E]; rewrite E in *; [left | right; split]; lra. }
  clear Hcase.
  cbn [remaining_quantity set_remaining_quantity set_close_data] in H.
  destruct (leb (sub (remaining_quantity p) adjusted) zero) eqn:Hz;
    injection H as <-;
    cbn [initial_quantity take_profits remaining_quantity
         set_remaining_quantity set_status set_close_data status];
    (split; [reflexivity|]); (split; [reflexivity|]);
    (split; [unfold close_quantity;
             cbn [close_data set_remaining_quantity set_status set_close_data];
             destruct ext as [e|]; [destruct (String.eqb e "")|];
             cbn; now rewrite (decimal_parse_str RT laws) |]).
  - apply leb_value in Hz. rewrite value_sub in Hz.
    change (value zero) with 0 in Hz. change (value (mkDecimal 0 0)) with 0.
    split; [lra|]. split; [lra|]. split; [intros _; lra | reflexivity].
  - apply leb_false_value in Hz. rewrite value_sub in Hz.
    change (value zero) with 0 in Hz. rewrite value_sub.
    split; [lra|]. split; [lra|]. split; [rewrite Hst; discriminate | intros; lra].
Qed.

(** What a successful [add_take_profit] does.  The position ends CLOSED
    exactly when the requested quantity covers what remained: the level
    plays no part in it. *)
Lemma add_take_profit_inv (p p' : Position) (tp : TakeProfit)
    (now now_close : datetime) (price q : Decimal) (level : Z) :
  add_take_profit p now now_close price q level = Ok (p', tp) ->
  let adjusted := py_min q (remaining_quantity p) in
  status p = OPEN /\
  0 < value adjusted /\
  tp = mkTakeProfit level price adjusted now /\
  initial_quantity p' = initial_quantity p /\
  take_profits p' = take_profits p ++ [tp] /\
  value (remaining_quantity p') == value (remaining_quantity p) - value adjusted /\
  0 <= value (remaining_quantity p') /\
  (close_quantity p' = close_quantity p \/ close_quantity p' = Ok (mkDecimal 0 0)) /\
  (status p' = CLOSED <-> value (remaining_quantity p) <= value q).
Proof.
  intros H adjusted. unfold add_take_profit, is_closed in H.
  destruct (status p) eqn:Hst; [|discriminate]. split; [reflexivity|].
  destruct (level >? take_profit_max p); [discriminate|].
  destruct (existsb _ _); [discriminate|].
  fold adjusted in H.
  destruct (leb adjusted zero) eqn:Hadj; [discriminate|].
  apply leb_false_value in Hadj. change (value zero) with 0 in Hadj.
  split; [exact Hadj|].
  destruct (value_py_min q (remaining_quantity p)) as (Hle1 & Hle2 & Hcase).
  fold adjusted in Hle1, Hle2, Hcase.
  assert (Hq : value adjusted == value q \/
               (value adjusted == value (remaining_quantity p) /\
                value (remaining_quantity p) <= value q)).
  { destruct Hcase as [E|E]; rewrite E in *; [left | right; split]; lra. }
  clear Hcase.
  set (p1 := set_remaining_quantity _ _) in H.
  assert (Hrem1 : value (remaining_quantity p1)
                  == value (remaining_quantity p) - value adjusted).
  { subst p1. cbn. apply value_sub. }
  destruct ((level =? take_profit_max p1) || leb (remaining_quantity p1) zero)%bool
    eqn:Hauto.
  - destruct (close p1 now_close price (mkDecimal 0 0) "Manual close" None)
      as [p2|e] eqn:Hclose; [|discriminate].
    injection H as <- <-.
    apply close_inv in Hclose.
    destruct Hclose as (_ & Hi & Htp & Hcq & Hrem & Hpos & Hcl).
    assert (Hmin0 : py_min (mkDecimal 0 0) (remaining_quantity p1) = mkDecimal 0 0).
    { unfold py_min.
      destruct (ltb (remaining_quantity p1) (mkDecimal 0 0)) eqn:E; [|reflexivity].
      apply ltb_value in E. change (value (mkDecimal 0 0)) with 0 in E. lra. }
    rewrite Hmin0 in Hcq, Hrem. change (value (mkDecimal 0 0)) with 0 in Hrem, Hcl.
    split; [reflexivity|]. split; [exact Hi|]. split; [exact Htp|].
    split; [lra|]. split; [exact Hpos|]. split; [right; exact Hcq|].
    rewrite Hcl. split; intros; lra.
  - injection H as <- <-.
    apply Bool.orb_false_iff in Hauto. destruct Hauto as [_ Hauto].
    apply leb_false_value in Hauto. change (value zero) with 0 in Hauto.
    split; [reflexivity|]. split; [reflexivity|]. split; [reflexivity|].
    split; [exact Hrem1|]. split; [lra|]. split; [left; reflexivity|].
    subst p1. cbn [status set_remaining_quantity set_take_profits].
    rewrite Hst. split; [discriminate | intros; lra].
Qed.

End PositionFacts.

(** ** The example runtime satisfies the contract of the Python runtime *)

Lemma read_print_Z (z : Z) : read_Z (print_Z z) = Some z.
Proof.
  unfold read_Z, print_Z. rewrite NilEmpty.isi. now rewrite DecimalZ.of_to.
Qed.

Lemma split_once_uint (d : Decimal.uint) (r : string) :
  split_once "E" (String.append (NilEmpty.string_of_uint d) (String "E" r))
  = Some (NilEmpty.string_of_uint d, r).
Proof.
  induction d; simpl; try (rewrite IHd); reflexivity.
Qed.

Lemma split_once_print_Z (z : Z) (r : string) :
  split_once "E" (String.append (print_Z z) (String "E" r)) = Some (print_Z z, r).
Proof.
  unfold print_Z, NilEmpty.string_of_int.
  destruct (Z.to_int z) as [d|d]; simpl; now rewrite split_once_uint.
Qed.

Lemma example_runtime_laws : PyRuntimeLaws example_runtime.
Proof.
  split.
  - intros t. apply read_print_Z.
  - intros [c e]. simpl.
    rewrite split_once_print_Z, !read_print_Z. reflexivity.
Qed.

(** ** C1 and C2: the quantities of a position *)

Section Quantities.

Context {RT : PyRuntime} (laws : PyRuntimeLaws RT).

Import Dec.
Local Open Scope Q_scope.

(** [add_take_profit] succeeds on an open position for a fresh level up
    to the maximum and a positive quantity, when something remains. *)
Lemma add_take_profit_succeeds (p : Position) (now now_close : datetime)
    (price q : Decimal) (level : Z) :
  status p = OPEN -> (level <= take_profit_max p)%Z ->
  existsb (fun tp => tp_level tp =? level)%Z (take_profits p) = false ->
  0 < value q -> 0 < value (remaining_quantity p) ->
  exists p' tp, add_take_profit p now now_close price q level = Ok (p', tp).
Proof.
  intros Hst Hlevel Hfresh Hq Hrem. unfold add_take_profit, is_closed.
  rewrite Hst, Hfresh.
  destruct (Z.gtb_spec level (take_profit_max p)) as [Hgt|_]; [lia|].
  destruct (value_py_min q (remaining_quantity p)) as (_ & _ & Hcase).
  destruct (leb (py_min q (remaining_quantity p)) zero) eqn:Hadj.
  { apply leb_value in Hadj. change (value zero) with 0 in Hadj.
    destruct Hcase as [E|E]; rewrite E in Hadj; lra. }
  match goal with
  | |- context [if ?c then close ?a ?b ?c' ?d ?e ?f else _] =>
      destruct c; [|eauto];
      destruct (close a b c' d e f) as [p2|err] eqn:Hclose; [eauto|]
  end.
  unfold close, is_closed in Hclose. cbn [status set_remaining_quantity
    set_take_profits set_close_data] in Hclose. rewrite Hst in Hclose.
  destruct (leb _ zero) in Hclose; discriminate.
Qed.

Lemma quantity_equation_values (p : Position) :
  quantity_equation p <-> equation_on_values p.
Proof.
  unfold quantity_equation, equation_on_values.
  split; intros (cq & Hcq & H); exists cq; split; try exact Hcq.
  - apply eqb_value in H. now rewrite !value_sub in H.
  - apply eqb_value. now rewrite !value_sub.
Qed.

Lemma freshly_opened_inv (p : Position) :
  freshly_opened p ->
  status p = OPEN /\ take_profits p = [] /\ close_data p = PyNone /\
  remaining_quantity p = initial_quantity p.
Proof.
  intros (a & d & iq & ep & bs & tf & bset & tpm & ext & lev & mt & id & now & H).
  unfold new_position, Position_init in H. cbn in H. injection H as <-.
  repeat split.
Qed.

Lemma equation_when_opened (p : Position) :
  freshly_opened p -> equation_on_values p.
Proof.
  intros H. apply freshly_opened_inv in H. destruct H as (_ & Htp & Hcd & Hrem).
  exists (mkDecimal 0 0). unfold close_quantity, tp_quantity_sum.
  rewrite Hcd, Htp, Hrem. split; [reflexivity|].
  cbn [map sum fold_left]. change (value zero) with 0.
  change (value (mkDecimal 0 0)) with 0. lra.
Qed.

Lemma tp_quantity_sum_snoc (p p' : Position) (tp : TakeProfit) :
  take_profits p' = take_profits p ++ [tp] ->
  value (tp_quantity_sum p') == value (tp_quantity_sum p) + value (tp_quantity tp).
Proof.
  intros E. unfold tp_quantity_sum. rewrite E, map_app. apply value_sum_snoc.
Qed.

(** One operation leaves a remaining quantity that is not negative. *)
Lemma operation_not_negative (p p' : Position) (op : operation) :
  apply_operation p op = Ok p' -> 0 <= value (remaining_quantity p').
Proof.
  intros Hop.
  destruct op as [now now_close price q level | now price q reason ext];
    cbn [apply_operation] in Hop.
  - destruct (add_take_profit p now now_close price q level) as [[p1 tp]|e] eqn:Hadd;
      [|discriminate].
    cbn in Hop. injection Hop as <-.
    apply (add_take_profit_inv laws) in Hadd. tauto.
  - apply (close_inv laws) in Hop. tauto.
Qed.

(** One operation, applied before anything was closed, keeps the equation. *)
Lemma operation_keeps_equation (p p' : Position) (op : operation) :
  equation_on_values p -> nothing_closed_yet p ->
  apply_operation p op = Ok p' ->
  equation_on_values p'.
Proof.
  intros (cq & Hcq & Heq) (cq0 & Hcq0 & Hzero) Hop.
  rewrite Hcq in Hcq0. injection Hcq0 as <-.
  apply eqb_value in Hzero. change (value zero) with 0 in Hzero.
  destruct op as [now now_close price q level | now price q reason ext];
    cbn [apply_operation] in Hop.
  - destruct (add_take_profit p now now_close price q level) as [[p1 tp]|e] eqn:Hadd;
      [|discriminate].
    cbn in Hop. injection Hop as <-.
    apply (add_take_profit_inv laws) in Hadd.
    destruct Hadd as (_ & _ & Htp & Hi & Htps & Hrem & Hpos & Hcq' & _).
    pose proof (tp_quantity_sum_snoc p p1 tp Htps) as Hsum.
    subst tp. cbn [tp_quantity] in Hsum.
    destruct Hcq' as [E|E].
    + exists cq. rewrite E, Hi. split; [exact Hcq|]. lra.
    + exists (mkDecimal 0 0). rewrite Hi. split; [exact E|].
      change (value (mkDecimal 0 0)) with 0. lra.
  - apply (close_inv laws) in Hop.
    destruct Hop as (_ & Hi & Htps & Hcq' & Hrem & Hpos & _).
    exists (py_min q (remaining_quantity p)). split; [exact Hcq'|].
    unfold tp_quantity_sum in *. rewrite Hi, Htps. lra.
Qed.

Lemma equation_before_close (p0 p : Position) :
  freshly_opened p0 -> reachable_before_close p0 p -> equation_on_values p.
Proof.
  intros Hfresh Hreach. induction Hreach as [|p p' op _ IH Hnone Hop].
  - now apply equation_when_opened.
  - now apply (operation_keeps_equation p p' op).
Qed.

End Quantities.

(** C1 (the code departs from it).  On an open position, a take profit at
    the level [take_profit_max] for a positive quantity smaller than what
    remains succeeds and leaves the position OPEN: the automatic
    [close(price, 0)] closes only a position with nothing left. *)
Theorem add_take_profit_at_max_level_stays_open
    {RT : PyRuntime} (laws : PyRuntimeLaws RT) (p : Position)
    (now now_close : datetime) (price q : Decimal) :
  status p = OPEN ->
  existsb (fun tp => tp_level tp =? take_profit_max p) (take_profits p) = false ->
  Dec.ltb Dec.zero q = true -> Dec.ltb q (remaining_quantity p) = true ->
  exists p' tp,
    add_take_profit p now now_close price q (take_profit_max p) = Ok (p', tp) /\
    status p' = OPEN.
Proof.
  intros Hst Hfresh Hq Hrem.
  apply ltb_value in Hq, Hrem. change (Dec.value Dec.zero) with 0%Q in Hq.
  destruct (add_take_profit_succeeds p now now_close price q (take_profit_max p))
    as (p' & tp & Hadd); try assumption; try lia; try lra.
  exists p', tp. split; [exact Hadd|].
  apply (add_take_profit_inv laws) in Hadd.
  destruct Hadd as (_ & _ & _ & _ & _ & _ & _ & _ & Hclosed).
  destruct (status p'); [reflexivity|].
  destruct Hclosed as [Hc _]. specialize (Hc eq_refl). lra.
Qed.

(** Witness: 3 of the 10 units are taken at level 3 of 3. *)
Lemma add_take_profit_at_max_level_stays_open_witness :
  exists p' tp,
    add_take_profit example_position 1 2 (mkDecimal 110 0) (mkDecimal 3 0)
      (take_profit_max example_position) = Ok (p', tp) /\
    status p' = OPEN.
Proof.
  apply (add_take_profit_at_max_level_stays_open example_runtime_laws);
    reflexivity.
Defined.


Lemma example_position_freshly_opened : freshly_opened example_position.
Proof.
  exists example_asset, LONG, (mkDecimal 10 0), (mkDecimal 100 0), "trend"%string,
    "1h"%string, "default"%string, 3, None, (mkDecimal 1 0), None, "p-1"%string, 0.
  reflexivity.
Qed.



(** ** C7: Position.to_dict and Position.from_dict *)

Section RoundTrip.

Context {RT : PyRuntime} (laws : PyRuntimeLaws RT).

Lemma direction_of_value (d : PositionDirection) :
  PositionDirection_of (upper (direction_value d)) = Ok d.
Proof. destruct d; reflexivity. Qed.

Lemma status_of_value (s : PositionStatus) :
  PositionStatus_of (upper (status_value s)) = Ok s.
Proof. destruct s; reflexivity. Qed.

Lemma as_optional_str_of (o : option string) :
  as_optional_str (of_optional_str o) = Ok o.
Proof. destruct o; reflexivity. Qed.

Lemma take_profit_round_trip (tp : TakeProfit) :
  take_profit_from_dict (take_profit_to_dict tp) = Ok tp.
Proof.
  unfold take_profit_from_dict, take_profit_to_dict. cbn.
  rewrite !(decimal_parse_str RT laws), (fromisoformat_isoformat RT laws). cbn.
  now destruct tp.
Qed.

(** The list of take profits is read back element by element, in order. *)
Lemma take_profits_round_trip (tps : list TakeProfit) :
  mapM take_profit_from_dict (map take_profit_to_dict tps) = Ok tps.
Proof.
  induction tps as [|tp tps IH]; [reflexivity|].
  cbn [map mapM]. rewrite take_profit_round_trip. cbn. rewrite IH. reflexivity.
Qed.

Lemma from_dict_to_dict_asset (p : Position) (fresh_id : string) (a : Asset) :
  from_dict fresh_id (to_dict p) a = Ok (set_asset a p).
Proof.
  unfold from_dict, to_dict. cbn -[mapM map].
  rewrite take_profits_round_trip. cbn.
  rewrite !(decimal_parse_str RT laws), (fromisoformat_isoformat RT laws). cbn.
  rewrite as_optional_str_of. cbn.
  rewrite as_optional_str_of. cbn.
  unfold Position_init. rewrite direction_of_value, status_of_value. reflexivity.
Qed.

End RoundTrip.

(** C7. Rebuilding a position from [p.to_dict()] with [Position.from_dict]
    and the same asset succeeds and gives [p] back: the same
    [remaining_quantity], the same [status] and the same list of take
    profits, in the same order. *)
Theorem from_dict_to_dict
    {RT : PyRuntime} (laws : PyRuntimeLaws RT) (p : Position) (fresh_id : string) :
  exists p',
    from_dict fresh_id (to_dict p) (asset p) = Ok p' /\
    p' = p /\
    remaining_quantity p' = remaining_quantity p /\
    status p' = status p /\
    take_profits p' = take_profits p.
Proof.
  exists p. rewrite (from_dict_to_dict_asset laws).
  split; [now destruct p|]. repeat split.
Qed.

(** Witness: the example position with one take profit and close data. *)
Lemma from_dict_to_dict_witness :
  exists p',
    from_dict "fresh" (to_dict example_position_in_progress)
      (asset example_position_in_progress) = Ok p' /\
    p' = example_position_in_progress /\
    remaining_quantity p' = remaining_quantity example_position_in_progress /\
    status p' = status example_position_in_progress /\
    take_profits p' = take_profits example_position_in_progress.
Proof. exact (from_dict_to_dict example_runtime_laws example_position_in_progress "fresh"). Defined.

(** ** C9: records with close data are loaded as closed positions *)

Lemma bind_Ok {A B : Type} (r : result A) (k : A -> result B) (b : B) :
  r ≫= k = Ok b -> exists a, r = Ok a /\ k a = Ok b.
Proof. destruct r as [a|e]; [eauto | discriminate]. Qed.

(** Inverts the steps of a computation that is known to return. *)
Ltac bind_inv H :=
  repeat (apply bind_Ok in H;
          let x := fresh "x" in
          let Hx := fresh "Hx" in
          destruct H as (x & Hx & H)).

Section LoadRecord.

Context {RT : PyRuntime}.

Import Dec.

Lemma create_position_closed (now : datetime) (data : list (string * PyValue))
    (a : Asset) (p : Position) :
  _create_position_from_dict now data a = Ok p ->
  truthy (dict_get "close_data" PyNone data) = true ->
  status p = CLOSED /\
  gtb (remaining_quantity p) zero = false /\
  exists r, stored_remaining_quantity data = Ok r /\
            remaining_quantity p = (if gtb r zero then mkDecimal 0 0 else r).
Proof.
  intros H Hcd. unfold _create_position_from_dict in H.
  rewrite Hcd in H. bind_inv H.
  unfold Position_init in Hx11. cbn in Hx11. injection Hx11 as <-.
  assert (H12 : status x12 = OPEN /\
                exists r, stored_remaining_quantity data = Ok r /\
                          remaining_quantity x12 = r).
  { unfold stored_remaining_quantity.
    destruct (dict_mem "remaining_quantity" data).
    - apply bind_Ok in Hx12 as (r0 & Hr0 & Hx12). injection Hx12 as <-.
      split; [reflexivity|]. exists r0. split; [exact Hr0|reflexivity].
    - injection Hx12 as <-. split; [reflexivity|].
      exists x1. split; [exact Hx1|reflexivity]. }
  destruct H12 as (_ & r & Hstored & Hr12).
  assert (H13 : remaining_quantity x13 = r).
  { destruct (dict_mem "status" data).
    - apply bind_Ok in Hx13 as (s0 & _ & Hx13).
      apply bind_Ok in Hx13 as (st & _ & Hx13).
      injection Hx13 as <-. exact Hr12.
    - injection Hx13 as <-. exact Hr12. }
  apply bind_Ok in Hx16 as (cd & _ & Hx16). injection Hx16 as <-.
  cbn [is_closed status remaining_quantity set_status set_close_data
       set_take_profits andb] in H.
  rewrite H13 in H.
  destruct (gtb r zero) eqn:Hgt; injection H as <-;
    cbn [status remaining_quantity set_status set_close_data
         set_take_profits set_remaining_quantity].
  - split; [reflexivity|]. split; [reflexivity|].
    exists r. rewrite Hgt. split; [exact Hstored|reflexivity].
  - split; [reflexivity|]. rewrite H13. split; [exact Hgt|].
    exists r. rewrite Hgt. split; [exact Hstored|reflexivity].
Qed.

(** A stored remaining quantity that is not negative is replaced by 0. *)
Lemma not_positive_is_zero (r : Decimal) :
  leb zero r = true -> eqb (if gtb r zero then mkDecimal 0 0 else r) zero = true.
Proof.
  intros Hr. destruct (gtb r zero) eqn:Hgt; [reflexivity|].
  unfold leb, gtb, eqb in *.
  set (m := Z.min (exponent r) (exponent zero)).
  rewrite (compare_scale m) in Hr, Hgt |- * by (subst m; lia).
  rewrite Z.compare_antisym in Hr.
  destruct (scale m r ?= scale m zero); simpl in *; congruence.
Qed.

End LoadRecord.

Section LoadWrittenRecord.

Context {RT : PyRuntime} (laws : PyRuntimeLaws RT).

Lemma create_take_profit_to_dict (now : datetime) (tp : TakeProfit) :
  create_take_profit now (take_profit_to_dict tp) = Ok tp.
Proof.
  unfold create_take_profit, take_profit_to_dict. cbn.
  rewrite !(decimal_parse_str RT laws), (fromisoformat_isoformat RT laws). cbn.
  now destruct tp.
Qed.

Lemma create_take_profits_to_dict (now : datetime) (tps : list TakeProfit) :
  mapM (create_take_profit now) (map take_profit_to_dict tps) = Ok tps.
Proof.
  induction tps as [|tp tps IH]; [reflexivity|].
  cbn [map mapM]. rewrite create_take_profit_to_dict. cbn. rewrite IH. reflexivity.
Qed.

(** Every record written by [to_dict] is read by the repository. *)
Lemma create_position_to_dict (now : datetime) (p0 : Position) (a : Asset) :
  exists p, _create_position_from_dict now (to_dict p0) a = Ok p.
Proof.
  unfold _create_position_from_dict, to_dict. cbn -[mapM map truthy].
  rewrite direction_of_value. cbn -[mapM map truthy].
  assert (Hbs : exists s, as_str (py_or (PyStr (bot_strategy p0)) (PyStr "")) = Ok s).
  { unfold py_or. destruct (truthy (PyStr (bot_strategy p0))); cbn; eauto. }
  destruct Hbs as [s Hbs].
  replace (if truthy (PyStr (bot_strategy p0))
           then Ok (PyStr (bot_strategy p0)) else Ok (PyStr (bot_strategy p0)))
    with (Ok (PyStr (bot_strategy p0)) : result PyValue)
    by (destruct (truthy (PyStr (bot_strategy p0))); reflexivity).
  cbn -[mapM map truthy py_or].
  rewrite Hbs, !(decimal_parse_str RT laws), (fromisoformat_isoformat RT laws),
    as_optional_str_of, status_of_value, create_take_profits_to_dict.
  cbn -[truthy].
  destruct (truthy (close_data p0)); cbn;
    match goal with
    | |- context [if ?b then _ else _] => destruct b
    end; eauto.
Qed.

End LoadWrittenRecord.




(** ** C8: strategy and settings of a signal *)

Section BotField.

Import Signal.

Lemma split_once_contains (c : ascii) (s : string) :
  contains c s = true ->
  exists a b, split_once c s = Some (a, b) /\
              s = String.append a (String c b) /\ contains c a = false.
Proof.
  induction s as [|c' s IH]; simpl; [discriminate|].
  destruct (Ascii.eqb_spec c' c) as [->|Hne]; simpl.
  - intros _. exists EmptyString, s. auto.
  - intros H. destruct (IH H) as (a & b & Hs & Hab & Ha).
    rewrite Hs. exists (String c' a), b. simpl.
    destruct (Ascii.eqb_spec c' c) as [E|_]; [contradiction|].
    split; [reflexivity|]. split; [now rewrite Hab | exact Ha].
Qed.

End BotField.

(** C8, as the code has it.  When the cleaned signal has no [botSettings]
    and its [bot] contains an underscore, the strategy is the part of [bot]
    before its first underscore and the settings are all that follows it. *)
Theorem bot_split_at_first_underscore
    (signal_data : gmap string string) (bot : string) :
  Signal._clean_signal_data signal_data !! "bot" = Some bot ->
  Signal._clean_signal_data signal_data !! "botSettings" = None ->
  Signal.contains "_" bot = true ->
  exists strategy settings,
    Signal.bot_components (Signal._clean_signal_data signal_data) = (strategy, settings) /\
    bot = String.append strategy (String "_" settings) /\
    Signal.contains "_" strategy = false.
Proof.
  intros Hbot Hset Hin. unfold Signal.bot_components.
  rewrite Hbot, Hset. cbn [default andb from_option id]. rewrite Hin.
  destruct (split_once_contains "_" bot Hin) as (a & b & Hsplit & Hab & Ha).
  exists a, b. unfold Signal.split1. rewrite Hsplit. cbn. auto.
Qed.

(** Witness: a LONG signal whose bot field is [ema_cross_v2], without
    [botSettings]. *)
Lemma bot_split_at_first_underscore_witness :
  exists strategy settings,
    Signal.bot_components (Signal._clean_signal_data Signal.example_signal)
    = (strategy, settings) /\
    "ema_cross_v2"%string = String.append strategy (String "_" settings) /\
    Signal.contains "_" strategy = false.
Proof.
  apply (bot_split_at_first_underscore Signal.example_signal "ema_cross_v2");
    vm_compute; reflexivity.
Defined.

(** C8 as stated fails: [ema_cross_v2] is resolved as [ema] and [cross_v2],
    while the split at the last underscore is [ema_cross] and [v2]. *)
Lemma bot_split_counterexample :
  Signal.example_signal !! "botSettings" = None /\
  Signal.example_signal !! "bot" = Some "ema_cross_v2"%string /\
  Signal.split_at_last "_" "ema_cross_v2" = Some ("ema_cross", "v2")%string /\
  Signal.bot_components (Signal._clean_signal_data Signal.example_signal)
  = ("ema", "cross_v2")%string /\
  Some (Signal.bot_components (Signal._clean_signal_data Signal.example_signal))
  <> Signal.split_at_last "_" "ema_cross_v2".
Proof. repeat split; vm_compute; congruence. Qed.

(** ** C5: crashes while the open positions file is written *)

Section Crash.

Import Store.

Lemma run_app (ops1 ops2 : list fs_op) (fs : gmap string string) :
  run (ops1 ++ ops2) fs = run ops2 (run ops1 fs).
Proof. unfold run. apply fold_left_app. Qed.

(** Writing to another file leaves [path] alone. *)
Lemma run_writes_other (path other : string) (chunks : list string)
    (fs : gmap string string) :
  other <> path -> run (map (Write other) chunks) fs !! path = fs !! path.
Proof.
  intros Hne. revert fs. induction chunks as [|c chunks IH]; intros fs; [reflexivity|].
  cbn [map]. change (run (Write other c :: map (Write other) chunks) fs)
    with (run (map (Write other) chunks) (exec_op fs (Write other c))).
  rewrite IH. cbn. now rewrite lookup_insert_ne.
Qed.

Lemma append_assoc (a b c : string) :
  String.append (String.append a b) c = String.append a (String.append b c).
Proof.
  induction a as [|x a IH]; [reflexivity|].
  change (String x (String.append (String.append a b) c)
          = String x (String.append a (String.append b c))).
  now rewrite IH.
Qed.

Lemma append_empty_r (a : string) : String.append a EmptyString = a.
Proof.
  induction a as [|x a IH]; [reflexivity|].
  change (String x (String.append a EmptyString) = String x a).
  now rewrite IH.
Qed.

(** Writing the chunks appends their text. *)
Lemma run_writes_same (path : string) (chunks : list string)
    (fs : gmap string string) :
  run (map (Write path) chunks) fs !! path
  = match chunks with
    | [] => fs !! path
    | _ => Some (String.append (default EmptyString (fs !! path)) (text_of chunks))
    end.
Proof.
  revert fs. induction chunks as [|c chunks IH]; intros fs; [reflexivity|].
  cbn [map]. change (run (Write path c :: map (Write path) chunks) fs)
    with (run (map (Write path) chunks) (exec_op fs (Write path c))).
  rewrite IH. cbn [exec_op]. rewrite lookup_insert_eq. cbn [default from_option id].
  destruct chunks as [|c' chunks].
  - cbn [text_of fold_right]. now rewrite append_empty_r.
  - f_equal. apply append_assoc.
Qed.

(** The writer through a temporary file is crash safe (outside
    Windows): this is the pattern the specification describes. *)
Lemma tempfile_crash_safe (positions_file temp_file : string)
    (chunks : list string) (fs : gmap string string) :
  temp_file <> positions_file -> fs !! temp_file = None -> chunks <> [] ->
  crash_safe positions_file (text_of chunks)
    (_save_positions_with_tempfile false positions_file temp_file chunks) fs.
Proof.
  intros Hne Hfree Hchunks n. unfold crash_after, _save_positions_with_tempfile.
  cbn [app]. rewrite take_app.
  destruct (decide (n <= length (map (Write temp_file) chunks))%nat) as [Hle|Hgt].
  - left. replace (n - length (map (Write temp_file) chunks))%nat with O by lia.
    cbn [take]. rewrite app_nil_r, firstn_map.
    now apply run_writes_other.
  - right. rewrite take_ge by lia.
    destruct (n - length (map (Write temp_file) chunks))%nat as [|k] eqn:E; [lia|].
    cbn [take]. rewrite take_nil, run_app. cbn [run fold_left exec_op].
    rewrite run_writes_same, Hfree. destruct chunks; [contradiction|].
    cbn [default from_option]. rewrite lookup_insert_eq. reflexivity.
Qed.

End Crash.

(** C5 (the code departs from it).  When the write lock is obtained,
    [_save_positions_transactional] empties the positions file and writes
    it in place: a crash right after the truncation leaves an empty file,
    which is neither the old content nor the new one. *)
Theorem in_place_write_not_crash_safe
    (create_backup windows : bool) (positions_file today_backup temp_file : string)
    (fs : gmap string string) (old_content : string) (chunks : list string) :
  fs !! positions_file = Some old_content ->
  old_content <> EmptyString -> Store.text_of chunks <> EmptyString ->
  today_backup <> positions_file ->
  ~ Store.crash_safe positions_file (Store.text_of chunks)
      (Store._save_positions_transactional create_backup true windows
         positions_file today_backup temp_file fs chunks) fs.
Proof.
  intros Hold Hne Hnew Hbackup Hsafe.
  unfold Store._save_positions_transactional in Hsafe. rewrite Hold in Hsafe.
  destruct create_backup.
  - specialize (Hsafe 2%nat). unfold Store.crash_after, Store.run in Hsafe.
    cbn [app firstn fold_left Store.exec_op] in Hsafe.
    change (take 0 (map (Store.Write positions_file) chunks)) with (@nil Store.fs_op) in Hsafe.
    cbn [fold_left] in Hsafe.
    rewrite lookup_insert_eq, Hold in Hsafe.
    destruct Hsafe as [H|H]; injection H as H; congruence.
  - specialize (Hsafe 1%nat). unfold Store.crash_after, Store.run in Hsafe.
    cbn [app firstn fold_left Store.exec_op] in Hsafe.
    change (take 0 (map (Store.Write positions_file) chunks)) with (@nil Store.fs_op) in Hsafe.
    cbn [fold_left] in Hsafe.
    rewrite lookup_insert_eq, Hold in Hsafe.
    destruct Hsafe as [H|H]; injection H as H; congruence.
Qed.

(** Witness: the empty store [{}] is rewritten as [{ }]. *)
Lemma in_place_write_not_crash_safe_witness :
  ~ Store.crash_safe "data/positions.json" (Store.text_of ["{"; " "; "}"]%string)
      (Store._save_positions_transactional true true false
         "data/positions.json" "data/backup/positions_daily.json"
         "data/tmp0001.json" Store.example_fs ["{"; " "; "}"]%string)
      Store.example_fs.
Proof.
  apply (in_place_write_not_crash_safe true false "data/positions.json"
           "data/backup/positions_daily.json" "data/tmp0001.json"
           Store.example_fs "{}" ["{"; " "; "}"]%string);
    [reflexivity | discriminate | discriminate | discriminate].
Defined.

(** ** C3 and C4: PositionService.close_position *)

Section ClosePosition.

Context {RT : PyRuntime} {R : Type} {repo : PositionRepository R}.
Variable exchange : ExchangeAdapter.
Variable average_fill_price : Order -> result (option Decimal).

Lemma truncate_to_step_size_returns (a : Asset) (q : Decimal) :
  exists q', truncate_to_step_size a q = Ok q'.
Proof.
  unfold truncate_to_step_size. destruct (step_size a) as [step|]; [|eauto].
  destruct (Dec.gtb step Dec.zero) eqn:Hpos; [|eauto].
  unfold Dec.floordiv. destruct (Z.eqb_spec (coefficient step) 0) as [E|_]; [|eauto].
  exfalso. unfold Dec.gtb, Dec.compare, Dec.scale in Hpos. rewrite E in Hpos.
  simpl in Hpos. discriminate.
Qed.

(** The handler of a failed order never returns: it raises the error of
    the price request, or the [TypeError] of its call of [close]. *)
Lemma close_failed_raises (position : Position) (now : datetime)
    (reason : string) (e : exn) (w : World R) :
  exists e', close_failed exchange position now reason e w = (Err e', w) /\
             (exn_kind e' = TypeError \/
              get_current_price exchange (asset position) = Err e').
Proof.
  unfold close_failed.
  destruct (get_current_price exchange (asset position)) as [price|e'].
  - eexists. split; [reflexivity|]. left. reflexivity.
  - exists e'. auto.
Qed.

End ClosePosition.

(** C3 (the code departs from it).  For an open position with something
    left, whose quantity is not below the minimum of the asset, when the
    exchange refuses the order, [close_position] does not return: its
    handler raises (the [TypeError] of [close(..., margin_details=...)], or
    the error of the price request), the repository is not updated and the
    position object is still OPEN. *)
Theorem close_position_raises_when_order_fails
    {RT : PyRuntime} {R : Type} {repo : PositionRepository R}
    (exchange : ExchangeAdapter)
    (average_fill_price : Order -> result (option Decimal))
    (position_id reason : string) (now : datetime) (w : World R)
    (position : Position) (a : Asset) (e0 : exn) :
  get_by_id position_id (reload_positions (repository_state w)) = Some position ->
  status position = OPEN ->
  Dec.leb (remaining_quantity position) Dec.zero = false ->
  get_asset_info exchange (symbol (asset position)) = Ok a ->
  (forall q mn, truncate_to_step_size a (remaining_quantity position) = Ok q ->
                min_quantity a = Some mn -> Dec.ltb q mn = false) ->
  (forall q, truncate_to_step_size a (remaining_quantity position) = Ok q ->
             place_market_order exchange a (reverse (direction position)) q
               (margin_parameters position).1 (margin_parameters position).2
             = Err e0) ->
  exists e w',
    close_position exchange average_fill_price position_id reason now w = (Err e, w') /\
    (exn_kind e = TypeError \/ get_current_price exchange a = Err e) /\
    repository_state w' = reload_positions (repository_state w) /\
    position_object w' = Some (set_asset a position) /\
    status (set_asset a position) = OPEN.
Proof.
  intros Hget Hopen Hrem Hasset Hmin Hdown.
  unfold close_position. cbn [repository_state]. rewrite Hget.
  unfold is_closed. rewrite Hopen, Hrem.
  unfold adjust_quantity. rewrite Hasset.
  destruct (truncate_to_step_size_returns a (remaining_quantity (set_asset a position)))
    as [q Hq].
  rewrite Hq.
  replace (match min_quantity a with
           | Some mn => Dec.ltb q mn
           | None => false
           end) with false
    by (destruct (min_quantity a) as [mn|];
        [symmetry; exact (Hmin q mn Hq eq_refl) | reflexivity]).
  unfold place_close_order, send_order.
  change (margin_parameters (set_asset a position)) with (margin_parameters position).
  specialize (Hdown q Hq).
  destruct (margin_parameters position) as [is_isolated side_effect_type].
  cbn [asset direction set_asset fst snd] in Hdown |- *. rewrite Hdown.
  match goal with
  | |- context [close_failed ?ex ?p ?n ?r ?e ?w0] =>
      destruct (close_failed_raises ex p n r e w0) as (e' & He' & Hkind)
  end.
  exists e'. eexists. split; [exact He'|].
  split; [exact Hkind|]. cbn. auto.
Qed.

(** Witness: the example position, with an exchange that refuses orders. *)
Lemma close_position_raises_when_order_fails_witness :
  exists e w',
    @close_position example_runtime _ example_repository example_exchange_down
      (fun _ => Ok None) "p-1" "Closure requested" 9
      (mkWorld [example_position] [] None) = (Err e, w') /\
    (exn_kind e = TypeError \/
     get_current_price example_exchange_down example_asset = Err e) /\
    repository_state w' = [example_position] /\
    position_object w' = Some (set_asset example_asset example_position) /\
    status (set_asset example_asset example_position) = OPEN.
Proof.
  apply (@close_position_raises_when_order_fails example_runtime _ example_repository
           example_exchange_down (fun _ => Ok None) "p-1" "Closure requested" 9
           (mkWorld [example_position] [] None) example_position example_asset
           (Raise ExchangeError "Connection reset"));
    try reflexivity.
  intros q mn _ Hmin. discriminate Hmin.
Defined.

(** C4 (the code departs from it).  For an open position with nothing
    left, [close_position] raises [AttributeError] at [position.last_price]:
    no order is sent, but the position is not marked CLOSED, the repository
    is not updated and nothing is returned. *)
Theorem close_position_raises_when_nothing_remains
    {RT : PyRuntime} {R : Type} {repo : PositionRepository R}
    (exchange : ExchangeAdapter)
    (average_fill_price : Order -> result (option Decimal))
    (position_id reason : string) (now : datetime) (w : World R)
    (position : Position) :
  get_by_id position_id (reload_positions (repository_state w)) = Some position ->
  status position = OPEN ->
  Dec.leb (remaining_quantity position) Dec.zero = true ->
  close_position exchange average_fill_price position_id reason now w
  = (raise AttributeError "'Position' object has no attribute 'last_price'",
     mkWorld (reload_positions (repository_state w)) (placed_orders w)
             (Some position)).
Proof.
  intros Hget Hopen Hrem.
  unfold close_position. cbn [repository_state]. rewrite Hget.
  unfold is_closed. rewrite Hopen, Hrem. reflexivity.
Qed.

(** Witness: the example position with a remaining quantity of 0. *)
Lemma close_position_raises_when_nothing_remains_witness :
  @close_position example_runtime _ example_repository example_exchange_down
    (fun _ => Ok None) "p-1" "Closure requested" 9
    (mkWorld [example_position_drained] [] None)
  = (raise AttributeError "'Position' object has no attribute 'last_price'",
     mkWorld [example_position_drained] [] (Some example_position_drained)).
Proof.
  apply (@close_position_raises_when_nothing_remains example_runtime _
           example_repository example_exchange_down (fun _ => Ok None)
           "p-1" "Closure requested" 9
           (mkWorld [example_position_drained] [] None) example_position_drained);
    reflexivity.
Defined.

(** * Further properties of the embedded code *)

(** ** Position: status, levels and quantities along a run *)

Section PositionInvariants.

Context {RT : PyRuntime}.

Import Dec.
Local Open Scope Q_scope.

(** After [close], the position is CLOSED with exactly [Decimal('0')]
    left, or OPEN with something left. *)
Lemma close_outcome (p p' : Position) (now : datetime) (price q : Decimal)
    (reason : string) (ext : option string) :
  close p now price q reason ext = Ok p' ->
  status p = OPEN /\
  take_profit_max p' = take_profit_max p /\
  take_profits p' = take_profits p /\
  ((status p' = CLOSED /\ remaining_quantity p' = mkDecimal 0 0) \/
   (status p' = OPEN /\ leb (remaining_quantity p') zero = false)).
Proof.
  intros H. unfold close, is_closed in H.
  destruct (status p) eqn:Hst; [|discriminate]. split; [reflexivity|].
  cbn [remaining_quantity set_remaining_quantity set_close_data] in H.
  destruct (leb (sub (remaining_quantity p) _) zero) eqn:Hz; injection H as <-.
  - split; [reflexivity|]. split; [reflexivity|]. left. split; reflexivity.
  - split; [reflexivity|]. split; [reflexivity|]. right.
    split; [exact Hst | exact Hz].
Qed.

Lemma add_take_profit_outcome (p p' : Position) (tp : TakeProfit)
    (now now_close : datetime) (price q : Decimal) (level : Z) :
  add_take_profit p now now_close price q level = Ok (p', tp) ->
  status p = OPEN /\
  (level <= take_profit_max p)%Z /\
  existsb (fun t => tp_level t =? level)%Z (take_profits p) = false /\
  tp_level tp = level /\
  leb (tp_quantity tp) zero = false /\
  take_profit_max p' = take_profit_max p /\
  take_profits p' = take_profits p ++ [tp] /\
  ((status p' = CLOSED /\ remaining_quantity p' = mkDecimal 0 0) \/
   (status p' = OPEN /\ leb (remaining_quantity p') zero = false)).
Proof.
  intros H. unfold add_take_profit, is_closed in H.
  destruct (status p) eqn:Hst; [|discriminate]. split; [reflexivity|].
  destruct (Z.gtb_spec level (take_profit_max p)) as [|Hle]; [discriminate|].
  split; [lia|].
  destruct (existsb _ _) eqn:Hfresh; [discriminate|]. split; [reflexivity|].
  destruct (leb (py_min q (remaining_quantity p)) zero) eqn:Hadj; [discriminate|].
  set (p1 := set_remaining_quantity _ _) in H.
  destruct ((level =? take_profit_max p1)%Z || leb (remaining_quantity p1) zero)%bool
    eqn:Hauto.
  - destruct (close p1 now_close price (mkDecimal 0 0) "Manual close" None)
      as [p2|e] eqn:Hclose; [|discriminate].
    injection H as <- <-.
    apply close_outcome in Hclose. destruct Hclose as (_ & Hmax & Htps & Hout).
    split; [reflexivity|]. split; [exact Hadj|].
    split; [exact Hmax|]. split; [exact Htps|]. exact Hout.
  - injection H as <- <-.
    apply Bool.orb_false_iff in Hauto. destruct Hauto as [_ Hauto].
    split; [reflexivity|]. split; [exact Hadj|].
    split; [reflexivity|]. split; [reflexivity|]. right.
    split; [exact Hst | exact Hauto].
Qed.

Lemma operation_outcome (p p' : Position) (op : operation) :
  apply_operation p op = Ok p' ->
  status p = OPEN /\
  take_profit_max p' = take_profit_max p /\
  ((status p' = CLOSED /\ remaining_quantity p' = mkDecimal 0 0) \/
   (status p' = OPEN /\ leb (remaining_quantity p') zero = false)).
Proof.
  intros Hop.
  destruct op as [now now_close price q level | now price q reason ext];
    cbn [apply_operation] in Hop.
  - destruct (add_take_profit p now now_close price q level) as [[p1 tp]|e] eqn:Hadd;
      [|discriminate].
    cbn in Hop. injection Hop as <-.
    apply add_take_profit_outcome in Hadd. tauto.
  - apply close_outcome in Hop. tauto.
Qed.

Lemma closed_refuses (p : Position) (op : operation) :
  status p = CLOSED -> exists msg, apply_operation p op = raise ValueError msg.
Proof.
  intros Hst.
  destruct op as [now now_close price q level | now price q reason ext];
    cbn [apply_operation]; unfold add_take_profit, close, is_closed; rewrite Hst;
    eexists; reflexivity.
Qed.

Lemma levels_fresh (level : Z) (tps : list TakeProfit) :
  existsb (fun t => tp_level t =? level)%Z tps = false ->
  ~ In level (map tp_level tps).
Proof.
  intros H Hin. apply in_map_iff in Hin. destruct Hin as (t & <- & Hin).
  assert (existsb (fun t0 => tp_level t0 =? tp_level t)%Z tps = true) as E.
  { apply existsb_exists. exists t. split; [exact Hin | apply Z.eqb_refl]. }
  congruence.
Qed.

End PositionInvariants.

(** X1.  After every successful [add_take_profit] or [close], the position
    is CLOSED exactly when its remaining quantity is not positive, and a
    CLOSED position has exactly [Decimal('0')] left. *)
Theorem closed_exactly_when_nothing_remains
    {RT : PyRuntime} (p p' : Position) (op : operation) :
  apply_operation p op = Ok p' ->
  (status p' = CLOSED <-> Dec.leb (remaining_quantity p') Dec.zero = true) /\
  (status p' = CLOSED -> remaining_quantity p' = mkDecimal 0 0).
Proof.
  intros Hop. apply operation_outcome in Hop.
  destruct Hop as (_ & _ & [[Hst Hrem]|[Hst Hrem]]).
  - rewrite Hst, Hrem. repeat split; reflexivity.
  - rewrite Hst, Hrem. repeat split; discriminate.
Qed.

(** Witness: the ten units of the example position are closed at once. *)
Lemma closed_exactly_when_nothing_remains_witness :
  exists p',
    apply_operation example_position
      (@Close example_runtime 1 (mkDecimal 100 0) (mkDecimal 10 0) "Manual close" None)
    = Ok p' /\
    (status p' = CLOSED <-> Dec.leb (remaining_quantity p') Dec.zero = true) /\
    (status p' = CLOSED -> remaining_quantity p' = mkDecimal 0 0).
Proof.
  eexists. split; [reflexivity|].
  apply (closed_exactly_when_nothing_remains example_position _
           (@Close example_runtime 1 (mkDecimal 100 0) (mkDecimal 10 0)
              "Manual close" None)).
  reflexivity.
Defined.

(** X2.  A CLOSED position is final: [add_take_profit] and [close] raise
    [ValueError] on it, so no run of operations changes it. *)
Theorem closed_position_is_final
    {RT : PyRuntime} (p : Position) :
  status p = CLOSED ->
  (forall op, exists msg, apply_operation p op = raise ValueError msg) /\
  (forall p', reachable p p' -> p' = p).
Proof.
  intros Hst. split.
  - intros op. now apply closed_refuses.
  - intros p' Hreach. induction Hreach as [|q q' op _ IH Hop]; [reflexivity|].
    subst q. destruct (closed_refuses p op Hst) as (msg & E).
    rewrite E in Hop. discriminate.
Qed.

Lemma closed_position_is_final_witness :
  (forall op, exists msg,
      apply_operation example_position_closed op = raise ValueError msg) /\
  (forall p', reachable example_position_closed p' -> p' = example_position_closed).
Proof. apply (closed_position_is_final example_position_closed). reflexivity. Defined.

(** X3.  Along every run of successful operations from a freshly opened
    position, the levels of the recorded take profits are pairwise
    distinct, none exceeds [take_profit_max], and every recorded quantity
    is positive. *)
Theorem take_profit_levels_distinct
    {RT : PyRuntime} (p0 p : Position) :
  freshly_opened p0 -> reachable p0 p ->
  NoDup (map tp_level (take_profits p)) /\
  Forall (fun tp => tp_level tp <= take_profit_max p0 /\
                    Dec.ltb Dec.zero (tp_quantity tp) = true) (take_profits p).
Proof.
  intros Hfresh Hreach.
  enough (take_profit_max p = take_profit_max p0 /\
          NoDup (map tp_level (take_profits p)) /\
          Forall (fun tp => tp_level tp <= take_profit_max p0 /\
                            Dec.ltb Dec.zero (tp_quantity tp) = true) (take_profits p))
    by tauto.
  induction Hreach as [|q q' op _ IH Hop].
  - destruct Hfresh as (a & d & iq & ep & bs & tf & bset & tpm & ext & lev & mt & id & now & H).
    unfold new_position, Position_init in H. cbn in H. injection H as <-.
    cbn. repeat split; constructor.
  - destruct IH as (Hmax & Hnd & Hall).
    destruct op as [now now_close price qty level | now price qty reason ext];
      cbn [apply_operation] in Hop.
    + destruct (add_take_profit q now now_close price qty level) as [[p1 tp]|e] eqn:Hadd;
        [|discriminate].
      cbn in Hop. injection Hop as <-.
      apply add_take_profit_outcome in Hadd.
      destruct Hadd as (_ & Hle & Hfr & Hlv & Hqty & Hmax' & Htps & _).
      rewrite Htps, map_app. split; [congruence|]. split.
      * apply NoDup_app. split; [exact Hnd|]. split.
        -- intros x Hx Hk. cbn in Hk. apply list_elem_of_singleton in Hk.
           subst x. rewrite Hlv in Hx. apply list_elem_of_In in Hx.
           now apply (levels_fresh level (take_profits q)).
        -- cbn. apply NoDup_singleton.
      * apply Forall_app. split; [exact Hall|]. constructor; [|constructor].
        split; [lia|].
        unfold Dec.leb in Hqty. unfold Dec.ltb.
        unfold Dec.compare in *. rewrite Z.min_comm.
        rewrite Z.compare_antisym.
        destruct (Dec.scale _ (tp_quantity tp) ?= Dec.scale _ Dec.zero)%Z;
          try discriminate; reflexivity.
    + apply close_outcome in Hop. destruct Hop as (_ & Hmax' & Htps & _).
      rewrite Htps. split; [congruence|]. split; assumption.
Qed.

Lemma take_profit_levels_distinct_witness :
  exists p,
    apply_operation example_position
      (@AddTakeProfit example_runtime 1 2 (mkDecimal 110 0) (mkDecimal 3 0) 1) = Ok p /\
    NoDup (map tp_level (take_profits p)) /\
    Forall (fun tp => tp_level tp <= take_profit_max example_position /\
                      Dec.ltb Dec.zero (tp_quantity tp) = true) (take_profits p).
Proof.
  eexists. split; [reflexivity|].
  apply (take_profit_levels_distinct example_position).
  - exact example_position_freshly_opened.
  - eapply reachable_step with (op := @AddTakeProfit example_runtime 1 2 (mkDecimal 110 0)
                                         (mkDecimal 3 0) 1);
      [constructor | reflexivity].
Defined.



(** ** Position: profit and loss *)

Section ProfitAndLoss.

Context {RT : PyRuntime} (laws : PyRuntimeLaws RT).

Import Dec.
Local Open Scope Q_scope.

Lemma value_mul (a b : Decimal) : value (mul a b) == value a * value b.
Proof.
  unfold value, mul. cbn [coefficient exponent].
  rewrite inject_Z_mult, Qpower_plus by apply ten_nonzero. ring.
Qed.

Lemma get_realized_pnl_unfold (p : Position) :
  get_realized_pnl p =
  ('(close_value, close_quantity) ← close_value_and_quantity p;
   let total_value := add (sum (map tp_value (take_profits p))) close_value in
   let total_quantity := add (sum (map tp_quantity (take_profits p))) close_quantity in
   match direction p with
   | LONG => Ok (sub total_value (mul (entry_price p) total_quantity))
   | SHORT => Ok (sub (mul (entry_price p) total_quantity) total_value)
   end).
Proof. reflexivity. Qed.

(** The realized profit on the rational values. *)
Lemma get_realized_pnl_value (p : Position) (cv cq : Decimal) :
  close_value_and_quantity p = Ok (cv, cq) ->
  exists r, get_realized_pnl p = Ok r /\
    value r == direction_sign (direction p) *
               (value (sum (map tp_value (take_profits p))) + value cv
                - value (entry_price p) *
                  (value (sum (map tp_quantity (take_profits p))) + value cq)).
Proof.
  intros H. rewrite get_realized_pnl_unfold, H. cbn.
  destruct (direction p); eexists; (split; [reflexivity|]);
    rewrite value_sub, value_mul, !value_add; unfold direction_sign; ring.
Qed.

Lemma get_realized_pnl_inv (p : Position) (r : Decimal) :
  get_realized_pnl p = Ok r ->
  exists cv cq, close_value_and_quantity p = Ok (cv, cq).
Proof.
  rewrite get_realized_pnl_unfold.
  destruct (close_value_and_quantity p) as [[cv cq]|e]; [eauto | discriminate].
Qed.

(** With nothing closed yet, what [close_data] contributes is worth 0. *)
Lemma nothing_closed_terms (p : Position) (cv cq : Decimal) :
  nothing_closed_yet p -> close_value_and_quantity p = Ok (cv, cq) ->
  value cv == 0 /\ value cq == 0.
Proof.
  intros (cq0 & Hcq0 & Hzero) H.
  apply eqb_value in Hzero. change (value zero) with 0 in Hzero.
  unfold close_quantity in Hcq0. unfold close_value_and_quantity in H.
  destruct (truthy (close_data p)).
  - destruct (as_dict (close_data p)) as [d|e]; [|discriminate]. cbn in H, Hcq0.
    destruct (dict_item "price" d ≫= Decimal_of) as [pr|e]; [|discriminate]. cbn in H.
    rewrite Hcq0 in H. cbn in H. injection H as <- <-.
    rewrite value_mul, Hzero. split; [ring | reflexivity].
  - injection H as <- <-. split; reflexivity.
Qed.

(** The terms read from the data that [close] writes. *)
Lemma close_terms (p p' : Position) (now : datetime) (price q : Decimal)
    (reason : string) (ext : option string) :
  close p now price q reason ext = Ok p' ->
  let adjusted := py_min q (remaining_quantity p) in
  direction p' = direction p /\ entry_price p' = entry_price p /\
  take_profits p' = take_profits p /\
  close_value_and_quantity p' = Ok (mul price adjusted, adjusted).
Proof.
  intros H adjusted. unfold close, is_closed in H.
  destruct (status p); [|discriminate]. fold adjusted in H.
  cbn [remaining_quantity set_remaining_quantity set_close_data] in H.
  destruct (leb (sub (remaining_quantity p) adjusted) zero);
    injection H as <-;
    cbn [direction entry_price take_profits set_remaining_quantity set_status
         set_close_data];
    (split; [reflexivity|]); (split; [reflexivity|]); (split; [reflexivity|]);
    unfold close_value_and_quantity;
    cbn [close_data set_remaining_quantity set_status set_close_data];
    (destruct ext as [e|]; [destruct (String.eqb e "")|]);
    cbn; now rewrite !(decimal_parse_str RT laws).
Qed.

(** The same after [add_take_profit]: the data are untouched, or written
    by the automatic [close(price, 0)]. *)
Lemma add_take_profit_terms (p p' : Position) (tp : TakeProfit)
    (now now_close : datetime) (price q : Decimal) (level : Z) :
  add_take_profit p now now_close price q level = Ok (p', tp) ->
  direction p' = direction p /\ entry_price p' = entry_price p /\
  take_profits p' = take_profits p ++ [tp] /\ tp_price tp = price /\
  (close_value_and_quantity p' = close_value_and_quantity p \/
   exists cv cq, close_value_and_quantity p' = Ok (cv, cq) /\
                 value cv == 0 /\ value cq == 0).
Proof.
  intros H. unfold add_take_profit, is_closed in H.
  destruct (status p) eqn:Hst; [|discriminate].
  destruct (level >? take_profit_max p)%Z; [discriminate|].
  destruct (existsb _ _); [discriminate|].
  destruct (leb (py_min q (remaining_quantity p)) zero) eqn:Hadj; [discriminate|].
  destruct (value_py_min q (remaining_quantity p)) as (_ & Hle & _).
  set (p1 := set_remaining_quantity _ _) in H.
  assert (Hrem1 : 0 <= value (remaining_quantity p1)).
  { subst p1. cbn. rewrite value_sub. lra. }
  destruct ((level =? take_profit_max p1)%Z || leb (remaining_quantity p1) zero)%bool.
  - destruct (close p1 now_close price (mkDecimal 0 0) "Manual close" None)
      as [p2|e] eqn:Hclose; [|discriminate].
    injection H as <- <-.
    apply close_terms in Hclose. destruct Hclose as (Hd & He & Htps & Hcvq).
    assert (Hmin0 : py_min (mkDecimal 0 0) (remaining_quantity p1) = mkDecimal 0 0).
    { unfold py_min.
      destruct (ltb (remaining_quantity p1) (mkDecimal 0 0)) eqn:E; [|reflexivity].
      apply ltb_value in E. change (value (mkDecimal 0 0)) with 0 in E. lra. }
    rewrite Hmin0 in Hcvq.
    split; [exact Hd|]. split; [exact He|]. split; [exact Htps|].
    split; [reflexivity|]. right. eexists. eexists. split; [exact Hcvq|].
    rewrite value_mul. change (value (mkDecimal 0 0)) with 0. split; [ring | reflexivity].
  - injection H as <- <-. repeat split. left. reflexivity.
Qed.

End ProfitAndLoss.

(** X5.  On an open position with something left, the unrealized profit
    is positive exactly when the price moved the right way: above the entry
    price for a LONG, below it for a SHORT. *)
Theorem unrealized_pnl_sign
    {RT : PyRuntime} (p : Position) (current_price : Decimal) :
  status p = OPEN ->
  Dec.ltb Dec.zero (remaining_quantity p) = true ->
  (Dec.ltb Dec.zero (get_unrealized_pnl p current_price) = true <->
   match direction p with
   | LONG => Dec.ltb (entry_price p) current_price = true
   | SHORT => Dec.ltb current_price (entry_price p) = true
   end).
Proof.
  intros Hst Hrem. unfold get_unrealized_pnl, is_closed. rewrite Hst.
  apply ltb_value in Hrem. change (Dec.value Dec.zero) with 0%Q in Hrem.
  assert (Hle : Dec.leb (remaining_quantity p) Dec.zero = false).
  { apply leb_false_value. exact Hrem. }
  rewrite Hle. cbn [orb].
  destruct (direction p); rewrite !ltb_value, value_mul, value_sub;
    change (Dec.value Dec.zero) with 0%Q;
    set (c := Dec.value current_price); set (e := Dec.value (entry_price p));
    set (r := Dec.value (remaining_quantity p)) in *; clearbody c e r;
    split; intros H; nra.
Qed.

Lemma unrealized_pnl_sign_witness :
  Dec.ltb Dec.zero (get_unrealized_pnl example_position (mkDecimal 105 0)) = true <->
  Dec.ltb (entry_price example_position) (mkDecimal 105 0) = true.
Proof.
  apply (@unrealized_pnl_sign example_runtime example_position (mkDecimal 105 0));
    reflexivity.
Defined.





(** ** Asset.ensure_valid_quantity: limits *)

Section QuantityLimits.

Import Dec.

Lemma exponents_above_le (m m' : Z) (a : Asset) :
  m' <= m -> exponents_above m a -> exponents_above m' a.
Proof. unfold exponents_above. lia. Qed.

Ltac aligned_cases :=
  unfold ensure_valid_aligned, clamp_aligned;
  repeat match goal with
    | |- context [?x >? ?y] => destruct (Z.gtb_spec x y)
    | |- context [?x <? ?y] => destruct (Z.ltb_spec x y)
    | |- context [match ?o with Some _ => _ | None => _ end] => destruct o
    end.

Lemma clamp_aligned_mono (mn mx : option Z) (q q' : Z) :
  q <= q' -> clamp_aligned mn mx q <= clamp_aligned mn mx q'.
Proof. intros H. destruct mn, mx; aligned_cases; lia. Qed.

Lemma clamp_aligned_request (mn mx : option Z) (q : Z) :
  (forall m, mn = Some m -> m <= q) -> clamp_aligned mn mx q <= q.
Proof.
  intros H. destruct mn as [m|]; [specialize (H m eq_refl)|];
    destruct mx; aligned_cases; lia.
Qed.

(** With a maximum that is not negative, the result is at most it. *)
Lemma ensure_valid_aligned_upper (mn : option Z) (M : Z) (st : option Z) (q : Z) :
  0 <= M -> ensure_valid_aligned mn (Some M) st q <= M.
Proof.
  intros HM. unfold ensure_valid_aligned.
  pose proof (clamp_aligned_upper mn M q) as Hc.
  set (c := clamp_aligned mn (Some M) q) in *. clearbody c.
  destruct st as [s|]; [|exact Hc].
  destruct (Z.gtb_spec s 0) as [Hs|]; [|exact Hc].
  destruct (trunc_step_bounds s c ltac:(lia)) as [Hpos Hneg].
  assert (trunc_step s c <= M) by (destruct (Z.le_ge_cases 0 c); lia).
  destruct mn as [m|]; [|assumption].
  destruct (trunc_step s c <? m); lia.
Qed.

(** A request that is not negative and not below the minimum is never
    exceeded. *)
Lemma ensure_valid_aligned_request (mn mx st : option Z) (q : Z) :
  0 <= q -> (forall m, mn = Some m -> m <= q) ->
  ensure_valid_aligned mn mx st q <= q.
Proof.
  intros Hq Hm. unfold ensure_valid_aligned.
  pose proof (clamp_aligned_request mn mx q Hm) as Hc.
  set (c := clamp_aligned mn mx q) in *. clearbody c.
  destruct st as [s|]; [|exact Hc].
  destruct (Z.gtb_spec s 0) as [Hs|]; [|exact Hc].
  destruct (trunc_step_bounds s c ltac:(lia)) as [Hpos Hneg].
  assert (trunc_step s c <= q) by (destruct (Z.le_ge_cases 0 c); lia).
  destruct mn as [m|]; [|assumption].
  destruct (trunc_step s c <? m); lia.
Qed.

(** With a minimum that is not negative, a larger request is never
    answered by less. *)
Lemma ensure_valid_aligned_mono (mn mx st : option Z) (q q' : Z) :
  (forall m, mn = Some m -> 0 <= m) -> q <= q' ->
  ensure_valid_aligned mn mx st q <= ensure_valid_aligned mn mx st q'.
Proof.
  intros Hm Hq. unfold ensure_valid_aligned.
  pose proof (clamp_aligned_mono mn mx q q' Hq) as Hc.
  set (c := clamp_aligned mn mx q) in *. set (c' := clamp_aligned mn mx q') in *.
  clearbody c c'.
  destruct st as [s|]; [|exact Hc].
  destruct (Z.gtb_spec s 0) as [Hs|]; [|exact Hc].
  pose proof (trunc_step_mono s c c' ltac:(lia) Hc) as Ht.
  destruct mn as [m|]; [|assumption]. specialize (Hm m eq_refl).
  destruct (Z.ltb_spec (trunc_step s c) m), (Z.ltb_spec (trunc_step s c') m); lia.
Qed.

Lemma scale_sub (m : Z) (a b : Decimal) :
  m <= exponent a -> m <= exponent b ->
  scale m (sub a b) = scale m a - scale m b.
Proof.
  intros Ha Hb. unfold sub.
  set (m0 := Z.min (exponent a) (exponent b)).
  rewrite (scale_shift m m0 a), (scale_shift m m0 b) by lia.
  unfold scale at 1. cbn [coefficient exponent]. ring.
Qed.

Lemma trunc_step_loss (s x : Z) : 0 < s -> 0 <= x -> x - trunc_step s x < s.
Proof.
  intros Hs Hx. unfold trunc_step.
  pose proof (Z.quot_rem' x s) as E.
  pose proof (Z.rem_bound_pos x s Hx Hs). lia.
Qed.

End QuantityLimits.








(** ** Writing the open positions file: the other paths *)

Section Writers.

Import Store.

Lemma exec_op_other (op : fs_op) (path : string) (fs : gmap string string) :
  ~ In path (touched op) -> exec_op fs op !! path = fs !! path.
Proof.
  intros H. destruct op as [p|p c|p c|p|src dst]; cbn in H; cbn [exec_op].
  - rewrite lookup_insert_ne; [reflexivity | intuition].
  - rewrite lookup_insert_ne; [reflexivity | intuition].
  - rewrite lookup_insert_ne; [reflexivity | intuition].
  - rewrite lookup_delete_ne; [reflexivity | intuition].
  - destruct (fs !! src); [|reflexivity].
    rewrite lookup_insert_ne, lookup_delete_ne; [reflexivity | intuition | intuition].
Qed.

Lemma run_other (ops : list fs_op) (path : string) (fs : gmap string string) :
  Forall (fun op => ~ In path (touched op)) ops -> run ops fs !! path = fs !! path.
Proof.
  intros H. revert fs. induction H as [|op ops Hop _ IH]; intros fs; [reflexivity|].
  change (run (op :: ops) fs) with (run ops (exec_op fs op)).
  rewrite IH. now apply exec_op_other.
Qed.

Lemma run_cons (op : fs_op) (ops : list fs_op) (fs : gmap string string) :
  run (op :: ops) fs = run ops (exec_op fs op).
Proof. reflexivity. Qed.

Lemma crash_after_cons (n : nat) (op : fs_op) (ops : list fs_op)
    (fs : gmap string string) :
  crash_after (S n) (op :: ops) fs = crash_after n ops (exec_op fs op).
Proof. reflexivity. Qed.

(** The state the writer through a temporary file leaves. *)
Lemma tempfile_final (windows : bool) (positions_file temp_file : string)
    (chunks : list string) (fs : gmap string string) :
  temp_file <> positions_file -> fs !! temp_file = None -> chunks <> [] ->
  let fs' := run (_save_positions_with_tempfile windows positions_file temp_file chunks) fs in
  fs' !! positions_file = Some (text_of chunks) /\ fs' !! temp_file = None /\
  forall path, path <> positions_file -> path <> temp_file -> fs' !! path = fs !! path.
Proof.
  intros Hne Hfree Hchunks. unfold _save_positions_with_tempfile.
  rewrite !run_app.
  set (fs1 := run (map (Write temp_file) chunks) fs).
  assert (H1 : fs1 !! temp_file = Some (text_of chunks)).
  { subst fs1. rewrite run_writes_same, Hfree. destruct chunks; [contradiction|].
    reflexivity. }
  assert (H1o : forall path, path <> temp_file -> fs1 !! path = fs !! path).
  { intros path Hp. subst fs1. now apply run_writes_other. }
  clearbody fs1.
  set (fs2 := run (if windows then [Remove positions_file] else []) fs1).
  assert (H2 : fs2 !! temp_file = Some (text_of chunks)).
  { subst fs2. destruct windows; [|exact H1]. cbn. now rewrite lookup_delete_ne. }
  assert (H2o : forall path, path <> positions_file -> path <> temp_file ->
                             fs2 !! path = fs !! path).
  { intros path Hp Ht. subst fs2. rewrite <- (H1o path Ht).
    destruct windows; [|reflexivity]. cbn. now rewrite lookup_delete_ne. }
  clearbody fs2. cbn [run fold_left exec_op]. rewrite H2.
  split; [apply lookup_insert_eq|]. split.
  - rewrite lookup_insert_ne by congruence. apply lookup_delete_eq.
  - intros path Hp Ht. rewrite lookup_insert_ne, lookup_delete_ne by congruence.
    now apply H2o.
Qed.

Lemma length_append (a b : string) :
  String.length (String.append a b) = (String.length a + String.length b)%nat.
Proof.
  induction a as [|x a IH]; [reflexivity|].
  change (S (String.length (String.append a b)) = S (String.length a + String.length b)).
  now rewrite IH.
Qed.

Lemma length_drop_chars (n : nat) (s : string) :
  String.length (drop_chars n s) = (String.length s - n)%nat.
Proof.
  revert s. induction n as [|n IH]; intros s.
  - cbn. lia.
  - destruct s as [|c s]; [reflexivity|]. cbn. apply IH.
Qed.

End Writers.

(** X12.  When the write lock is not obtained (outside Windows), saving
    the positions goes through a temporary file and [os.replace]: whatever
    the moment of a crash, the positions file holds its old content or the
    complete new one. *)
Theorem fallback_write_crash_safe
    (create_backup : bool) (positions_file today_backup temp_file : string)
    (fs : gmap string string) (chunks : list string) :
  temp_file <> positions_file -> today_backup <> positions_file ->
  today_backup <> temp_file -> fs !! temp_file = None -> chunks <> [] ->
  Store.crash_safe positions_file (Store.text_of chunks)
    (Store._save_positions_transactional create_backup false false
       positions_file today_backup temp_file fs chunks) fs.
Proof.
  intros Hne Hbp Hbt Hfree Hchunks. unfold Store._save_positions_transactional.
  destruct create_backup; [destruct (fs !! positions_file) as [content|] eqn:Hold|];
    cbn [app]; try (now apply tempfile_crash_safe).
  intros [|n]; [left; reflexivity|].
  rewrite crash_after_cons.
  set (fs1 := Store.exec_op fs (Store.WriteAtStart today_backup content)).
  assert (H1 : fs1 !! positions_file = fs !! positions_file).
  { subst fs1. apply exec_op_other. cbn. intuition. }
  assert (H1t : fs1 !! temp_file = None).
  { subst fs1. rewrite exec_op_other; [exact Hfree | cbn; intuition]. }
  rewrite <- H1. now apply tempfile_crash_safe.
Qed.

Lemma fallback_write_crash_safe_witness :
  Store.crash_safe "data/positions.json" (Store.text_of ["{"; " "; "}"]%string)
    (Store._save_positions_transactional true false false
       "data/positions.json" "data/backup/positions_daily.json"
       "data/tmp0001.json" Store.example_fs ["{"; " "; "}"]%string)
    Store.example_fs.
Proof.
  apply fallback_write_crash_safe;
    [discriminate | discriminate | discriminate | reflexivity | discriminate].
Defined.

(** X13.  On Windows the writer through a temporary file removes the
    positions file before replacing it: a crash between the two leaves no
    positions file at all, neither the old content nor the new one. *)
Theorem tempfile_write_on_windows_not_crash_safe
    (positions_file temp_file : string) (fs : gmap string string)
    (old_content : string) (chunks : list string) :
  fs !! positions_file = Some old_content -> temp_file <> positions_file ->
  ~ Store.crash_safe positions_file (Store.text_of chunks)
      (Store._save_positions_with_tempfile true positions_file temp_file chunks) fs.
Proof.
  intros Hold Hne Hsafe.
  specialize (Hsafe (S (length (map (Store.Write temp_file) chunks)))).
  unfold Store.crash_after, Store._save_positions_with_tempfile in Hsafe.
  rewrite take_app in Hsafe.
  rewrite take_ge in Hsafe by lia.
  replace (S (length (map (Store.Write temp_file) chunks))
           - length (map (Store.Write temp_file) chunks))%nat with 1%nat in Hsafe by lia.
  cbn [app take firstn] in Hsafe. rewrite run_app in Hsafe.
  cbn [Store.run fold_left Store.exec_op] in Hsafe.
  rewrite lookup_delete_eq, Hold in Hsafe.
  destruct Hsafe as [H|H]; discriminate.
Qed.

Lemma tempfile_write_on_windows_not_crash_safe_witness :
  ~ Store.crash_safe "data/positions.json" (Store.text_of ["{"; " "; "}"]%string)
      (Store._save_positions_with_tempfile true "data/positions.json"
         "data/tmp0001.json" ["{"; " "; "}"]%string)
      Store.example_fs.
Proof.
  apply (tempfile_write_on_windows_not_crash_safe "data/positions.json"
           "data/tmp0001.json" Store.example_fs "{}"); [reflexivity | discriminate].
Defined.

(** X14.  A save that runs to its end leaves the new content in the
    positions file and no temporary file behind, whether the file was
    written in place or through the temporary file, with or without the
    daily backup. *)
Theorem save_leaves_new_content
    (create_backup lock_acquired windows : bool)
    (positions_file today_backup temp_file : string)
    (fs : gmap string string) (chunks : list string) :
  temp_file <> positions_file -> today_backup <> positions_file ->
  today_backup <> temp_file -> fs !! temp_file = None -> chunks <> [] ->
  let fs' := Store.run (Store._save_positions_transactional create_backup
                          lock_acquired windows positions_file today_backup
                          temp_file fs chunks) fs in
  fs' !! positions_file = Some (Store.text_of chunks) /\ fs' !! temp_file = None.
Proof.
  intros Hne Hbp Hbt Hfree Hchunks. unfold Store._save_positions_transactional.
  rewrite run_app.
  set (fs1 := Store.run _ fs).
  assert (H1t : fs1 !! temp_file = None).
  { subst fs1. rewrite run_other; [exact Hfree|].
    destruct create_backup; [destruct (fs !! positions_file)|];
      repeat constructor. cbn. intuition. }
  clearbody fs1.
  destruct lock_acquired.
  - rewrite run_cons. split.
    + rewrite run_writes_same. cbn [Store.exec_op]. rewrite lookup_insert_eq.
      destruct chunks; [contradiction|]. reflexivity.
    + rewrite run_writes_other by congruence. cbn [Store.exec_op].
      now rewrite lookup_insert_ne by congruence.
  - destruct (tempfile_final windows positions_file temp_file chunks fs1 Hne H1t Hchunks)
      as (Hp & Ht & _).
    split; assumption.
Qed.

Lemma save_leaves_new_content_witness :
  let fs' := Store.run (Store._save_positions_transactional true true false
                          "data/positions.json" "data/backup/positions_daily.json"
                          "data/tmp0001.json" Store.example_fs
                          ["{"; " "; "}"]%string) Store.example_fs in
  fs' !! "data/positions.json" = Some (Store.text_of ["{"; " "; "}"]%string) /\
  fs' !! "data/tmp0001.json" = None.
Proof.
  apply save_leaves_new_content;
    [discriminate | discriminate | discriminate | reflexivity | discriminate].
Defined.

(** X15.  The daily backup is written over the previous backup without
    truncating it: after a save, the backup holds the content of the
    positions file followed by what the previous backup had beyond that
    length, so it differs from the positions file whenever the previous
    backup was longer. *)
Theorem daily_backup_keeps_old_tail
    (lock_acquired windows : bool)
    (positions_file today_backup temp_file : string)
    (fs : gmap string string) (content old_backup : string) (chunks : list string) :
  fs !! positions_file = Some content -> fs !! today_backup = Some old_backup ->
  today_backup <> positions_file -> today_backup <> temp_file ->
  let fs' := Store.run (Store._save_positions_transactional true
                          lock_acquired windows positions_file today_backup
                          temp_file fs chunks) fs in
  fs' !! today_backup
  = Some (String.append content
            (Store.drop_chars (String.length content) old_backup)) /\
  ((String.length content < String.length old_backup)%nat ->
   fs' !! today_backup <> Some content).
Proof.
  intros Hold Hbackup Hbp Hbt. unfold Store._save_positions_transactional.
  rewrite Hold. cbn [app]. rewrite run_cons.
  set (fs1 := Store.exec_op fs (Store.WriteAtStart today_backup content)).
  assert (H1 : fs1 !! today_backup
               = Some (String.append content
                         (Store.drop_chars (String.length content) old_backup))).
  { subst fs1. cbn [Store.exec_op]. rewrite lookup_insert_eq, Hbackup. reflexivity. }
  clearbody fs1. cbn zeta.
  assert (Hfinal : Store.run
                     (if lock_acquired
                      then Store.Truncate positions_file
                           :: map (Store.Write positions_file) chunks
                      else Store._save_positions_with_tempfile windows positions_file
                             temp_file chunks) fs1 !! today_backup
                   = fs1 !! today_backup).
  { apply run_other. destruct lock_acquired.
    - constructor; [cbn; intuition|].
      apply Forall_forall. intros op Hop. apply list_elem_of_In, in_map_iff in Hop.
      destruct Hop as (c & <- & _). cbn. intuition.
    - unfold Store._save_positions_with_tempfile. apply Forall_app. split.
      + apply Forall_forall. intros op Hop. apply list_elem_of_In, in_map_iff in Hop.
        destruct Hop as (c & <- & _). cbn. intuition.
      + destruct windows; repeat constructor; cbn; intuition. }
  rewrite Hfinal, H1. split; [reflexivity|].
  intros Hlen E. injection E as E.
  apply (f_equal String.length) in E.
  rewrite length_append, length_drop_chars in E. lia.
Qed.

Lemma daily_backup_keeps_old_tail_witness :
  let fs' := Store.run (Store._save_positions_transactional true true false
                          "data/positions.json" "data/backup/positions_daily.json"
                          "data/tmp0001.json" example_fs_with_backup
                          ["{"; " "; "}"]%string) example_fs_with_backup in
  fs' !! "data/backup/positions_daily.json"
  = Some (String.append "{}"
            (Store.drop_chars (String.length "{}") "{ 'k': [] }")) /\
  ((String.length "{}" < String.length "{ 'k': [] }")%nat ->
   fs' !! "data/backup/positions_daily.json" <> Some "{}"%string).
Proof.
  apply (daily_backup_keeps_old_tail true false "data/positions.json"
           "data/backup/positions_daily.json" "data/tmp0001.json"
           example_fs_with_backup "{}" "{ 'k': [] }");
    [reflexivity | reflexivity | discriminate | discriminate].
Defined.

(** ** The repository: keys and stored records *)

Section Keys.

Lemma py_split_nonempty (sep : ascii) (s : string) : py_split sep s <> [].
Proof.
  destruct s as [|c s]; cbn; [discriminate|].
  destruct (Ascii.eqb c sep); [discriminate|].
  destruct (py_split sep s); discriminate.
Qed.

(** [(a + sep + b).split(sep) == a.split(sep) + b.split(sep)] *)
Lemma py_split_app (sep : ascii) (a b : string) :
  py_split sep (String.append a (String sep b)) = py_split sep a ++ py_split sep b.
Proof.
  induction a as [|c a IH].
  - change (py_split sep (String sep b) = [EmptyString] ++ py_split sep b).
    cbn. now rewrite Ascii.eqb_refl.
  - change (String.append (String c a) (String sep b))
      with (String c (String.append a (String sep b))).
    cbn [py_split]. rewrite IH.
    destruct (Ascii.eqb c sep); [reflexivity|].
    pose proof (py_split_nonempty sep a) as Hne.
    destruct (py_split sep a) as [|piece pieces]; [contradiction|]. reflexivity.
Qed.

Lemma py_split_none (sep : ascii) (s : string) :
  Signal.contains sep s = false -> py_split sep s = [s].
Proof.
  induction s as [|c s IH]; cbn; [reflexivity|].
  intros H. apply Bool.orb_false_iff in H. destruct H as [Hc Hs].
  rewrite Hc, (IH Hs). reflexivity.
Qed.

Lemma py_split_pieces_short (sep : ascii) (s piece : string) :
  In piece (py_split sep s) -> (String.length piece <= String.length s)%nat.
Proof.
  revert piece. induction s as [|c s IH]; intros piece; cbn.
  - intros [<-|[]]. cbn. lia.
  - destruct (Ascii.eqb c sep).
    + intros [<-|H]; [cbn; lia|]. specialize (IH piece H). lia.
    + pose proof (py_split_nonempty sep s) as Hne.
      destruct (py_split sep s) as [|p0 pieces]; [contradiction|].
      intros [<-|H].
      * specialize (IH p0 (or_introl eq_refl)). cbn. lia.
      * specialize (IH piece (or_intror H)). lia.
Qed.

Lemma last_app_nonempty {A : Type} (l k : list A) :
  k <> [] -> last (l ++ k) = last k.
Proof.
  intros Hk. destruct k as [|x k] using rev_ind; [contradiction|].
  now rewrite app_assoc, !last_snoc.
Qed.

Lemma asset_symbol_app (a b : string) :
  FileRepository.asset_symbol (String.append a (String "_" b))
  = FileRepository.asset_symbol b.
Proof.
  unfold FileRepository.asset_symbol. rewrite py_split_app.
  now rewrite last_app_nonempty by apply py_split_nonempty.
Qed.

End Keys.

(** X16.  The asset symbol that the repository recovers from a storage
    key ([key.split('_')[-1]]) is the part of the position's symbol after
    its last underscore: it is the symbol itself exactly when the symbol
    contains no underscore. *)
Theorem asset_symbol_of_generated_key {RT : PyRuntime} (p : Position) :
  FileRepository.asset_symbol (FileRepository._generate_key p)
  = FileRepository.asset_symbol (symbol (asset p)) /\
  (FileRepository.asset_symbol (FileRepository._generate_key p) = symbol (asset p)
   <-> Signal.contains "_" (symbol (asset p)) = false).
Proof.
  assert (E : FileRepository.asset_symbol (FileRepository._generate_key p)
              = FileRepository.asset_symbol (symbol (asset p))).
  { unfold FileRepository._generate_key. now rewrite !asset_symbol_app. }
  split; [exact E|]. rewrite E. split.
  - intros Hsym. destruct (Signal.contains "_" (symbol (asset p))) eqn:Hc; [|reflexivity].
    exfalso. destruct (split_once_contains "_" _ Hc) as (a & b & _ & Hab & _).
    rewrite Hab in Hsym. rewrite asset_symbol_app in Hsym.
    unfold FileRepository.asset_symbol in Hsym.
    pose proof (py_split_nonempty "_" b) as Hne.
    destruct (last (py_split "_" b)) as [piece|] eqn:Hlast.
    + apply last_Some in Hlast. destruct Hlast as (l' & Hl').
      assert (Hin : In piece (py_split "_" b))
        by (rewrite Hl'; apply in_or_app; right; now left).
      apply py_split_pieces_short in Hin. cbn in Hsym.
      apply (f_equal String.length) in Hsym. rewrite length_append in Hsym.
      cbn in Hsym. lia.
    + apply last_None in Hlast. contradiction.
  - intros Hc. unfold FileRepository.asset_symbol. now rewrite py_split_none.
Qed.

Section StoredRecord.

Context {RT : PyRuntime} (laws : PyRuntimeLaws RT).

Lemma gtb_false_of_status (p : Position) :
  (status p = CLOSED -> Dec.gtb (remaining_quantity p) Dec.zero = false) ->
  is_closed p && Dec.gtb (remaining_quantity p) Dec.zero = false.
Proof.
  intros H. unfold is_closed. destruct (status p); [reflexivity|].
  now rewrite H.
Qed.

End StoredRecord.

(** Reading back what [to_dict] wrote, for a position without close data. *)
Lemma create_position_from_stored
    {RT : PyRuntime} (laws : PyRuntimeLaws RT) (now : datetime)
    (p : Position) (a : Asset) :
  close_data p = PyNone ->
  (status p = CLOSED -> Dec.gtb (remaining_quantity p) Dec.zero = false) ->
  _create_position_from_dict now (to_dict p) a
  = Ok (set_margin_type None (set_asset a p)).
Proof.
  intros Hcd Hclosed.
  pose proof (gtb_false_of_status p Hclosed) as Hreset.
  unfold _create_position_from_dict, to_dict. cbn -[mapM map truthy].
  rewrite direction_of_value. cbn -[mapM map truthy].
  replace (if truthy (PyStr (bot_strategy p))
           then Ok (PyStr (bot_strategy p)) else Ok (PyStr (bot_strategy p)))
    with (Ok (PyStr (bot_strategy p)) : result PyValue)
    by (destruct (truthy (PyStr (bot_strategy p))); reflexivity).
  assert (Hbs : as_str (py_or (PyStr (bot_strategy p)) (PyStr "")) = Ok (bot_strategy p)).
  { unfold py_or. cbn [truthy].
    destruct (String.eqb_spec (bot_strategy p) "") as [E|_]; cbn; [now rewrite E|reflexivity]. }
  cbn -[mapM map truthy py_or].
  rewrite Hbs, !(decimal_parse_str RT laws), (fromisoformat_isoformat RT laws),
    as_optional_str_of, status_of_value, (create_take_profits_to_dict laws).
  cbn -[truthy]. rewrite Hcd. cbn [truthy].
  cbn [mbind result_bind is_closed status remaining_quantity set_status
       set_remaining_quantity set_take_profits].
  unfold is_closed, set_margin_type, set_asset, set_take_profits, set_status,
    set_remaining_quantity in *.
  cbn [status remaining_quantity]. rewrite Hreset. cbn. now rewrite Hcd.
Qed.



(** ** The repository: the cache of open positions *)

Section CacheFacts.

Context {RT : PyRuntime}.

Import FileRepository.

(** A key that is present splits the dictionary at its entry. *)
Lemma assoc_lookup_split {V : Type} (k : string) (d : list (string * V)) (v : V) :
  assoc_lookup k d = Some v ->
  exists d1 d2, d = d1 ++ (k, v) :: d2 /\ assoc_lookup k d1 = None.
Proof.
  induction d as [|[k' v'] d IH]; cbn; [discriminate|].
  destruct (String.eqb_spec k k') as [<-|Hne].
  - intros [= <-]. exists [], d. split; reflexivity.
  - intros H. destruct (IH H) as (d1 & d2 & -> & Hd1).
    exists ((k', v') :: d1), d2. split; [reflexivity|].
    cbn. destruct (String.eqb_spec k k'); [contradiction | exact Hd1].
Qed.

Lemma assoc_set_split {V : Type} (k : string) (d1 d2 : list (string * V)) (v v' : V) :
  assoc_lookup k d1 = None ->
  assoc_set k v' (d1 ++ (k, v) :: d2) = d1 ++ (k, v') :: d2.
Proof.
  induction d1 as [|[k1 v1] d1 IH]; cbn.
  - intros _. now rewrite String.eqb_refl.
  - destruct (String.eqb k k1); [discriminate|]. intros H. now rewrite IH.
Qed.

Lemma assoc_del_split {V : Type} (k : string) (d1 d2 : list (string * V)) (v : V) :
  assoc_lookup k d1 = None ->
  assoc_del k (d1 ++ (k, v) :: d2) = d1 ++ d2.
Proof.
  induction d1 as [|[k1 v1] d1 IH]; cbn.
  - intros _. now rewrite String.eqb_refl.
  - destruct (String.eqb k k1); [discriminate|]. intros H. now rewrite IH.
Qed.

Lemma assoc_set_absent {V : Type} (k : string) (d : list (string * V)) (v : V) :
  assoc_lookup k d = None -> assoc_set k v d = d ++ [(k, v)].
Proof.
  induction d as [|[k1 v1] d IH]; cbn; [reflexivity|].
  destruct (String.eqb k k1); [discriminate|]. intros H. now rewrite IH.
Qed.

Lemma assoc_lookup_absent_keys {V : Type} (k : string) (d : list (string * V)) :
  assoc_lookup k d = None -> forall k' v, In (k', v) d -> k' <> k.
Proof.
  induction d as [|[k1 v1] d IH]; cbn; [contradiction|].
  destruct (String.eqb_spec k k1) as [|Hne]; [discriminate|].
  intros H k' v [[= <- <-]|Hin]; [congruence|]. now apply (IH H k' v).
Qed.

(** All the positions of the cache, in the order [get_by_id] reads them. *)
Lemma all_positions_app (c1 c2 : Cache) :
  concat (map snd (c1 ++ c2)) = concat (map snd c1) ++ concat (map snd c2).
Proof. now rewrite map_app, concat_app. Qed.

Lemma find_app {A : Type} (f : A -> bool) (l1 l2 : list A) :
  find f (l1 ++ l2) = match find f l1 with Some x => Some x | None => find f l2 end.
Proof.
  induction l1 as [|x l1 IH]; [reflexivity|]. cbn. destruct (f x); [reflexivity | exact IH].
Qed.

Lemma find_none_all {A : Type} (f : A -> bool) (l : list A) :
  (forall x, In x l -> f x = false) -> find f l = None.
Proof.
  induction l as [|x l IH]; [reflexivity|]. intros H. cbn.
  rewrite (H x (or_introl eq_refl)). apply IH. intros y Hy. apply H. now right.
Qed.

Lemma in_all_positions (cache : Cache) (q : Position) :
  In q (concat (map snd cache)) <-> exists k ps, In (k, ps) cache /\ In q ps.
Proof.
  rewrite in_concat. split.
  - intros (ps & Hps & Hq). apply in_map_iff in Hps. destruct Hps as ([k ps'] & <- & Hin).
    eauto.
  - intros (k & ps & Hin & Hq). exists ps. split; [|exact Hq].
    apply in_map_iff. exists (k, ps). auto.
Qed.

Lemma find_stored_list (position : Position) (positions : list Position) :
  find (fun p => String.eqb (position_id p) (position_id position))
       (stored_list position positions) = Some position.
Proof.
  unfold stored_list. induction positions as [|q ps IH]; cbn.
  - now rewrite String.eqb_refl.
  - destruct (String.eqb (position_id q) (position_id position)) eqn:E; cbn.
    + now rewrite String.eqb_refl.
    + destruct (first_index _ ps) as [i|]; cbn; rewrite E; exact IH.
Qed.

Lemma find_stored_list_other (id : string) (position : Position)
    (positions : list Position) :
  id <> position_id position ->
  find (fun p => String.eqb (position_id p) id) (stored_list position positions)
  = find (fun p => String.eqb (position_id p) id) positions.
Proof.
  intros Hne. unfold stored_list. induction positions as [|q ps IH]; cbn.
  - destruct (String.eqb_spec (position_id position) id); [congruence | reflexivity].
  - destruct (String.eqb_spec (position_id q) (position_id position)) as [E|_]; cbn.
    + destruct (String.eqb_spec (position_id position) id); [congruence|].
      destruct (String.eqb_spec (position_id q) id); [congruence | reflexivity].
    + destruct (first_index _ ps) as [i|]; cbn;
        destruct (String.eqb (position_id q) id); try reflexivity; exact IH.
Qed.

Lemma save_in_cache_split (position : Position) (cache : Cache) :
  (exists c1 c2 old,
      cache = c1 ++ (_generate_key position, old) :: c2 /\
      assoc_lookup (_generate_key position) c1 = None /\
      save_in_cache position cache
      = c1 ++ (_generate_key position, stored_list position old) :: c2) \/
  (assoc_lookup (_generate_key position) cache = None /\
   save_in_cache position cache = cache ++ [(_generate_key position, [position])]).
Proof.
  unfold save_in_cache.
  destruct (assoc_lookup (_generate_key position) cache) as [old|] eqn:Hl.
  - left. destruct (assoc_lookup_split _ _ _ Hl) as (c1 & c2 & -> & Hc1).
    exists c1, c2, old. split; [reflexivity|]. split; [exact Hc1|].
    rewrite Hl. cbn [default from_option id]. unfold stored_list.
    destruct (first_index _ old); now rewrite assoc_set_split.
  - right. split; [reflexivity|].
    rewrite (assoc_set_absent _ _ _ Hl).
    assert (Hl' : assoc_lookup (_generate_key position)
                    (cache ++ [(_generate_key position, [])]) = Some []).
    { clear -Hl. induction cache as [|[k ps] cache IH]; cbn in *.
      - now rewrite String.eqb_refl.
      - destruct (String.eqb _ k); [discriminate | now apply IH]. }
    rewrite Hl'. cbn.
    now rewrite (assoc_set_split _ cache [] [] [position] Hl).
Qed.

End CacheFacts.

(** The lookups after the cache part of [save]. *)
Lemma save_in_cache_lookups {RT : PyRuntime} (position : Position)
    (cache : FileRepository.Cache) :
  (forall key positions q,
      In (key, positions) cache ->
      key <> FileRepository._generate_key position -> In q positions ->
      position_id q <> position_id position) ->
  FileRepository.get_by_id (position_id position)
    (FileRepository.save_in_cache position cache) = Some position /\
  forall id, id <> position_id position ->
    FileRepository.get_by_id id (FileRepository.save_in_cache position cache)
    = FileRepository.get_by_id id cache.
Proof.
  intros Hother. unfold FileRepository.get_by_id.
  destruct (save_in_cache_split position cache)
    as [(c1 & c2 & old & -> & Hc1 & ->)|(Hnone & ->)].
  - assert (H1 : forall id, id = position_id position ->
                 find (fun p => String.eqb (position_id p) id) (concat (map snd c1)) = None).
    { intros id ->. apply find_none_all. intros q Hq.
      apply in_all_positions in Hq. destruct Hq as (k & ps & Hin & Hq).
      apply String.eqb_neq. apply (Hother k ps q); [apply in_or_app; now left| |exact Hq].
      now apply (assoc_lookup_absent_keys _ _ Hc1 k ps). }
    split.
    + rewrite all_positions_app, find_app, (H1 _ eq_refl). cbn [map snd concat].
      now rewrite find_app, find_stored_list.
    + intros id Hid. rewrite !all_positions_app, !find_app. cbn [map snd concat].
      now rewrite !find_app, find_stored_list_other.
  - split.
    + rewrite all_positions_app, find_app. rewrite find_none_all.
      * cbn. now rewrite String.eqb_refl.
      * intros q Hq. apply in_all_positions in Hq. destruct Hq as (k & ps & Hin & Hq).
        apply String.eqb_neq. apply (Hother k ps q); [exact Hin| |exact Hq].
        now apply (assoc_lookup_absent_keys _ _ Hnone k ps).
    + intros id Hid. rewrite all_positions_app, find_app. cbn.
      destruct (find _ (concat (map snd cache))); [reflexivity|].
      destruct (String.eqb_spec (position_id position) id); [congruence | reflexivity].
Qed.

(** X18.  After [save], [get_by_id] finds the saved position under its id,
    provided no list of another key holds a position with the same id; the
    lookups of the other ids are unchanged.  The cache is updated before
    the file is written, so this holds even when the write raises. *)
Theorem save_then_get_by_id
    {RT : PyRuntime} (D : Type)
    (_save_positions_transactional : FileRepository.Cache -> D -> result unit * D)
    (position : Position) (self : FileRepository.Repository D) :
  (forall key positions q,
      In (key, positions) (FileRepository.positions_cache D self) ->
      key <> FileRepository._generate_key position -> In q positions ->
      position_id q <> position_id position) ->
  let self' :=
    (FileRepository.save D _save_positions_transactional position self).2 in
  FileRepository.get_by_id (position_id position)
    (FileRepository.positions_cache D self') = Some position /\
  forall id, id <> position_id position ->
    FileRepository.get_by_id id (FileRepository.positions_cache D self')
    = FileRepository.get_by_id id (FileRepository.positions_cache D self).
Proof.
  intros Hother. unfold FileRepository.save.
  destruct (_save_positions_transactional _ _) as [r d]. cbn.
  now apply save_in_cache_lookups.
Qed.

Lemma save_then_get_by_id_witness :
  let self' :=
    (FileRepository.save unit (fun _ d => (Ok tt, d)) example_position_in_progress
       (FileRepository.mkRepository unit
          [("trend_default_1h_BTCUSDT", [example_position])] tt)).2 in
  FileRepository.get_by_id (position_id example_position_in_progress)
    (FileRepository.positions_cache unit self') = Some example_position_in_progress /\
  forall id, id <> position_id example_position_in_progress ->
    FileRepository.get_by_id id (FileRepository.positions_cache unit self')
    = FileRepository.get_by_id id [("trend_default_1h_BTCUSDT", [example_position])].
Proof.
  apply (@save_then_get_by_id example_runtime unit (fun _ d => (Ok tt, d))
           example_position_in_progress
           (FileRepository.mkRepository unit
              [("trend_default_1h_BTCUSDT", [example_position])] tt)).
  intros key positions q [[= <- <-]|[]] Hkey. exfalso. apply Hkey. reflexivity.
Defined.

Section DeleteFacts.

Context {RT : PyRuntime}.

Import FileRepository.

Local Abbreviation has_id id := (fun p : Position => String.eqb (position_id p) id).
Local Abbreviation other_id id := (fun p : Position => position_id p <> id).

Lemma store_list_split (key : string) (c1 c2 : Cache) (old new : list Position) :
  assoc_lookup key c1 = None ->
  concat (map snd (store_list key new (c1 ++ (key, old) :: c2)))
  = concat (map snd c1) ++ new ++ concat (map snd c2).
Proof.
  intros Hc1. unfold store_list. destruct new as [|x new].
  - rewrite (assoc_del_split _ _ _ _ Hc1). now rewrite all_positions_app.
  - rewrite (assoc_set_split _ _ _ _ _ Hc1). now rewrite all_positions_app.
Qed.

Lemma filter_other_none (id : string) (l : list Position) :
  (forall q, In q l -> position_id q <> id) -> filter (other_id id) l = l.
Proof.
  induction l as [|x l IH]; intros H; [reflexivity|].
  rewrite filter_cons. destruct (decide (position_id x <> id)) as [_|Hn].
  - f_equal. apply IH. intros q Hq. apply H. now right.
  - exfalso. apply Hn. apply H. now left.
Qed.

(** Without repeated ids, deleting the first position of an id is
    filtering the id out. *)
Lemma delete_first_index (id : string) (l : list Position) (i : nat) :
  NoDup (map position_id l) -> first_index (has_id id) l = Some i ->
  base.delete i l = filter (other_id id) l.
Proof.
  revert i. induction l as [|x l IH]; intros i Hnd Hi; [discriminate|].
  cbn in Hi. rewrite filter_cons. cbn in Hnd. apply NoDup_cons in Hnd.
  destruct Hnd as [Hx Hnd].
  destruct (String.eqb_spec (position_id x) id) as [E|Hne].
  - injection Hi as <-. cbn.
    destruct (decide (position_id x <> id)) as [Hn|_]; [contradiction|].
    symmetry. apply filter_other_none. intros q Hq E'.
    apply Hx. rewrite E, <- E'. apply list_elem_of_In. now apply in_map.
  - destruct (first_index (has_id id) l) as [j|] eqn:Hj; [|discriminate].
    cbn in Hi. injection Hi as <-. cbn.
    destruct (decide (position_id x <> id)) as [_|Hn]; [|contradiction].
    f_equal. now apply IH.
Qed.

Lemma first_index_some (id : string) (l : list Position) (i : nat) :
  first_index (has_id id) l = Some i -> exists q, In q l /\ position_id q = id.
Proof.
  revert i. induction l as [|x l IH]; intros i Hi; [discriminate|]. cbn in Hi.
  destruct (String.eqb_spec (position_id x) id) as [E|_].
  - exists x. split; [now left | exact E].
  - destruct (first_index (has_id id) l) as [j|]; [|discriminate].
    destruct (IH j eq_refl) as (q & Hq & E). exists q. split; [now right | exact E].
Qed.

Lemma find_other_filter (id id' : string) (l : list Position) :
  id' <> id ->
  find (has_id id') (filter (other_id id) l) = find (has_id id') l.
Proof.
  intros Hne. induction l as [|x l IH]; [reflexivity|].
  rewrite filter_cons. cbn [find].
  destruct (decide (position_id x <> id)) as [_|Hn].
  - cbn [find]. destruct (String.eqb (position_id x) id'); [reflexivity | exact IH].
  - destruct (String.eqb_spec (position_id x) id') as [E|_]; [|exact IH].
    exfalso. apply Hn. congruence.
Qed.

Lemma find_id_filter (id : string) (l : list Position) :
  find (has_id id) (filter (other_id id) l) = None.
Proof.
  apply find_none_all. intros q Hq. apply list_elem_of_In, list_elem_of_filter in Hq.
  destruct Hq as [Hq _]. now apply String.eqb_neq.
Qed.

Lemma find_some_in (id : string) (l : list Position) (p : Position) :
  find (has_id id) l = Some p -> In p l /\ position_id p = id.
Proof.
  intros H. apply find_some in H. destruct H as [Hin E].
  split; [exact Hin | now apply String.eqb_eq].
Qed.

(** With distinct ids, a list that holds the id is the only one. *)
Lemma ids_elsewhere (id : string) (X Y Z : list Position) (q : Position) :
  NoDup (map position_id (X ++ Y ++ Z)) -> In q Y -> position_id q = id ->
  (forall x, In x X -> position_id x <> id) /\
  (forall z, In z Z -> position_id z <> id).
Proof.
  intros Hnd Hq E. rewrite !map_app in Hnd.
  apply NoDup_app in Hnd. destruct Hnd as (_ & HX & Hnd).
  apply NoDup_app in Hnd. destruct Hnd as (_ & HY & _).
  assert (HqY : position_id q ∈ map position_id Y)
    by (apply list_elem_of_In; now apply in_map).
  split.
  - intros x Hx Ex. apply (HX (position_id x)).
    + apply list_elem_of_In. now apply in_map.
    + apply elem_of_app. left. now rewrite Ex, <- E.
  - intros z Hz Ez. apply (HY (position_id q) HqY).
    rewrite E, <- Ez. apply list_elem_of_In. now apply in_map.
Qed.

(** The state of the lookups once the id is filtered out of the one list
    that holds it. *)
Lemma lookups_after_removal (id : string) (X Y Z : list Position) (q : Position) :
  NoDup (map position_id (X ++ Y ++ Z)) -> In q Y -> position_id q = id ->
  find (has_id id) (X ++ filter (other_id id) Y ++ Z) = None /\
  forall id', id' <> id ->
    find (has_id id') (X ++ filter (other_id id) Y ++ Z)
    = find (has_id id') (X ++ Y ++ Z).
Proof.
  intros Hnd Hq E. destruct (ids_elsewhere id X Y Z q Hnd Hq E) as [HX HZ].
  split.
  - rewrite !find_app, find_id_filter.
    rewrite (find_none_all _ X), (find_none_all _ Z); [reflexivity| |];
      intros x Hx; apply String.eqb_neq; auto.
  - intros id' Hne. rewrite !find_app. now rewrite find_other_filter.
Qed.

Lemma search_all_keys_spec (id : string) (cache : Cache) (q : Position) :
  In q (concat (map snd cache)) -> position_id q = id ->
  exists c1 k ps c2,
    cache = c1 ++ (k, ps) :: c2 /\
    search_all_keys id cache = Some (k, filter (other_id id) ps) /\
    exists q', In q' ps /\ position_id q' = id.
Proof.
  induction cache as [|[k ps] cache IH]; [contradiction|].
  intros Hq E. cbn [map snd concat] in Hq. cbn [search_all_keys].
  destruct (Nat.ltb_spec (length (filter (other_id id) ps)) (length ps)) as [Hlt|Hge].
  - exists [], k, ps, cache. split; [reflexivity|]. split; [reflexivity|].
    destruct (decide (Forall (other_id id) ps)) as [Hall|Hnot].
    + rewrite filter_other_none in Hlt; [lia|].
      intros x Hx. rewrite Forall_forall in Hall. apply Hall. now apply list_elem_of_In.
    + apply not_Forall_Exists in Hnot; [|intros x; apply _].
      apply Exists_exists in Hnot. destruct Hnot as (x & Hx & Hn).
      exists x. split; [now apply list_elem_of_In|].
      destruct (decide (position_id x = id)); [assumption|contradiction].
  - assert (Hnone : forall x, In x ps -> position_id x <> id).
    { intros x Hx Ex.
      pose proof (length_filter_lt (other_id id) ps x) as Hlt.
      assert (length (filter (other_id id) ps) < length ps)%nat; [|lia].
      apply Hlt; [now apply list_elem_of_In | intros Hn; contradiction]. }
    apply in_app_or in Hq. destruct Hq as [Hq|Hq].
    + exfalso. now apply (Hnone q Hq).
    + destruct (IH Hq E) as (c1 & k' & ps' & c2 & -> & Hs & Hex).
      exists ((k, ps) :: c1), k', ps', c2. split; [reflexivity|]. split; assumption.
Qed.

Lemma nodup_keys_lookup (k : string) (c1 c2 : Cache) (ps : list Position) :
  NoDup (map fst (c1 ++ (k, ps) :: c2)) -> assoc_lookup k c1 = None.
Proof.
  intros Hnd. rewrite map_app in Hnd. apply NoDup_app in Hnd.
  destruct Hnd as (_ & Hdisj & _).
  assert (Hk : forall k' ps', In (k', ps') c1 -> k' <> k).
  { intros k' ps' Hin ->. apply (Hdisj k).
    - apply list_elem_of_In. apply in_map_iff. exists (k, ps'). auto.
    - cbn. apply list_elem_of_here. }
  clear Hdisj. induction c1 as [|[k1 ps1] c1 IH]; [reflexivity|]. cbn.
  destruct (String.eqb_spec k k1) as [->|_].
  - exfalso. apply (Hk k1 ps1); [now left | reflexivity].
  - apply IH. intros k' ps' Hin. apply (Hk k' ps'). now right.
Qed.

End DeleteFacts.

(** What [delete] does to the lookups. *)
Lemma delete_lookups
    {RT : PyRuntime} (D : Type)
    (_save_positions_transactional : FileRepository.Cache -> D -> result unit * D)
    (id : string) (position : Position) (self : FileRepository.Repository D) :
  NoDup (map fst (FileRepository.positions_cache D self)) ->
  NoDup (map position_id (concat (map snd (FileRepository.positions_cache D self)))) ->
  FileRepository.get_by_id id (FileRepository.positions_cache D self) = Some position ->
  let result := FileRepository.delete D _save_positions_transactional id self in
  let cache' := FileRepository.positions_cache D result.2 in
  FileRepository.get_by_id id cache' = None /\
  (forall id', id' <> id ->
     FileRepository.get_by_id id' cache'
     = FileRepository.get_by_id id' (FileRepository.positions_cache D self)) /\
  (result.1, FileRepository.disk D result.2)
  = _save_positions_transactional cache' (FileRepository.disk D self).
Proof.
  intros Hkeys Hids Hget. unfold FileRepository.delete. rewrite Hget.
  set (cache := FileRepository.positions_cache D self) in *.
  set (d := FileRepository.disk D self). clearbody cache d.
  unfold FileRepository.get_by_id in *.
  destruct (find_some_in id _ position Hget) as [Hin Hid].
  set (key := FileRepository._generate_key position).
  assert (Hcase :
    exists c1 k ps c2 new q,
      cache = c1 ++ (k, ps) :: c2 /\ new = filter (fun p => position_id p <> id) ps /\
      In q ps /\ position_id q = id /\
      match (match assoc_lookup key cache with
             | Some positions =>
                 first_index (fun p => String.eqb (position_id p) id) positions
             | None => None
             end) with
      | Some i =>
          FileRepository.store_list key
            (base.delete i (default [] (assoc_lookup key cache))) cache
      | None =>
          match FileRepository.search_all_keys id cache with
          | Some (cache_key, filtered_positions) =>
              FileRepository.store_list cache_key filtered_positions cache
          | None => cache
          end
      end = FileRepository.store_list k new cache /\
      (match (match assoc_lookup key cache with
              | Some positions =>
                  first_index (fun p => String.eqb (position_id p) id) positions
              | None => None
              end) with
       | Some _ => True
       | None => FileRepository.search_all_keys id cache <> None
       end)).
  { destruct (assoc_lookup key cache) as [positions|] eqn:Hl.
    - destruct (first_index _ positions) as [i|] eqn:Hi.
      + destruct (assoc_lookup_split _ _ _ Hl) as (c1 & c2 & Hc & Hc1).
        destruct (first_index_some id positions i Hi) as (q & Hq & Eq).
        exists c1, key, positions, c2, (filter (fun p => position_id p <> id) positions), q.
        split; [exact Hc|]. split; [reflexivity|]. split; [exact Hq|]. split; [exact Eq|].
        split; [|exact I]. cbn [default from_option Datatypes.id]. f_equal.
        apply delete_first_index; [|exact Hi].
        rewrite Hc, all_positions_app in Hids. cbn [map snd concat] in Hids.
        rewrite !map_app in Hids. apply NoDup_app in Hids. destruct Hids as (_ & _ & Hids).
        apply NoDup_app in Hids. tauto.
      + destruct (search_all_keys_spec id cache position Hin Hid)
          as (c1 & k & ps & c2 & Hc & Hs & q & Hq & Eq).
        exists c1, k, ps, c2, (filter (fun p => position_id p <> id) ps), q.
        rewrite Hs. repeat split; try assumption. discriminate.
    - destruct (search_all_keys_spec id cache position Hin Hid)
        as (c1 & k & ps & c2 & Hc & Hs & q & Hq & Eq).
      exists c1, k, ps, c2, (filter (fun p => position_id p <> id) ps), q.
      rewrite Hs. repeat split; try assumption. discriminate. }
  destruct Hcase as (c1 & k & ps & c2 & new & q & Hc & Hnew & Hq & Eq & Hstore & Hfound).
  assert (Hc1 : assoc_lookup k c1 = None)
    by (rewrite Hc in Hkeys; exact (nodup_keys_lookup k c1 c2 ps Hkeys)).
  assert (Hall' : concat (map snd (FileRepository.store_list k new cache))
                  = concat (map snd c1) ++ new ++ concat (map snd c2))
    by (rewrite Hc; now apply store_list_split).
  assert (Hall : concat (map snd cache)
                 = concat (map snd c1) ++ ps ++ concat (map snd c2))
    by (rewrite Hc, all_positions_app; reflexivity).
  rewrite Hall in Hids.
  destruct (lookups_after_removal id _ ps _ q Hids Hq Eq) as [Hnone Hothers].
  rewrite <- Hnew, <- Hall' in Hnone, Hothers. rewrite <- Hall in Hothers.
  destruct (match assoc_lookup key cache with
            | Some positions =>
                first_index (fun p => String.eqb (position_id p) id) positions
            | None => None
            end) as [i|].
  - rewrite Hstore. destruct (_save_positions_transactional _ d) as [r d'] eqn:Hw.
    cbn. rewrite Hw. auto.
  - destruct (FileRepository.search_all_keys id cache) as [[ck fp]|]; [|contradiction].
    rewrite Hstore. destruct (_save_positions_transactional _ d) as [r d'] eqn:Hw.
    cbn. rewrite Hw. auto.
Qed.

(** X19.  In a cache whose keys and whose position ids are distinct,
    [delete] of a stored id removes exactly that position: afterwards
    [get_by_id] of the id finds nothing, the lookups of the other ids are
    unchanged, and it is the new cache that is handed to the writer of the
    positions file. *)
Theorem delete_removes_the_position
    {RT : PyRuntime} (D : Type)
    (_save_positions_transactional : FileRepository.Cache -> D -> result unit * D)
    (id : string) (position : Position) (self : FileRepository.Repository D) :
  NoDup (map fst (FileRepository.positions_cache D self)) ->
  NoDup (map position_id (concat (map snd (FileRepository.positions_cache D self)))) ->
  FileRepository.get_by_id id (FileRepository.positions_cache D self) = Some position ->
  let result := FileRepository.delete D _save_positions_transactional id self in
  let cache' := FileRepository.positions_cache D result.2 in
  FileRepository.get_by_id id cache' = None /\
  (forall id', id' <> id ->
     FileRepository.get_by_id id' cache'
     = FileRepository.get_by_id id' (FileRepository.positions_cache D self)) /\
  (result.1, FileRepository.disk D result.2)
  = _save_positions_transactional cache' (FileRepository.disk D self).
Proof.
  intros Hkeys Hids Hget result cache'.
  destruct (delete_lookups D _save_positions_transactional id position self
              Hkeys Hids Hget) as (Hnone & Hothers & Hwritten).
  split; [exact Hnone|]. split; [exact Hothers | exact Hwritten].
Qed.

Lemma delete_removes_the_position_witness :
  let self :=
    FileRepository.mkRepository unit
      [("trend_default_1h_BTCUSDT", [example_position])] tt in
  let result := FileRepository.delete unit (fun _ d => (Ok tt, d)) "p-1" self in
  let cache' := FileRepository.positions_cache unit result.2 in
  FileRepository.get_by_id "p-1" cache' = None /\
  (forall id', id' <> "p-1"%string ->
     FileRepository.get_by_id id' cache'
     = FileRepository.get_by_id id' (FileRepository.positions_cache unit self)) /\
  (result.1, FileRepository.disk unit result.2) = (Ok tt, tt).
Proof.
  apply (@delete_removes_the_position example_runtime unit (fun _ d => (Ok tt, d))
           "p-1" example_position
           (FileRepository.mkRepository unit
              [("trend_default_1h_BTCUSDT", [example_position])] tt)).
  - cbn. apply NoDup_singleton.
  - cbn. apply NoDup_singleton.
  - reflexivity.
Defined.

Section UpdateFacts.

Context {RT : PyRuntime}.

Import FileRepository.

Lemma assoc_lookup_set_eq {V : Type} (k : string) (v : V) (d : list (string * V)) :
  assoc_lookup k (assoc_set k v d) = Some v.
Proof.
  induction d as [|[k1 v1] d IH]; cbn.
  - now rewrite String.eqb_refl.
  - destruct (String.eqb k k1) eqn:E; cbn; [now rewrite String.eqb_refl|].
    now rewrite E.
Qed.

Lemma assoc_lookup_app_here {V : Type} (k : string) (d1 d2 : list (string * V)) (v : V) :
  assoc_lookup k d1 = None -> assoc_lookup k (d1 ++ (k, v) :: d2) = Some v.
Proof.
  induction d1 as [|[k1 v1] d1 IH]; cbn.
  - intros _. now rewrite String.eqb_refl.
  - destruct (String.eqb k k1); [discriminate | exact IH].
Qed.

Lemma find_exists (id : string) (l : list Position) (q : Position) :
  In q l -> position_id q = id ->
  exists p, find (fun p => String.eqb (position_id p) id) l = Some p.
Proof.
  intros Hq E. destruct (find _ l) as [p|] eqn:Hf; [eauto|].
  exfalso. pose proof (find_none _ _ Hf q Hq) as Hn. cbn in Hn.
  rewrite E, String.eqb_refl in Hn. discriminate.
Qed.

(** Replacing a stored position keeps the ids of the list. *)
Lemma stored_list_ids (position : Position) (positions : list Position) (q : Position) :
  In q positions -> position_id q = position_id position ->
  map position_id (stored_list position positions) = map position_id positions.
Proof.
  unfold stored_list. induction positions as [|x ps IH]; [contradiction|].
  intros Hq E. cbn [first_index].
  destruct (String.eqb_spec (position_id x) (position_id position)) as [Ex|Hne].
  - cbn. now rewrite Ex.
  - destruct Hq as [->|Hq]; [contradiction|]. specialize (IH Hq E).
    destruct (first_index _ ps) as [i|]; cbn in *; [now f_equal|].
    f_equal. exact IH.
Qed.

(** The cache after [save] of a position already stored under its key:
    the same keys, the same ids. *)
Lemma save_in_cache_stored (position : Position) (cache : Cache)
    (positions : list Position) (q : Position) :
  assoc_lookup (_generate_key position) cache = Some positions ->
  In q positions -> position_id q = position_id position ->
  map fst (save_in_cache position cache) = map fst cache /\
  map position_id (concat (map snd (save_in_cache position cache)))
  = map position_id (concat (map snd cache)).
Proof.
  intros Hl Hq E.
  destruct (save_in_cache_split position cache)
    as [(c1 & c2 & old & Hc & Hc1 & Hs)|(Hnone & _)]; [|congruence].
  rewrite Hs, Hc. rewrite Hc, (assoc_lookup_app_here _ _ _ _ Hc1) in Hl.
  injection Hl as ->. split.
  - now rewrite !map_app.
  - rewrite !all_positions_app. cbn [map snd concat]. rewrite !map_app.
    now rewrite (stored_list_ids position positions q Hq E).
Qed.

(** With distinct ids, a position stored under its key has its id under
    no other key. *)
Lemma stored_under_its_key (position : Position) (cache : Cache)
    (positions : list Position) (q : Position) :
  NoDup (map fst cache) ->
  NoDup (map position_id (concat (map snd cache))) ->
  assoc_lookup (_generate_key position) cache = Some positions ->
  In q positions -> position_id q = position_id position ->
  forall key positions' q',
    In (key, positions') cache -> key <> _generate_key position ->
    In q' positions' -> position_id q' <> position_id position.
Proof.
  intros Hkeys Hids Hl Hq E key positions' q' Hin Hkey Hq' E'.
  destruct (assoc_lookup_split _ _ _ Hl) as (c1 & c2 & Hc & Hc1).
  rewrite Hc, all_positions_app in Hids. cbn [map snd concat] in Hids.
  destruct (ids_elsewhere (position_id position) _ positions _ q Hids Hq E) as [H1 H2].
  rewrite Hc in Hin. apply in_app_or in Hin. destruct Hin as [Hin|[Hin|Hin]].
  - apply (H1 q'); [|exact E']. apply in_all_positions. eauto.
  - injection Hin as <- <-. contradiction.
  - apply (H2 q'); [|exact E']. apply in_all_positions. eauto.
Qed.

End UpdateFacts.

(** X20.  On a working disk, in a cache whose keys and ids are distinct,
    [update] of a CLOSED position stored under its key moves it to the
    closed positions: afterwards [get_by_id] no longer finds it among the
    open positions (the other ids are untouched), the positions file holds
    the new cache, and the closed positions file has its record, stamped
    with [closed_at], appended under its key -- provided that file had no
    record of this id under the key. *)
Theorem update_moves_closed_position
    {RT : PyRuntime} (now : datetime) (position q : Position)
    (positions : list Position) (self : FileRepository.Repository Files) :
  let cache := FileRepository.positions_cache Files self in
  let key := FileRepository._generate_key position in
  let records :=
    default [] (assoc_lookup key (closed_positions_file (FileRepository.disk Files self))) in
  NoDup (map fst cache) ->
  NoDup (map position_id (concat (map snd cache))) ->
  assoc_lookup key cache = Some positions ->
  In q positions -> position_id q = position_id position ->
  status position = CLOSED ->
  existsb (fun record => is_str (position_id position) (dict_get "id" PyNone record))
          records = false ->
  exists self',
    update_on_disk now position self = (Ok tt, self') /\
    FileRepository.get_by_id (position_id position)
      (FileRepository.positions_cache Files self') = None /\
    (forall id, id <> position_id position ->
       FileRepository.get_by_id id (FileRepository.positions_cache Files self')
       = FileRepository.get_by_id id cache) /\
    positions_file (FileRepository.disk Files self')
    = FileRepository.positions_data (FileRepository.positions_cache Files self') /\
    assoc_lookup key (closed_positions_file (FileRepository.disk Files self'))
    = Some (records ++ [closed_record now position]).
Proof.
  intros cache key records Hkeys Hids Hl Hq E Hst Hnew.
  destruct self as [cache0 d]. cbn in cache, records. subst cache.
  pose proof (stored_under_its_key position cache0 positions q Hkeys Hids Hl Hq E)
    as Hother.
  destruct (save_in_cache_lookups position cache0 Hother) as [Hget1 Hothers1].
  destruct (save_in_cache_stored position cache0 positions q Hl Hq E) as [Hk1 Hi1].
  assert (Hfound : exists p, FileRepository.get_by_id (position_id position) cache0 = Some p).
  { apply (find_exists _ _ q); [|exact E]. apply in_all_positions. exists key, positions.
    split; [|exact Hq].
    destruct (assoc_lookup_split _ _ _ Hl) as (c1 & c2 & -> & _).
    apply in_or_app. right. now left. }
  destruct Hfound as [p0 Hfound].
  unfold update_on_disk, FileRepository.update. cbn [FileRepository.positions_cache].
  rewrite Hfound.
  unfold FileRepository.save, write_positions at 1.
  cbn [FileRepository.positions_cache FileRepository.disk].
  unfold is_closed. rewrite Hst.
  unfold FileRepository._handle_closed_position, is_closed. rewrite Hst. cbn [negb].
  unfold read_closed_positions at 1.
  cbn [FileRepository.disk closed_positions_file FileRepository.positions_cache].
  fold key.
  set (closed := closed_positions_file d) in *.
  set (closed0 := match assoc_lookup key closed with
                  | Some _ => closed
                  | None => assoc_set key [] closed
                  end).
  assert (Hrec : default [] (assoc_lookup key closed0) = records).
  { subst closed0 records. destruct (assoc_lookup key closed) eqn:Hc; [now rewrite Hc|].
    now rewrite assoc_lookup_set_eq. }
  rewrite Hrec, Hnew. rewrite Hrec.
  unfold write_closed_positions at 1, write_trade_outcome.
  cbn [positions_file closed_positions_file].
  set (cache1 := FileRepository.save_in_cache position cache0) in *.
  set (self1 := FileRepository.mkRepository Files cache1 _).
  assert (Hkeys1 : NoDup (map fst (FileRepository.positions_cache Files self1)))
    by (cbn; now rewrite Hk1).
  assert (Hids1 : NoDup (map position_id
                           (concat (map snd (FileRepository.positions_cache Files self1)))))
    by (cbn; now rewrite Hi1).
  destruct (delete_lookups Files write_positions (position_id position) position self1
              Hkeys1 Hids1 Hget1) as (Hnone & Hothers & Hwritten).
  destruct (FileRepository.delete Files write_positions (position_id position) self1)
    as [r self2] eqn:Hdel.
  cbn [fst snd] in Hnone, Hothers, Hwritten.
  unfold write_positions in Hwritten. injection Hwritten as -> Hdisk.
  exists self2. split; [reflexivity|]. split; [exact Hnone|]. split.
  - intros id Hid. rewrite (Hothers id Hid). cbn. now apply Hothers1.
  - rewrite Hdisk. cbn [positions_file closed_positions_file]. split; [reflexivity|].
    apply assoc_lookup_set_eq.
Qed.

Lemma update_moves_closed_position_witness :
  exists self',
    @update_on_disk example_runtime 9 example_position_closed example_file_repository
    = (Ok tt, self') /\
    FileRepository.get_by_id "p-1" (FileRepository.positions_cache Files self') = None /\
    (forall id, id <> "p-1"%string ->
       FileRepository.get_by_id id (FileRepository.positions_cache Files self')
       = FileRepository.get_by_id id
           (FileRepository.positions_cache Files example_file_repository)) /\
    positions_file (FileRepository.disk Files self')
    = FileRepository.positions_data (FileRepository.positions_cache Files self') /\
    assoc_lookup "trend_default_1h_BTCUSDT"
      (closed_positions_file (FileRepository.disk Files self'))
    = Some ([] ++ [@closed_record example_runtime 9 example_position_closed]).
Proof.
  apply (@update_moves_closed_position example_runtime 9 example_position_closed
           example_position [example_position] example_file_repository).
  - cbn. apply NoDup_singleton.
  - cbn. apply NoDup_singleton.
  - reflexivity.
  - now left.
  - reflexivity.
  - reflexivity.
  - reflexivity.
Defined.

(** X21.  When the closed positions file already has a record of this id
    under the key, [update] of a CLOSED position replaces that record but
    does not remove the position from the open ones: [get_by_id] still
    finds it in the cache afterwards. *)
Theorem update_keeps_position_already_recorded
    {RT : PyRuntime} (now : datetime) (position q : Position)
    (positions : list Position) (self : FileRepository.Repository Files) :
  let cache := FileRepository.positions_cache Files self in
  let key := FileRepository._generate_key position in
  let records :=
    default [] (assoc_lookup key (closed_positions_file (FileRepository.disk Files self))) in
  let same_id := fun record : list (string * PyValue) =>
    is_str (position_id position) (dict_get "id" PyNone record) in
  NoDup (map fst cache) ->
  NoDup (map position_id (concat (map snd cache))) ->
  assoc_lookup key cache = Some positions ->
  In q positions -> position_id q = position_id position ->
  status position = CLOSED ->
  existsb same_id records = true ->
  exists self',
    update_on_disk now position self = (Ok tt, self') /\
    FileRepository.get_by_id (position_id position)
      (FileRepository.positions_cache Files self') = Some position /\
    assoc_lookup key (closed_positions_file (FileRepository.disk Files self'))
    = Some (filter (fun record => same_id record = false) records
            ++ [closed_record now position]).
Proof.
  intros cache key records same_id Hkeys Hids Hl Hq E Hst Hold.
  destruct self as [cache0 d]. cbn in cache, records. subst cache.
  pose proof (stored_under_its_key position cache0 positions q Hkeys Hids Hl Hq E)
    as Hother.
  destruct (save_in_cache_lookups position cache0 Hother) as [Hget1 _].
  assert (Hfound : exists p, FileRepository.get_by_id (position_id position) cache0 = Some p).
  { apply (find_exists _ _ q); [|exact E]. apply in_all_positions. exists key, positions.
    split; [|exact Hq].
    destruct (assoc_lookup_split _ _ _ Hl) as (c1 & c2 & -> & _).
    apply in_or_app. right. now left. }
  destruct Hfound as [p0 Hfound].
  unfold update_on_disk, FileRepository.update. cbn [FileRepository.positions_cache].
  rewrite Hfound.
  unfold FileRepository.save, write_positions at 1.
  cbn [FileRepository.positions_cache FileRepository.disk].
  unfold is_closed. rewrite Hst.
  unfold FileRepository._handle_closed_position, is_closed. rewrite Hst. cbn [negb].
  unfold read_closed_positions at 1.
  cbn [FileRepository.disk closed_positions_file FileRepository.positions_cache].
  fold key.
  set (closed := closed_positions_file d) in *.
  set (closed0 := match assoc_lookup key closed with
                  | Some _ => closed
                  | None => assoc_set key [] closed
                  end).
  assert (Hrec : default [] (assoc_lookup key closed0) = records).
  { subst closed0 records. destruct (assoc_lookup key closed) eqn:Hc; [now rewrite Hc|].
    now rewrite assoc_lookup_set_eq. }
  rewrite Hrec. fold same_id. rewrite Hold.
  unfold write_closed_positions at 1, write_trade_outcome.
  eexists. split; [reflexivity|].
  cbn [FileRepository.positions_cache FileRepository.disk closed_positions_file].
  split; [exact Hget1|].
  rewrite assoc_lookup_set_eq. cbn [default from_option id].
  now rewrite assoc_lookup_set_eq.
Qed.

Lemma update_keeps_position_already_recorded_witness :
  exists self',
    @update_on_disk example_runtime 9 example_position_closed
      example_file_repository_closed_twice = (Ok tt, self') /\
    FileRepository.get_by_id "p-1" (FileRepository.positions_cache Files self')
    = Some example_position_closed /\
    assoc_lookup "trend_default_1h_BTCUSDT"
      (closed_positions_file (FileRepository.disk Files self'))
    = Some ([] ++ [@closed_record example_runtime 9 example_position_closed]).
Proof.
  apply (@update_keeps_position_already_recorded example_runtime 9
           example_position_closed example_position [example_position]
           example_file_repository_closed_twice).
  - cbn. apply NoDup_singleton.
  - cbn. apply NoDup_singleton.
  - reflexivity.
  - now left.
  - reflexivity.
  - reflexivity.
  - reflexivity.
Defined.

Section Filters.

Context {RT : PyRuntime}.

Import FileRepository.

Lemma is_str_true (s : string) (v : PyValue) : is_str s v = true <-> v = PyStr s.
Proof.
  destruct v; cbn; try (split; [discriminate | discriminate]).
  split.
  - intros H. apply String.eqb_eq in H. now subst.
  - intros [= ->]. apply String.eqb_refl.
Qed.

(** [_matches_filters] holds exactly when every filter on a known key
    carries the string the position has in that field. *)
Lemma matches_filters_spec (position : Position) (filters : list (string * PyValue)) :
  _matches_filters position filters = true <->
  forall key value field,
    In (key, value) filters -> filter_field key position = Some field ->
    value = PyStr field.
Proof.
  induction filters as [|[k v] filters IH].
  - cbn. split; [intros _ key value field [] | reflexivity].
  - cbn [_matches_filters]. unfold filter_field in *.
    assert (Hstep : forall field,
               (if negb (is_str field v) then false
                else _matches_filters position filters) = true <->
               v = PyStr field /\ _matches_filters position filters = true).
    { intros field. destruct (is_str field v) eqn:Es; cbn.
      - apply is_str_true in Es. tauto.
      - split; [discriminate|]. intros [Hv _]. apply is_str_true in Hv. congruence. }
    split.
    + intros H key value field [[= <- <-]|Hin] Hf.
      * destruct (String.eqb k "asset");
          [injection Hf as <-; now apply Hstep in H|].
        destruct (String.eqb k "direction");
          [injection Hf as <-; now apply Hstep in H|].
        destruct (String.eqb k "bot_strategy");
          [injection Hf as <-; now apply Hstep in H|].
        destruct (String.eqb k "timeframe");
          [injection Hf as <-; now apply Hstep in H|].
        destruct (String.eqb k "bot_settings");
          [injection Hf as <-; now apply Hstep in H|].
        discriminate.
      * assert (Hrest : _matches_filters position filters = true).
        { destruct (String.eqb k "asset"); [now apply Hstep in H|].
          destruct (String.eqb k "direction"); [now apply Hstep in H|].
          destruct (String.eqb k "bot_strategy"); [now apply Hstep in H|].
          destruct (String.eqb k "timeframe"); [now apply Hstep in H|].
          destruct (String.eqb k "bot_settings"); [now apply Hstep in H|].
          exact H. }
        apply (proj1 IH Hrest key value field Hin Hf).
    + intros H.
      assert (Hrest : _matches_filters position filters = true).
      { apply IH. intros key value field Hin Hf. apply (H key value field); [now right|exact Hf]. }
      pose proof (fun field => H k v field (or_introl eq_refl)) as Hk.
      destruct (String.eqb k "asset"); [apply Hstep; split; [now apply Hk|exact Hrest]|].
      destruct (String.eqb k "direction"); [apply Hstep; split; [now apply Hk|exact Hrest]|].
      destruct (String.eqb k "bot_strategy"); [apply Hstep; split; [now apply Hk|exact Hrest]|].
      destruct (String.eqb k "timeframe"); [apply Hstep; split; [now apply Hk|exact Hrest]|].
      destruct (String.eqb k "bot_settings"); [apply Hstep; split; [now apply Hk|exact Hrest]|].
      exact Hrest.
Qed.

End Filters.

(** X22.  [get_open_positions] returns exactly the positions of the cache
    that are not CLOSED and that carry, for each filter on one of the keys
    asset, direction, bot_strategy, timeframe and bot_settings, the string
    asked for; a filter on any other key is ignored, and no filter (or an
    empty one) returns every open position. *)
Theorem get_open_positions_exact
    {RT : PyRuntime} (filters : option (list (string * PyValue)))
    (cache : FileRepository.Cache) (position : Position) :
  In position (FileRepository.get_open_positions filters cache) <->
  In position (concat (map snd cache)) /\ status position = OPEN /\
  forall fs key value field,
    filters = Some fs -> In (key, value) fs ->
    filter_field key position = Some field -> value = PyStr field.
Proof.
  unfold FileRepository.get_open_positions.
  assert (Hopen : forall p : Position,
             In p (filter (fun p => is_closed p = false) (concat (map snd cache))) <->
             In p (concat (map snd cache)) /\ status p = OPEN).
  { intros p. rewrite <- !list_elem_of_In, list_elem_of_filter. unfold is_closed.
    destruct (status p); split; intros [H1 H2]; split; auto; discriminate. }
  destruct filters as [[|f fs]|].
  - rewrite Hopen. split; [|tauto]. intros [H1 H2]. split; [exact H1|]. split; [exact H2|].
    intros fs key value field [= <-] [].
  - rewrite <- list_elem_of_In, list_elem_of_filter, list_elem_of_In, Hopen.
    rewrite matches_filters_spec. split.
    + intros (Hm & Hin & Hst). split; [exact Hin|]. split; [exact Hst|].
      intros fs' key value field [= <-]. apply Hm.
    + intros (Hin & Hst & Hm). split; [|tauto]. intros key value field. now apply Hm.
  - rewrite Hopen. split; [|tauto]. intros [H1 H2]. split; [exact H1|]. split; [exact H2|].
    intros fs key value field [=].
Qed.

(** ** The repository: loading the positions file *)

Section Loading.

Context {RT : PyRuntime} (laws : PyRuntimeLaws RT).

Import FileRepository.

(** The positions that come back unchanged: no close data, and nothing
    left when CLOSED. *)
Local Abbreviation plain p :=
  (close_data p = PyNone /\
   (status p = CLOSED -> Dec.gtb (remaining_quantity p) Dec.zero = false)).

Lemma load_records_stored (now : datetime) (key : string) (positions : list Position) :
  (forall p, In p positions -> plain p) ->
  load_records now key (map (fun p => PyDict (to_dict p)) positions)
  = map (reloaded key) positions.
Proof.
  unfold load_records. induction positions as [|p ps IH]; intros H; [reflexivity|].
  cbn [map omap list_omap]. destruct (H p (or_introl eq_refl)) as [Hcd Hcl].
  change (as_dict (PyDict (to_dict p))
          ≫= (fun d => _create_position_from_dict now d (stored_asset key)))
    with (_create_position_from_dict now (to_dict p) (stored_asset key)).
  rewrite (create_position_from_stored laws now p (stored_asset key) Hcd Hcl).
  f_equal. apply IH. intros q Hq. apply H. now right.
Qed.

Lemma assoc_lookup_notin {V : Type} (k : string) (d : list (string * V)) :
  ~ In k (map fst d) -> assoc_lookup k d = None.
Proof.
  induction d as [|[k1 v1] d IH]; cbn; [reflexivity|].
  intros H. destruct (String.eqb_spec k k1) as [->|_]; [exfalso; auto|].
  apply IH. auto.
Qed.

Lemma load_items_stored (now : datetime) (items acc : Cache) :
  NoDup (map fst acc ++ map fst items) ->
  (forall key positions, In (key, positions) items ->
     positions <> [] /\ forall p, In p positions -> plain p) ->
  load_items now
    (map (fun '(key, positions) =>
            (key, PyList (map (fun p => PyDict (to_dict p)) positions))) items) acc
  = Some (acc ++ map (fun '(key, positions) => (key, map (reloaded key) positions)) items).
Proof.
  revert acc. induction items as [|[k ps] items IH]; intros acc Hnd Hgood.
  - cbn. now rewrite app_nil_r.
  - cbn [map load_items iterate].
    destruct (Hgood k ps (or_introl eq_refl)) as [Hne Hplain].
    rewrite (load_records_stored now k ps Hplain).
    destruct ps as [|p ps]; [contradiction|]. cbn [map].
    change (reloaded k p :: map (reloaded k) ps) with (map (reloaded k) (p :: ps)).
    assert (Hfresh : assoc_lookup k acc = None).
    { apply assoc_lookup_notin. intros Hin.
      apply NoDup_app in Hnd. destruct Hnd as (_ & Hdisj & _).
      apply (Hdisj k); [now apply list_elem_of_In | cbn; apply list_elem_of_here]. }
    rewrite (assoc_set_absent _ _ _ Hfresh).
    rewrite IH.
    + now rewrite <- app_assoc.
    + rewrite map_app. cbn [map fst]. rewrite <- app_assoc. exact Hnd.
    + intros key positions Hin. apply (Hgood key positions). now right.
Qed.

Lemma load_items_not_iterable (now : datetime) (items : list (string * PyValue))
    (acc : Cache) (key : string) (value : PyValue) :
  In (key, value) items -> iterate value = None -> load_items now items acc = None.
Proof.
  revert acc. induction items as [|[k v] items IH]; intros acc Hin Hit; [contradiction|].
  cbn [load_items]. destruct Hin as [[= -> ->]|Hin]; [now rewrite Hit|].
  destruct (iterate v); [|reflexivity]. now apply IH.
Qed.

End Loading.



(** X24.  One key of the positions file whose value cannot be iterated
    (JSON [null] or a number) makes [_load_positions] give up everything:
    the cache is empty, also for the valid keys read before it. *)
Theorem load_positions_gives_up_on_bad_key
    {RT : PyRuntime} (now : datetime) (items : list (string * PyValue))
    (key : string) (value : PyValue) :
  In (key, value) items -> value = PyNone \/ (exists n, value = PyInt n) ->
  FileRepository._load_positions now (FileRepository.Parsed (PyDict items)) = [].
Proof.
  intros Hin Hbad. unfold FileRepository._load_positions.
  rewrite (load_items_not_iterable now items [] key value Hin); [reflexivity|].
  destruct Hbad as [->|[n ->]]; reflexivity.
Qed.

Lemma load_positions_gives_up_on_bad_key_witness :
  @FileRepository._load_positions example_runtime 7
    (FileRepository.Parsed
       (PyDict [ ("trend_default_1h_BTCUSDT", PyList [PyDict (to_dict example_position)]);
                 ("trend_default_4h_ETHUSDT", PyNone) ])) = [].
Proof.
  apply (@load_positions_gives_up_on_bad_key example_runtime 7 _
           "trend_default_4h_ETHUSDT" PyNone).
  - right. now left.
  - now left.
Defined.

(** ** PositionService.close_position: the paths that work *)

Section ClosePaths.

Context {RT : PyRuntime} {R : Type} {repo : PositionRepository R}.
Variable exchange : ExchangeAdapter.
Variable average_fill_price : Order -> result (option Decimal).

Lemma py_min_same (d : Decimal) : Dec.py_min d d = d.
Proof. unfold Dec.py_min. now destruct (Dec.ltb d d). Qed.

Lemma leb_sub_same (d : Decimal) : Dec.leb (Dec.sub d d) Dec.zero = true.
Proof.
  apply leb_value. rewrite value_sub. change (Dec.value Dec.zero) with 0%Q. lra.
Qed.

(** Closing everything that remains closes the position and records the
    price, the quantity and the reason. *)
Lemma close_everything (p : Position) (now : datetime) (price : Decimal)
    (reason : string) (ext : option string) :
  status p = OPEN ->
  exists p' data,
    close p now price (remaining_quantity p) reason ext = Ok p' /\
    status p' = CLOSED /\ remaining_quantity p' = mkDecimal 0 0 /\
    asset p' = asset p /\ position_id p' = position_id p /\
    close_data p' = PyDict data /\
    dict_lookup "price" data = Some (PyStr (decimal_str price)) /\
    dict_lookup "quantity" data = Some (PyStr (decimal_str (remaining_quantity p))) /\
    dict_lookup "reason" data = Some (PyStr reason).
Proof.
  intros Hst. unfold close, is_closed. rewrite Hst, py_min_same.
  cbn [remaining_quantity set_remaining_quantity set_close_data].
  rewrite leb_sub_same. eexists. eexists. split; [reflexivity|].
  cbn [status remaining_quantity asset position_id close_data
       set_remaining_quantity set_status set_close_data].
  repeat (split; [reflexivity|]).
  destruct ext as [e|]; [destruct (String.eqb e "")|]; repeat split; reflexivity.
Qed.

Lemma call_close_reason (p : Position) (now : datetime) (price q : Decimal)
    (reason : string) :
  call_close p now price q [("reason", reason)]%string
  = close p now price q reason None.
Proof. reflexivity. Qed.

Lemma call_close_reason_id (p : Position) (now : datetime) (price q : Decimal)
    (reason order_id : string) :
  call_close p now price q [("reason", reason); ("external_id", order_id)]%string
  = close p now price q reason (Some order_id).
Proof. reflexivity. Qed.

End ClosePaths.

(** X25.  When the exchange accepts the closing order, [close_position]
    sends exactly one order, for the remaining quantity cut to the step
    size and in the reverse direction, then closes the position for its
    whole remaining quantity at the average fill price, records the reason,
    updates the repository with it and returns it with the order. *)
Theorem close_position_closes_after_order
    {RT : PyRuntime} {R : Type} {repo : PositionRepository R}
    (exchange : ExchangeAdapter)
    (average_fill_price : Order -> result (option Decimal))
    (position_id reason : string) (now : datetime) (w : World R)
    (position : Position) (a : Asset) (q price : Decimal) (order : Order)
    (order_id : string) :
  let s := reload_positions (repository_state w) in
  get_by_id position_id s = Some position ->
  status position = OPEN ->
  Dec.leb (remaining_quantity position) Dec.zero = false ->
  get_asset_info exchange (symbol (asset position)) = Ok a ->
  truncate_to_step_size a (remaining_quantity position) = Ok q ->
  (forall mn, min_quantity a = Some mn -> Dec.ltb q mn = false) ->
  place_market_order exchange a (reverse (direction position)) q
    (margin_parameters position).1 (margin_parameters position).2 = Ok order ->
  average_fill_price order = Ok (Some price) -> Dec.eqb price Dec.zero = false ->
  py_str (dict_get "orderId" (PyStr "N/A") order) = Ok order_id ->
  (forall p', (update p' s).1 = Ok tt) ->
  exists p' data,
    close_position exchange average_fill_price position_id reason now w
    = (Ok (p', Some order),
       mkWorld (update p' s).2
               (placed_orders w ++ [(a, reverse (direction position), q)])
               (Some p')) /\
    status p' = CLOSED /\ remaining_quantity p' = mkDecimal 0 0 /\
    close_data p' = PyDict data /\
    dict_lookup "price" data = Some (PyStr (decimal_str price)) /\
    dict_lookup "quantity" data
    = Some (PyStr (decimal_str (remaining_quantity position))) /\
    dict_lookup "reason" data = Some (PyStr reason).
Proof.
  intros s Hget Hopen Hrem Hasset Hq Hmin Horder Hfill Hprice Hid Hupdate.
  destruct (close_everything (set_asset a position) now price reason (Some order_id) Hopen)
    as (p' & data & Hclose & Hst & Hr & _ & _ & Hcd & Hp & Hqty & Hreason).
  exists p', data.
  split; [|repeat split; assumption].
  unfold close_position. cbn [repository_state]. fold s. rewrite Hget.
  unfold is_closed. rewrite Hopen, Hrem.
  unfold adjust_quantity. rewrite Hasset.
  change (remaining_quantity (set_asset a position)) with (remaining_quantity position).
  rewrite Hq.
  replace (match min_quantity a with
           | Some mn => Dec.ltb q mn
           | None => false
           end) with false
    by (destruct (min_quantity a) as [mn|]; [symmetry; now apply Hmin | reflexivity]).
  unfold place_close_order, send_order.
  change (margin_parameters (set_asset a position)) with (margin_parameters position).
  destruct (margin_parameters position) as [is_isolated side_effect_type].
  cbn [asset direction set_asset fst snd] in Horder |- *. rewrite Horder.
  rewrite Hfill, Hprice, Hid.
  change (remaining_quantity (set_asset a position)) with (remaining_quantity position).
  rewrite call_close_reason_id.
  change (remaining_quantity position) with (remaining_quantity (set_asset a position)).
  rewrite Hclose.
  unfold repository_update, set_object. cbn [repository_state placed_orders position_object].
  specialize (Hupdate p'). destruct (update p' s) as [r s']. cbn in Hupdate. subst r.
  reflexivity.
Qed.

Lemma close_position_closes_after_order_witness :
  exists p' data,
    @close_position example_runtime _ example_repository example_exchange_up
      (fun _ => Ok (Some (mkDecimal 101 0))) "p-1" "Closure requested" 9
      (mkWorld [example_position] [] None)
    = (Ok (p', Some example_order),
       mkWorld (@update example_runtime _ example_repository p' [example_position]).2
               ([] ++ [(example_asset, reverse (direction example_position),
                        mkDecimal 10 0)])
               (Some p')) /\
    status p' = CLOSED /\ remaining_quantity p' = mkDecimal 0 0 /\
    close_data p' = PyDict data /\
    dict_lookup "price" data = Some (PyStr (@decimal_str example_runtime (mkDecimal 101 0))) /\
    dict_lookup "quantity" data
    = Some (PyStr (@decimal_str example_runtime (remaining_quantity example_position))) /\
    dict_lookup "reason" data = Some (PyStr "Closure requested").
Proof.
  apply (@close_position_closes_after_order example_runtime _ example_repository
           example_exchange_up (fun _ => Ok (Some (mkDecimal 101 0)))
           "p-1" "Closure requested" 9 (mkWorld [example_position] [] None)
           example_position example_asset (mkDecimal 10 0) (mkDecimal 101 0)
           example_order "42"); try reflexivity.
  intros mn Hmn. discriminate Hmn.
Defined.

(** X26.  When the remaining quantity, once cut to the step size, is below
    the minimum of the asset, [close_position] sends no order: it closes
    the position for its whole remaining quantity at the current price,
    with the reason extended by "(Below minimum quantity)", updates the
    repository and returns the position without an order. *)
Theorem close_position_below_minimum_sends_no_order
    {RT : PyRuntime} {R : Type} {repo : PositionRepository R}
    (exchange : ExchangeAdapter)
    (average_fill_price : Order -> result (option Decimal))
    (position_id reason : string) (now : datetime) (w : World R)
    (position : Position) (a : Asset) (q mn price : Decimal) :
  let s := reload_positions (repository_state w) in
  get_by_id position_id s = Some position ->
  status position = OPEN ->
  Dec.leb (remaining_quantity position) Dec.zero = false ->
  get_asset_info exchange (symbol (asset position)) = Ok a ->
  truncate_to_step_size a (remaining_quantity position) = Ok q ->
  min_quantity a = Some mn -> Dec.ltb q mn = true ->
  get_current_price exchange a = Ok price ->
  (forall p', (update p' s).1 = Ok tt) ->
  exists p' data,
    close_position exchange average_fill_price position_id reason now w
    = (Ok (p', None), mkWorld (update p' s).2 (placed_orders w) (Some p')) /\
    status p' = CLOSED /\ remaining_quantity p' = mkDecimal 0 0 /\
    close_data p' = PyDict data /\
    dict_lookup "price" data = Some (PyStr (decimal_str price)) /\
    dict_lookup "reason" data
    = Some (PyStr (String.append reason " (Below minimum quantity)")).
Proof.
  intros s Hget Hopen Hrem Hasset Hq Hmin Hbelow Hprice Hupdate.
  destruct (close_everything (set_asset a position) now price
              (String.append reason " (Below minimum quantity)") None Hopen)
    as (p' & data & Hclose & Hst & Hr & _ & _ & Hcd & Hp & _ & Hreason).
  exists p', data.
  split; [|repeat split; assumption].
  unfold close_position. cbn [repository_state]. fold s. rewrite Hget.
  unfold is_closed. rewrite Hopen, Hrem.
  unfold adjust_quantity. rewrite Hasset.
  change (remaining_quantity (set_asset a position)) with (remaining_quantity position).
  rewrite Hq, Hmin, Hbelow, Hprice.
  rewrite call_close_reason.
  change (remaining_quantity position) with (remaining_quantity (set_asset a position)).
  rewrite Hclose.
  unfold repository_update, set_object. cbn [repository_state placed_orders position_object].
  specialize (Hupdate p'). destruct (update p' s) as [r s']. cbn in Hupdate. subst r.
  reflexivity.
Qed.

Lemma close_position_below_minimum_sends_no_order_witness :
  exists p' data,
    @close_position example_runtime _ example_repository example_exchange_minimum
      (fun _ => Ok None) "p-1" "Closure requested" 9
      (mkWorld [example_position] [] None)
    = (Ok (p', None),
       mkWorld (@update example_runtime _ example_repository p' [example_position]).2
               [] (Some p')) /\
    status p' = CLOSED /\ remaining_quantity p' = mkDecimal 0 0 /\
    close_data p' = PyDict data /\
    dict_lookup "price" data = Some (PyStr (@decimal_str example_runtime (mkDecimal 100 0))) /\
    dict_lookup "reason" data
    = Some (PyStr (String.append "Closure requested" " (Below minimum quantity)")).
Proof.
  apply (@close_position_below_minimum_sends_no_order example_runtime _
           example_repository example_exchange_minimum (fun _ => Ok None)
           "p-1" "Closure requested" 9 (mkWorld [example_position] [] None)
           example_position example_asset_minimum (mkDecimal 10 0) (mkDecimal 20 0)
           (mkDecimal 100 0)); reflexivity.
Defined.

(** X27.  When the refresh of the asset information fails,
    [close_position] does not go on with the original quantity: the
    quantity to execute was never bound, the [NameError] lands in the
    handler, which raises in turn.  No order is sent, the repository is
    not updated and the position stays OPEN. *)
Theorem close_position_raises_when_asset_info_fails
    {RT : PyRuntime} {R : Type} {repo : PositionRepository R}
    (exchange : ExchangeAdapter)
    (average_fill_price : Order -> result (option Decimal))
    (position_id reason : string) (now : datetime) (w : World R)
    (position : Position) (e0 : exn) :
  get_by_id position_id (reload_positions (repository_state w)) = Some position ->
  status position = OPEN ->
  Dec.leb (remaining_quantity position) Dec.zero = false ->
  get_asset_info exchange (symbol (asset position)) = Err e0 ->
  exists e,
    close_position exchange average_fill_price position_id reason now w
    = (Err e, mkWorld (reload_positions (repository_state w)) (placed_orders w)
                      (Some position)) /\
    (exn_kind e = TypeError \/ get_current_price exchange (asset position) = Err e).
Proof.
  intros Hget Hopen Hrem Hasset.
  unfold close_position. cbn [repository_state]. rewrite Hget.
  unfold is_closed. rewrite Hopen, Hrem.
  unfold adjust_quantity. rewrite Hasset.
  unfold place_close_order. destruct (margin_parameters position) as [i s].
  unfold raise. cbn [set_object repository_state placed_orders position_object].
  match goal with
  | |- context [close_failed ?ex ?p ?n ?r ?e ?w0] =>
      destruct (close_failed_raises ex p n r e w0) as (e' & He' & Hkind)
  end.
  exists e'. split; [exact He' | exact Hkind].
Qed.

Lemma close_position_raises_when_asset_info_fails_witness :
  exists e,
    @close_position example_runtime _ example_repository example_exchange_no_info
      (fun _ => Ok None) "p-1" "Closure requested" 9
      (mkWorld [example_position] [] None)
    = (Err e, mkWorld [example_position] [] (Some example_position)) /\
    (exn_kind e = TypeError \/
     get_current_price example_exchange_no_info (asset example_position) = Err e).
Proof.
  apply (@close_position_raises_when_asset_info_fails example_runtime _
           example_repository example_exchange_no_info (fun _ => Ok None)
           "p-1" "Closure requested" 9 (mkWorld [example_position] [] None)
           example_position (Raise ExchangeError "Connection reset")); reflexivity.
Defined.

(** ** The position a take profit signal applies to *)

Section FindPositionFacts.

Context {RT : PyRuntime}.
Variable datetime_lt : datetime -> datetime -> bool.
Hypothesis lt_asym : forall a b, datetime_lt a b = true -> datetime_lt b a = false.
Hypothesis lt_negtrans :
  forall a b c, datetime_lt a b = false -> datetime_lt b c = false ->
                datetime_lt a c = false.

Lemma key_lt_asym (k1 k2 : Z * datetime) :
  key_lt datetime_lt k1 k2 = true -> key_lt datetime_lt k2 k1 = false.
Proof.
  unfold key_lt. destruct k1 as [n1 t1], k2 as [n2 t2]. cbn [fst snd].
  intros H. apply Bool.orb_true_iff in H. apply Bool.orb_false_iff.
  destruct H as [H|H].
  - apply Z.ltb_lt in H. split; [apply Z.ltb_ge; lia|].
    apply Bool.andb_false_iff. left. apply Z.eqb_neq. lia.
  - apply Bool.andb_true_iff in H. destruct H as [He Ht]. apply Z.eqb_eq in He.
    split; [apply Z.ltb_ge; lia|].
    apply Bool.andb_false_iff. right. now apply lt_asym.
Qed.

Lemma key_lt_negtrans (k1 k2 k3 : Z * datetime) :
  key_lt datetime_lt k1 k2 = false -> key_lt datetime_lt k2 k3 = false ->
  key_lt datetime_lt k1 k3 = false.
Proof.
  unfold key_lt. destruct k1 as [n1 t1], k2 as [n2 t2], k3 as [n3 t3]. cbn [fst snd].
  intros H12 H23.
  apply Bool.orb_false_iff in H12, H23. destruct H12 as [L12 E12], H23 as [L23 E23].
  apply Z.ltb_ge in L12, L23.
  apply Bool.orb_false_iff. split; [apply Z.ltb_ge; lia|].
  apply Bool.andb_false_iff.
  destruct (Z.eqb_spec n1 n3) as [E|]; [right|now left].
  assert (n1 = n2) by lia. assert (n2 = n3) by lia. subst n2 n3.
  rewrite Z.eqb_refl in E12, E23. cbn in E12, E23.
  now apply (lt_negtrans t1 t2 t3).
Qed.

Lemma key_lt_irrefl (k : Z * datetime) : key_lt datetime_lt k k = false.
Proof.
  destruct (key_lt datetime_lt k k) eqn:E; [|reflexivity].
  pose proof (key_lt_asym k k E). congruence.
Qed.

Lemma head_insert_sorted (p : Position) (sorted : list Position) :
  head (insert_sorted datetime_lt p sorted)
  = Some (match head sorted with
          | Some m => if key_lt datetime_lt (tp_sort_key m) (tp_sort_key p) then m else p
          | None => p
          end).
Proof.
  destruct sorted as [|q sorted]; [reflexivity|]. cbn.
  now destruct (key_lt datetime_lt (tp_sort_key q) (tp_sort_key p)).
Qed.

(** The first element of the sorted candidates is one of them, and none
    has a smaller key. *)
Lemma head_sort_candidates (candidates : list Position) :
  candidates <> [] ->
  exists m, head (sort_candidates datetime_lt candidates) = Some m /\
            In m candidates /\
            forall z, In z candidates ->
                      key_lt datetime_lt (tp_sort_key z) (tp_sort_key m) = false.
Proof.
  induction candidates as [|x xs IH]; [contradiction|]. intros _.
  cbn [sort_candidates fold_right]. fold (sort_candidates datetime_lt xs).
  rewrite head_insert_sorted.
  destruct xs as [|y ys].
  - cbn. exists x. split; [reflexivity|]. split; [now left|].
    intros z [<-|[]]. apply key_lt_irrefl.
  - destruct (IH ltac:(discriminate)) as (m & Hm & Hin & Hmin). rewrite Hm.
    destruct (key_lt datetime_lt (tp_sort_key m) (tp_sort_key x)) eqn:E.
    + exists m. split; [reflexivity|]. split; [now right|].
      intros z [<-|Hz]; [now apply key_lt_asym | now apply Hmin].
    + exists x. split; [reflexivity|]. split; [now left|].
      intros z [<-|Hz]; [apply key_lt_irrefl|].
      apply (key_lt_negtrans _ (tp_sort_key m)); [now apply Hmin | exact E].
Qed.

Lemma not_executed_spec (level : Z) (p : Position) :
  negb (existsb (fun tp => level <=? tp_level tp) (take_profits p)) = true <->
  Forall (fun tp => tp_level tp < level) (take_profits p).
Proof.
  rewrite Bool.negb_true_iff. induction (take_profits p) as [|tp tps IH]; cbn.
  - split; [constructor | reflexivity].
  - rewrite Bool.orb_false_iff, IH, Forall_cons, Z.leb_gt. tauto.
Qed.

End FindPositionFacts.

(** X28.  [_find_position_for_tp] never selects a position that has
    already executed the requested level or a higher one: it returns a
    position of the list none of whose take profits reaches the level, with
    the largest number of take profits among such positions and, among
    those, a timestamp that none precedes; it returns [None] exactly when
    every position has already reached the level. *)
Theorem find_position_for_tp_selects_best
    {RT : PyRuntime} (datetime_lt : datetime -> datetime -> bool)
    (positions : list Position) (level : Z) :
  (forall a b, datetime_lt a b = true -> datetime_lt b a = false) ->
  (forall a b c, datetime_lt a b = false -> datetime_lt b c = false ->
                 datetime_lt a c = false) ->
  match _find_position_for_tp datetime_lt positions level with
  | Some p =>
      In p positions /\
      Forall (fun tp => tp_level tp < level) (take_profits p) /\
      forall q, In q positions ->
        Forall (fun tp => tp_level tp < level) (take_profits q) ->
        (length (take_profits q) <= length (take_profits p))%nat /\
        (length (take_profits q) = length (take_profits p) ->
         datetime_lt (timestamp q) (timestamp p) = false)
  | None =>
      forall q, In q positions ->
        ~ Forall (fun tp => tp_level tp < level) (take_profits q)
  end.
Proof.
  intros Hasym Hneg. unfold _find_position_for_tp.
  set (ok := fun p : Position =>
               negb (existsb (fun tp => level <=? tp_level tp) (take_profits p))).
  destruct (List.filter ok positions) as [|c cs] eqn:Hf.
  - intros q Hq Hall. apply not_executed_spec in Hall.
    assert (Hin : In q (List.filter ok positions)) by (apply filter_In; auto).
    rewrite Hf in Hin. contradiction.
  - destruct (head_sort_candidates datetime_lt Hasym Hneg (c :: cs) ltac:(discriminate))
      as (m & Hm & Hin & Hmin).
    rewrite Hm. rewrite <- Hf in Hin, Hmin. apply filter_In in Hin.
    destruct Hin as [Hin Hok]. split; [exact Hin|].
    split; [now apply not_executed_spec|].
    intros q Hq Hall. apply not_executed_spec in Hall.
    specialize (Hmin q ltac:(apply filter_In; auto)).
    unfold key_lt, tp_sort_key in Hmin. cbn [fst snd] in Hmin.
    apply Bool.orb_false_iff in Hmin. destruct Hmin as [Hlt Heq].
    apply Z.ltb_ge in Hlt. split; [lia|].
    intros Hlen. rewrite Hlen, Z.eqb_refl in Heq. exact Heq.
Qed.

Lemma find_position_for_tp_selects_best_witness :
  match @_find_position_for_tp example_runtime Z.ltb
          [example_position_in_progress; example_position] 2 with
  | Some p =>
      In p [example_position_in_progress; example_position] /\
      Forall (fun tp => tp_level tp < 2) (take_profits p) /\
      forall q, In q [example_position_in_progress; example_position] ->
        Forall (fun tp => tp_level tp < 2) (take_profits q) ->
        (length (take_profits q) <= length (take_profits p))%nat /\
        (length (take_profits q) = length (take_profits p) ->
         Z.ltb (timestamp q) (timestamp p) = false)
  | None =>
      forall q, In q [example_position_in_progress; example_position] ->
        ~ Forall (fun tp => tp_level tp < 2) (take_profits q)
  end.
Proof.
  apply (@find_position_for_tp_selects_best example_runtime Z.ltb
           [example_position_in_progress; example_position] 2).
  - intros a b H. apply Z.ltb_lt in H. apply Z.ltb_ge. lia.
  - intros a b c H1 H2. apply Z.ltb_ge in H1, H2. apply Z.ltb_ge. lia.
Defined.

(** ** PositionService.get_position_details *)

Section DetailsFacts.

Lemma dict_lookup_set_ne (k k' : string) (v : PyValue) (d : list (string * PyValue)) :
  k' <> k -> dict_lookup k' (dict_set k v d) = dict_lookup k' d.
Proof.
  intros Hne. induction d as [|[k1 v1] d IH]; cbn.
  - destruct (String.eqb_spec k' k); [contradiction | reflexivity].
  - destruct (String.eqb_spec k k1) as [<-|_]; cbn.
    + destruct (String.eqb_spec k' k); [contradiction | reflexivity].
    + destruct (String.eqb k' k1); [reflexivity | exact IH].
Qed.

Lemma dict_lookup_set_eq (k : string) (v : PyValue) (d : list (string * PyValue)) :
  dict_lookup k (dict_set k v d) = Some v.
Proof.
  induction d as [|[k1 v1] d IH]; cbn.
  - now rewrite String.eqb_refl.
  - destruct (String.eqb k k1) eqn:E; cbn; [now rewrite String.eqb_refl|].
    now rewrite E.
Qed.

Lemma details_error_keeps (k : string) (d : list (string * PyValue)) :
  ~ In k computed_keys ->
  dict_lookup k (details_error d) = dict_lookup k d.
Proof.
  intros H. unfold details_error. cbn in H.
  rewrite !dict_lookup_set_ne by intuition. reflexivity.
Qed.

Lemma details_error_reports (d : list (string * PyValue)) :
  dict_lookup "pnl_percentage" (details_error d) = Some (PyStr "Error").
Proof. unfold details_error. apply dict_lookup_set_eq. Qed.

End DetailsFacts.

(** X29.  [get_position_details] answers [None] for an unknown id.  For an
    OPEN position it never raises: it returns the dictionary of [to_dict],
    every key of which is kept, completed with a [pnl_percentage] (the text
    "Error" when the price or a computation failed).  For a position that
    is not OPEN it always raises [TypeError], so the details of a closed
    position cannot be obtained. *)
Theorem get_position_details_outcome
    {RT : PyRuntime} {R : Type} {repo : PositionRepository R}
    (exchange : ExchangeAdapter)
    (decimal_divide : Decimal -> Decimal -> result Decimal)
    (format_2f : Decimal -> string) (position_id : string) (s : R) :
  match get_by_id position_id s with
  | None =>
      get_position_details exchange decimal_divide format_2f position_id s = Ok None
  | Some position =>
      match status position with
      | OPEN =>
          exists details,
            get_position_details exchange decimal_divide format_2f position_id s
            = Ok (Some details) /\
            (forall k, ~ In k computed_keys ->
                       dict_lookup k details = dict_lookup k (to_dict position)) /\
            exists text, dict_lookup "pnl_percentage" details = Some (PyStr text)
      | CLOSED =>
          exists msg,
            get_position_details exchange decimal_divide format_2f position_id s
            = raise TypeError msg
      end
  end.
Proof.
  unfold get_position_details.
  destruct (get_by_id position_id s) as [position|]; [|reflexivity].
  destruct (status position); [|eexists; reflexivity].
  assert (Hkeep : forall k v d k',
             ~ In k' computed_keys -> In k computed_keys ->
             dict_lookup k' (dict_set k v d) = dict_lookup k' d).
  { intros k v d k' Hk' Hk. apply dict_lookup_set_ne. intros ->. contradiction. }
  destruct (get_current_price exchange (asset position)) as [price|e].
  2:{ eexists. split; [reflexivity|]. split.
      - intros k Hk. now apply details_error_keeps.
      - eexists. apply details_error_reports. }
  destruct (get_realized_pnl position) as [realized|e].
  2:{ eexists. split; [reflexivity|]. split.
      - intros k Hk. rewrite details_error_keeps by exact Hk.
        rewrite !Hkeep; try exact Hk; cbn; auto.
      - eexists. apply details_error_reports. }
  destruct (get_total_pnl position price) as [total|e].
  2:{ eexists. split; [reflexivity|]. split.
      - intros k Hk. rewrite details_error_keeps by exact Hk.
        rewrite !Hkeep; try exact Hk; cbn; auto.
      - eexists. apply details_error_reports. }
  destruct (get_pnl_percentage decimal_divide position price) as [percentage|e].
  2:{ eexists. split; [reflexivity|]. split.
      - intros k Hk. rewrite details_error_keeps by exact Hk.
        rewrite !Hkeep; try exact Hk; cbn; auto 10.
      - eexists. apply details_error_reports. }
  eexists. split; [reflexivity|]. split.
  - intros k Hk. rewrite !Hkeep; try exact Hk; cbn; auto 10.
  - eexists. apply dict_lookup_set_eq.
Qed.

(** ** PositionService.execute_take_profit *)


